(** * Data lake provisioning script (main.go): model and verified properties

    The Go program creates an S3 bucket, a Glue database, fetches NBA data
    over HTTP, uploads it as newline-delimited JSON, registers a Glue table
    and submits one Athena statement.  The functions of [main.go] are
    embedded as Rocq functions over an explicit program state; the services
    the program talks to are an interface ([Platform]) with an in-memory
    implementation ([Fake]) used to run the program on concrete worlds. *)

From Stdlib Require Import ZArith NArith List String Ascii Bool Lia.
From stdpp Require Import base strings gmap.
Import ListNotations.

Local Open Scope string_scope.
Local Open Scope Z_scope.
#[local] Arguments String.append !s1 s2 : simpl nomatch.

(** ** Byte strings

    A Go [string] is a sequence of bytes: [String.string], whose characters
    are the 8-bit [ascii]. *)

Definition byte_of (c : ascii) : N := N_of_ascii c.
Definition chr (n : N) : ascii := ascii_of_N n.

Definition newline : ascii := chr 10.
Definition NL : string := String newline EmptyString.

Fixpoint repeat_char (c : ascii) (n : nat) : string :=
  match n with
  | O => EmptyString
  | S k => String c (repeat_char c k)
  end.

Fixpoint first_bytes (n : nat) (s : string) : string :=
  match n, s with
  | S k, String c r => String c (first_bytes k r)
  | _, _ => EmptyString
  end.

Fixpoint skip_bytes (n : nat) (s : string) : string :=
  match n, s with
  | S k, String _ r => skip_bytes k r
  | _, _ => s
  end.

(** [contains s sub]: [sub] occurs in [s] as a contiguous run of bytes. *)
Definition contains (s sub : string) : Prop :=
  exists pre post, s = pre ++ sub ++ post.

(** ** strconv: decimal rendering of integers ([%d], [strconv.Itoa]) *)

Definition digit_char (d : N) : ascii := chr (48 + d).

Fixpoint utoa_loop (fuel : nat) (n : N) (acc : string) : string :=
  match fuel with
  | O => acc
  | S f =>
      let acc' := String (digit_char (n mod 10)) acc in
      if (n / 10 =? 0)%N then acc' else utoa_loop f (n / 10)%N acc'
  end.

Definition utoa (n : N) : string :=
  utoa_loop (S (N.to_nat (N.log2 n))) n EmptyString.

Definition itoa (z : Z) : string :=
  match z with
  | Z0 => "0"
  | Zpos p => utoa (Npos p)
  | Zneg p => "-" ++ utoa (Npos p)
  end.

Definition hex_char (d : N) : ascii :=
  if (d <? 10)%N then chr (48 + d) else chr (87 + d).

(** ** Decoded JSON values

    [json.Decoder.Decode] into an [interface{}] yields [nil], [bool],
    [float64], [string], [[]interface{}] or [map[string]interface{}].

    A [float64] obtained from a JSON literal is finite; it is represented by
    its sign and a decimal [mant * 10 ^ exp10].  Every finite [float64] has
    such a form (its shortest round-trip decimal, which is what
    [strconv.AppendFloat(_, _, _, -1, 64)] prints); the conversion of a
    literal to the nearest [float64] is left to the platform
    ([strconv_ParseFloat] below). *)

Record Number : Type := mkNumber {
  negative : bool;
  mant : N;
  exp10 : Z
}.

(** A Go map has no order and no duplicate keys; [encoding/json] writes it
    with its keys sorted.  The model keeps the entries in a list and sorts at
    encoding time. *)
Unset Elimination Schemes.
Inductive Value : Type :=
| VNil
| VBool (b : bool)
| VFloat64 (f : Number)
| VString (s : string)
| VSlice (items : list Value)
| VMap (entries : list (string * Value)).
Set Elimination Schemes.

(** A record of the batch: [map[string]interface{}]. *)
Definition Record_ : Type := list (string * Value).

Section ValueInduction.
Variable P : Value -> Prop.
Hypothesis HNil : P VNil.
Hypothesis HBool : forall b, P (VBool b).
Hypothesis HFloat : forall f, P (VFloat64 f).
Hypothesis HString : forall s, P (VString s).
Hypothesis HSlice : forall items, Forall P items -> P (VSlice items).
Hypothesis HMap :
  forall entries, Forall (fun kv => P (snd kv)) entries -> P (VMap entries).

Fixpoint Value_ind (v : Value) : P v :=
  match v with
  | VNil => HNil
  | VBool b => HBool b
  | VFloat64 f => HFloat f
  | VString s => HString s
  | VSlice items =>
      HSlice items
        ((fix all (l : list Value) : Forall P l :=
            match l with
            | [] => @List.Forall_nil _ P
            | x :: r => @List.Forall_cons _ P x r (Value_ind x) (all r)
            end) items)
  | VMap entries =>
      HMap entries
        ((fix all (l : list (string * Value))
            : Forall (fun kv => P (snd kv)) l :=
            match l with
            | [] => @List.Forall_nil _ (fun kv => P (snd kv))
            | kv :: r =>
                @List.Forall_cons _ (fun kv => P (snd kv)) kv r
                  (Value_ind (snd kv)) (all r)
            end) entries)
  end.
End ValueInduction.

(** The dynamic type name that a failed type assertion prints. *)
Definition type_name (v : Value) : string :=
  match v with
  | VNil => "nil"
  | VBool _ => "bool"
  | VFloat64 _ => "float64"
  | VString _ => "string"
  | VSlice _ => "[]interface {}"
  | VMap _ => "map[string]interface {}"
  end.

(** ** unicode/utf8: decoding one rune *)

Definition RuneError : N := 65533.

(** First-byte table of [utf8.DecodeRuneInString]: for a leading byte, the
    length of the sequence and the accepted range of the second byte. *)
Definition first_byte (b0 : N) : option (nat * N * N) :=
  if ((194 <=? b0) && (b0 <=? 223))%N then Some (2%nat, 128, 191)%N
  else if (b0 =? 224)%N then Some (3%nat, 160, 191)%N
  else if ((225 <=? b0) && (b0 <=? 236))%N then Some (3%nat, 128, 191)%N
  else if (b0 =? 237)%N then Some (3%nat, 128, 159)%N
  else if ((238 <=? b0) && (b0 <=? 239))%N then Some (3%nat, 128, 191)%N
  else if (b0 =? 240)%N then Some (4%nat, 144, 191)%N
  else if ((241 <=? b0) && (b0 <=? 243))%N then Some (4%nat, 128, 191)%N
  else if (b0 =? 244)%N then Some (4%nat, 128, 143)%N
  else None.

Definition continuation (b : N) : bool := ((128 <=? b) && (b <=? 191))%N.

Definition DecodeRuneInString (s : string) : N * nat :=
  match s with
  | EmptyString => (RuneError, 0%nat)
  | String c0 s1 =>
      let b0 := byte_of c0 in
      if (b0 <? 128)%N then (b0, 1%nat)
      else
        match first_byte b0 with
        | None => (RuneError, 1%nat)
        | Some (sz, lo, hi) =>
            match s1 with
            | EmptyString => (RuneError, 1%nat)
            | String c1 s2 =>
                let b1 := byte_of c1 in
                if ((b1 <? lo) || (hi <? b1))%N then (RuneError, 1%nat)
                else if (sz <=? 2)%nat then
                  (N.lor (N.shiftl (N.land b0 31) 6) (N.land b1 63), 2%nat)
                else
                  match s2 with
                  | EmptyString => (RuneError, 1%nat)
                  | String c2 s3 =>
                      let b2 := byte_of c2 in
                      if negb (continuation b2) then (RuneError, 1%nat)
                      else if (sz <=? 3)%nat then
                        (N.lor (N.shiftl (N.land b0 15) 12)
                           (N.lor (N.shiftl (N.land b1 63) 6) (N.land b2 63)),
                         3%nat)
                      else
                        match s3 with
                        | EmptyString => (RuneError, 1%nat)
                        | String c3 _ =>
                            let b3 := byte_of c3 in
                            if negb (continuation b3) then (RuneError, 1%nat)
                            else
                              (N.lor (N.shiftl (N.land b0 7) 18)
                                 (N.lor (N.shiftl (N.land b1 63) 12)
                                    (N.lor (N.shiftl (N.land b2 63) 6)
                                       (N.land b3 63))),
                               4%nat)
                        end
                  end
            end
        end
  end.

(** ** encoding/json: the encoder

    [json.Marshal] escapes HTML characters.  [htmlSafe b] is the table
    [htmlSafeSet]: the ASCII bytes copied as they are. *)

Definition htmlSafe (b : N) : bool :=
  ((32 <=? b) && (b <? 128) &&
   negb ((b =? 34) || (b =? 38) || (b =? 60) || (b =? 62) || (b =? 92)))%N.

(** The escape written for an ASCII byte that is not in the table, as of
    Go 1.20, the version the README asks for (later versions shorten two
    more control bytes, to [\b] and [\f]). *)
Definition escape_byte (b : N) : string :=
  if (b =? 92)%N then "\\"
  else if (b =? 34)%N then String "\" (String (chr 34) EmptyString)
  else if (b =? 10)%N then "\n"
  else if (b =? 13)%N then "\r"
  else if (b =? 9)%N then "\t"
  else
    "\u00" ++ String (hex_char (N.shiftr b 4))
                (String (hex_char (N.land b 15)) EmptyString).

(** The escape written for a byte that is not part of well-formed UTF-8. *)
Definition replacement_escape : string := "\ufffd".

(** The loop of [appendString]; every round consumes at least one byte, so
    [fuel = len(src)] rounds reach the end of [src]. *)
Fixpoint appendString_loop (fuel : nat) (src : string) : string :=
  match fuel with
  | O => EmptyString
  | S f =>
      match src with
      | EmptyString => EmptyString
      | String c rest =>
          let b := byte_of c in
          if (b <? 128)%N then
            if htmlSafe b then String c (appendString_loop f rest)
            else escape_byte b ++ appendString_loop f rest
          else
            let '(r, size) := DecodeRuneInString src in
            if ((r =? RuneError)%N && (size =? 1)%nat)%bool then
              replacement_escape ++ appendString_loop f rest
            else if ((r =? 8232) || (r =? 8233))%N then
              "\u202" ++ String (hex_char (N.land r 15))
                           (appendString_loop f (skip_bytes size src))
            else
              first_bytes size src ++ appendString_loop f (skip_bytes size src)
      end
  end.

Definition quote : string := String (chr 34) EmptyString.

Definition appendString (src : string) : string :=
  quote ++ appendString_loop (String.length src) src ++ quote.

(** The digits of a decimal without the zeros at its end, and the number
    of zeros removed. *)
Fixpoint strip_trailing_zeros (ds : string) : string * nat :=
  match ds with
  | EmptyString => (EmptyString, O)
  | String c r =>
      let '(t, k) := strip_trailing_zeros r in
      match t with
      | EmptyString =>
          if (byte_of c =? 48)%N then (EmptyString, S k)
          else (String c EmptyString, k)
      | _ => (String c t, k)
      end
  end.

(** [strconv.AppendFloat(b, f, 'e', -1, 64)] followed by the encoder's
    clean-up of [e-07] into [e-7]. *)
Definition format_e (ds : string) (x : Z) : string :=
  match ds with
  | EmptyString => "0"
  | String d r =>
      String d (match r with EmptyString => EmptyString | _ => "." ++ r end)
      ++ "e" ++ (if x <? 0 then "-" else "+") ++ utoa (Z.abs_N x)
  end.

(** [strconv.AppendFloat(b, f, 'f', -1, 64)]. *)
Definition format_f (ds : string) (e : Z) : string :=
  if 0 <=? e then ds ++ repeat_char "0" (Z.to_nat e)
  else
    let k := Z.to_nat (- e) in
    let n := String.length ds in
    if (k <? n)%nat then first_bytes (n - k) ds ++ "." ++ skip_bytes (n - k) ds
    else "0." ++ repeat_char "0" (k - n) ++ ds.

(** [floatEncoder]: format ['e'] below [1e-6] and from [1e21] on. *)
Definition formatFloat (f : Number) : string :=
  (if negative f then "-" else "") ++
  if (mant f =? 0)%N then "0"
  else
    let '(ds, k) := strip_trailing_zeros (utoa (mant f)) in
    let e := exp10 f + Z.of_nat k in
    let x := Z.of_nat (String.length ds) + e - 1 in
    if (x <? -6) || (21 <=? x) then format_e ds x else format_f ds e.

(** [slices.SortFunc] on the keys: insertion into a list sorted by
    [strings.Compare]. *)
Fixpoint insert_sorted (kv : string * string) (l : list (string * string))
  : list (string * string) :=
  match l with
  | [] => [kv]
  | kv' :: r =>
      if String.leb (fst kv) (fst kv') then kv :: l
      else kv' :: insert_sorted kv r
  end.

Fixpoint sort_keys (l : list (string * string)) : list (string * string) :=
  match l with
  | [] => []
  | kv :: r => insert_sorted kv (sort_keys r)
  end.

(** One member of an object: the key, a colon, the encoded value. *)
Definition member (kv : string * string) : string :=
  appendString (fst kv) ++ ":" ++ snd kv.

Fixpoint Marshal (v : Value) : string :=
  match v with
  | VNil => "null"
  | VBool true => "true"
  | VBool false => "false"
  | VFloat64 f => formatFloat f
  | VString s => appendString s
  | VSlice items => "[" ++ String.concat "," (List.map Marshal items) ++ "]"
  | VMap entries =>
      "{" ++
      String.concat ","
        (List.map member
           (sort_keys
              (List.map (fun kv => (fst kv, Marshal (snd kv))) entries)))
      ++ "}"
  end.

(** [json.Marshal(item)] for [item] a non-nil map. *)
Definition json_Marshal (item : Record_) : string := Marshal (VMap item).

(** ** convertToLineDelimitedJSON (main.go, lines 216-223)

    The loop appends to the builder; [sb] is the builder's content so far.
    The error of [json.Marshal] is discarded by the source; the encoder
    cannot fail on decoded values. *)
Fixpoint convert_loop (data : list Record_) (sb : string) : string :=
  match data with
  | [] => sb
  | item :: rest =>
      let jsonData := json_Marshal item in
      convert_loop rest (sb ++ (jsonData ++ NL))
  end.

Definition convertToLineDelimitedJSON (data : list Record_) : string :=
  convert_loop data EmptyString.

(** ** encoding/json: the scanner

    The scanner delimits one JSON value (RFC 8259) at the head of a text and
    returns its shape with number and string literals still raw. *)

Unset Elimination Schemes.
Inductive Syntax : Type :=
| SNull
| STrue
| SFalse
| SNumber (literal : string)
| SString (raw : string)
| SArray (items : list Syntax)
| SObject (members : list (string * Syntax)).
Set Elimination Schemes.

Definition isSpace (c : ascii) : bool :=
  let b := byte_of c in ((b =? 32) || (b =? 9) || (b =? 13) || (b =? 10))%N.

Fixpoint skip_ws (s : string) : string :=
  match s with
  | String c r => if isSpace c then skip_ws r else s
  | EmptyString => s
  end.

Definition is_digit (c : ascii) : bool :=
  let b := byte_of c in ((48 <=? b) && (b <=? 57))%N.

Definition is_hex (c : ascii) : bool :=
  let b := byte_of c in
  (((48 <=? b) && (b <=? 57)) || ((97 <=? b) && (b <=? 102))
   || ((65 <=? b) && (b <=? 70)))%N.

Fixpoint span_digits (s : string) : string * string :=
  match s with
  | String c r =>
      if is_digit c then let '(ds, rest) := span_digits r in (String c ds, rest)
      else (EmptyString, s)
  | EmptyString => (EmptyString, s)
  end.

Definition scan_sign (s : string) : string * string :=
  match s with
  | String "-"%char r => ("-", r)
  | _ => (EmptyString, s)
  end.

Definition scan_int (s : string) : option (string * string) :=
  match s with
  | String c r =>
      if (byte_of c =? 48)%N then Some ("0", r)
      else if is_digit c then
        let '(ds, rest) := span_digits r in Some (String c ds, rest)
      else None
  | EmptyString => None
  end.

Definition scan_frac (s : string) : option (string * string) :=
  match s with
  | String "."%char r =>
      match span_digits r with
      | (EmptyString, _) => None
      | (ds, rest) => Some (String "."%char ds, rest)
      end
  | _ => Some (EmptyString, s)
  end.

Definition scan_exp (s : string) : option (string * string) :=
  match s with
  | String c r =>
      if ((byte_of c =? 101) || (byte_of c =? 69))%N then
        let '(sg, r1) :=
          match r with
          | String c1 r' =>
              if ((byte_of c1 =? 43) || (byte_of c1 =? 45))%N
              then (String c1 EmptyString, r') else (EmptyString, r)
          | EmptyString => (EmptyString, r)
          end in
        match span_digits r1 with
        | (EmptyString, _) => None
        | (ds, rest) => Some (String c (sg ++ ds), rest)
        end
      else Some (EmptyString, s)
  | EmptyString => Some (EmptyString, s)
  end.

(** A number literal at the head of [s], and what follows it. *)
Definition scan_number (s : string) : option (string * string) :=
  let '(sg, s1) := scan_sign s in
  match scan_int s1 with
  | None => None
  | Some (i, s2) =>
      match scan_frac s2 with
      | None => None
      | Some (fr, s3) =>
          match scan_exp s3 with
          | None => None
          | Some (ex, s4) => Some (sg ++ i ++ fr ++ ex, s4)
          end
      end
  end.

Definition simple_escape (c : ascii) : bool :=
  let b := byte_of c in
  ((b =? 34) || (b =? 92) || (b =? 47) || (b =? 98) || (b =? 102)
   || (b =? 110) || (b =? 114) || (b =? 116))%N.

(** The inside of a string literal, after the opening quote: the raw text up
    to the closing quote, and what follows the quote. *)
Fixpoint scan_string (s : string) : option (string * string) :=
  match s with
  | EmptyString => None
  | String c r =>
      let b := byte_of c in
      if (b =? 34)%N then Some (EmptyString, r)
      else if (b =? 92)%N then
        match r with
        | String e r1 =>
            if simple_escape e then
              match scan_string r1 with
              | Some (raw, rest) => Some (String c (String e raw), rest)
              | None => None
              end
            else if (byte_of e =? 117)%N then
              match r1 with
              | String h1 (String h2 (String h3 (String h4 r2))) =>
                  if is_hex h1 && is_hex h2 && is_hex h3 && is_hex h4 then
                    match scan_string r2 with
                    | Some (raw, rest) =>
                        Some (String c (String e (String h1 (String h2
                                (String h3 (String h4 raw))))), rest)
                    | None => None
                    end
                  else None
              | _ => None
              end
            else None
        | EmptyString => None
        end
      else if (b <? 32)%N then None
      else
        match scan_string r with
        | Some (raw, rest) => Some (String c raw, rest)
        | None => None
        end
  end.

(** The rest of [s] when its first byte is [b]. *)
Definition next_is (b : N) (s : string) : option string :=
  match s with
  | String c r => if (byte_of c =? b)%N then Some r else None
  | EmptyString => None
  end.

Fixpoint scan_value (fuel : nat) (s : string) : option (Syntax * string) :=
  match fuel with
  | O => None
  | S f =>
      match skip_ws s with
      | EmptyString => None
      | String c r =>
          let b := byte_of c in
          if (b =? 123)%N then
            match next_is 125 (skip_ws r) with
            | Some r' => Some (SObject [], r')
            | None => scan_members f r []
            end
          else if (b =? 91)%N then
            match next_is 93 (skip_ws r) with
            | Some r' => Some (SArray [], r')
            | None => scan_elements f r []
            end
          else if (b =? 34)%N then
            match scan_string r with
            | Some (raw, rest) => Some (SString raw, rest)
            | None => None
            end
          else if String.prefix "null" (String c r) then
            Some (SNull, skip_bytes 4 (String c r))
          else if String.prefix "true" (String c r) then
            Some (STrue, skip_bytes 4 (String c r))
          else if String.prefix "false" (String c r) then
            Some (SFalse, skip_bytes 5 (String c r))
          else
            match scan_number (String c r) with
            | Some (lit, rest) => Some (SNumber lit, rest)
            | None => None
            end
      end
  end

with scan_elements (fuel : nat) (s : string) (acc : list Syntax)
  : option (Syntax * string) :=
  match fuel with
  | O => None
  | S f =>
      match scan_value f s with
      | None => None
      | Some (v, r) =>
          match next_is 44 (skip_ws r) with
          | Some r' => scan_elements f r' (acc ++ [v])
          | None =>
              match next_is 93 (skip_ws r) with
              | Some r' => Some (SArray (acc ++ [v]), r')
              | None => None
              end
          end
      end
  end

with scan_members (fuel : nat) (s : string) (acc : list (string * Syntax))
  : option (Syntax * string) :=
  match fuel with
  | O => None
  | S f =>
      match next_is 34 (skip_ws s) with
      | None => None
      | Some r =>
          match scan_string r with
          | None => None
          | Some (key, r1) =>
              match next_is 58 (skip_ws r1) with
              | None => None
              | Some r2 =>
                  match scan_value f r2 with
                  | None => None
                  | Some (v, r3) =>
                      match next_is 44 (skip_ws r3) with
                      | Some r4 => scan_members f r4 (acc ++ [(key, v)])
                      | None =>
                          match next_is 125 (skip_ws r3) with
                          | Some r4 => Some (SObject (acc ++ [(key, v)]), r4)
                          | None => None
                          end
                      end
                  end
              end
          end
      end
  end.

(** One JSON text: a single value with nothing but white space around it.
    This is [json.Valid], without its limit of 10000 nesting levels. *)
Definition parse_text (s : string) : option Syntax :=
  match scan_value (String.length s) s with
  | Some (t, rest) =>
      match skip_ws rest with
      | EmptyString => Some t
      | _ => None
      end
  | None => None
  end.

Definition is_object (t : Syntax) : bool :=
  match t with SObject _ => true | _ => false end.

(** The text parses, on its own, as a JSON object. *)
Definition parses_as_object (s : string) : bool :=
  match parse_text s with
  | Some t => is_object t
  | None => false
  end.

(** ** Go errors

    [errorString] is an error with an opaque message ([errors.New],
    [fmt.Errorf] without [%w], and the errors of libraries and services);
    [s3_NotFound] is the typed error [*s3types.NotFound]; [wrapError] is the
    value built by [fmt.Errorf] with [%w] (and by the SDK around a service
    error): its own message and the error it wraps. *)

Inductive error : Type :=
| errorString (msg : string)
| s3_NotFound (msg : string)
| wrapError (msg : string) (err : error).

Definition Error (e : error) : string :=
  match e with
  | errorString msg => msg
  | s3_NotFound msg => msg
  | wrapError msg _ => msg
  end.

(** [fmt.Errorf(prefix + "%w", err)]. *)
Definition Errorf_w (prefix : string) (err : error) : error :=
  wrapError (prefix ++ Error err) err.

(** [errors.As(err, &notFound)] for [notFound] of type [*s3types.NotFound]:
    the chain of wrapped errors is searched for one of that type. *)
Fixpoint errors_As_NotFound (err : error) : bool :=
  match err with
  | errorString _ => false
  | s3_NotFound _ => true
  | wrapError _ inner => errors_As_NotFound inner
  end.

Inductive result (A : Type) : Type :=
| Ok (a : A)
| Err (e : error).
Arguments Ok {A} a.
Arguments Err {A} e.

(** ** encoding/json: from the scanned text to Go values *)

Definition hex_val (c : ascii) : N :=
  let b := byte_of c in
  if ((48 <=? b) && (b <=? 57))%N then b - 48
  else if ((97 <=? b) && (b <=? 102))%N then b - 87
  else b - 55.

(** [getu4]: the code unit of a [\uXXXX] escape at the head of [s]. *)
Definition getu4 (s : string) : option N :=
  match s with
  | String "\"%char (String "u"%char
      (String h1 (String h2 (String h3 (String h4 _))))) =>
      if is_hex h1 && is_hex h2 && is_hex h3 && is_hex h4 then
        Some (hex_val h1 * 4096 + hex_val h2 * 256 + hex_val h3 * 16
              + hex_val h4)%N
      else None
  | _ => None
  end.

Definition IsSurrogate (r : N) : bool := ((55296 <=? r) && (r <? 57344))%N.

(** [utf16.DecodeRune]. *)
Definition utf16_DecodeRune (r1 r2 : N) : N :=
  if ((55296 <=? r1) && (r1 <? 56320) && (56320 <=? r2) && (r2 <? 57344))%N
  then (N.lor (N.shiftl (r1 - 55296) 10) (r2 - 56320) + 65536)%N
  else RuneError.

(** [utf8.EncodeRune]. *)
Definition EncodeRune (r : N) : string :=
  let cont (x : N) : ascii := chr (N.lor 128 (N.land x 63)) in
  if (r <=? 127)%N then String (chr r) EmptyString
  else if (r <=? 2047)%N then
    String (chr (N.lor 192 (N.shiftr r 6))) (String (cont r) EmptyString)
  else if ((1114111 <? r) || IsSurrogate r)%N then
    String (chr 239) (String (chr 191) (String (chr 189) EmptyString))
  else if (r <=? 65535)%N then
    String (chr (N.lor 224 (N.shiftr r 12)))
      (String (cont (N.shiftr r 6)) (String (cont r) EmptyString))
  else
    String (chr (N.lor 240 (N.shiftr r 18)))
      (String (cont (N.shiftr r 12))
         (String (cont (N.shiftr r 6)) (String (cont r) EmptyString))).

Definition unescape (e : ascii) : ascii :=
  let b := byte_of e in
  if (b =? 98)%N then chr 8
  else if (b =? 102)%N then chr 12
  else if (b =? 110)%N then chr 10
  else if (b =? 114)%N then chr 13
  else if (b =? 116)%N then chr 9
  else e.

(** [unquoteBytes] on the raw inside of a scanned string literal: escapes are
    replaced and ill-formed UTF-8 is coerced to U+FFFD. *)
Fixpoint unquote_loop (fuel : nat) (s : string) : string :=
  match fuel with
  | O => EmptyString
  | S f =>
      match s with
      | EmptyString => EmptyString
      | String c r =>
          let b := byte_of c in
          if (b =? 92)%N then
            match r with
            | EmptyString => EmptyString
            | String e r1 =>
                if (byte_of e =? 117)%N then
                  match getu4 s with
                  | None => EmptyString
                  | Some rr =>
                      let s6 := skip_bytes 6 s in
                      if IsSurrogate rr then
                        match getu4 s6 with
                        | Some rr1 =>
                            let dec := utf16_DecodeRune rr rr1 in
                            if (dec =? RuneError)%N
                            then EncodeRune RuneError ++ unquote_loop f s6
                            else EncodeRune dec ++ unquote_loop f (skip_bytes 6 s6)
                        | None => EncodeRune RuneError ++ unquote_loop f s6
                        end
                      else EncodeRune rr ++ unquote_loop f s6
                  end
                else String (unescape e) (unquote_loop f r1)
            end
          else if (b <? 128)%N then String c (unquote_loop f r)
          else
            let '(rr, size) := DecodeRuneInString s in
            EncodeRune rr ++ unquote_loop f (skip_bytes size s)
      end
  end.

Definition unquote (raw : string) : string :=
  unquote_loop (String.length raw) raw.

(** [m[key] = v] on the list of entries. *)
Fixpoint map_set (key : string) (v : Value) (m : list (string * Value))
  : list (string * Value) :=
  match m with
  | [] => [(key, v)]
  | (k, v') :: r =>
      if String.eqb k key then (k, v) :: r else (k, v') :: map_set key v r
  end.

(** Nesting of arrays and objects, which the scanner limits to 10000. *)
Fixpoint nesting (t : Syntax) : N :=
  match t with
  | SArray items =>
      N.succ (List.fold_right (fun x d => N.max (nesting x) d) 0%N items)
  | SObject members =>
      N.succ
        (List.fold_right (fun kv d => N.max (nesting (snd kv)) d) 0%N members)
  | _ => 0%N
  end.

Definition maxNestingDepth : N := 10000.

Section Decoder.
(** [strconv.ParseFloat(literal, 64)]: the nearest [float64], or nothing
    when the literal is out of range. *)
Variable ParseFloat : string -> option Number.

Fixpoint build (t : Syntax) : option Value :=
  match t with
  | SNull => Some VNil
  | STrue => Some (VBool true)
  | SFalse => Some (VBool false)
  | SNumber lit =>
      match ParseFloat lit with
      | Some f => Some (VFloat64 f)
      | None => None
      end
  | SString raw => Some (VString (unquote raw))
  | SArray items =>
      match
        List.fold_left
          (fun acc x =>
             match acc, build x with
             | Some l, Some v => Some (l ++ [v])%list
             | _, _ => None
             end) items (Some ([] : list Value))
      with
      | Some l => Some (VSlice l)
      | None => None
      end
  | SObject members =>
      match
        List.fold_left
          (fun acc kv =>
             match acc, build (snd kv) with
             | Some m, Some v => Some (map_set (unquote (fst kv)) v m)
             | _, _ => None
             end) members (Some ([] : list (string * Value)))
      with
      | Some m => Some (VMap m)
      | None => None
      end
  end.

(** [json.NewDecoder(body).Decode(&result)] for [result] an [interface{}]:
    the first JSON value of the body; what follows it is not read. *)
Definition json_Decode (body : string) : result Value :=
  match skip_ws body with
  | EmptyString => Err (errorString "EOF")
  | s =>
      match scan_value (String.length s) s with
      | None => Err (errorString "invalid character in JSON input")
      | Some (t, _) =>
          if (maxNestingDepth <? nesting t)%N
          then Err (errorString "exceeded max depth")
          else
            match build t with
            | Some v => Ok v
            | None =>
                Err (errorString
                       "json: cannot unmarshal number into Go value of type float64")
            end
      end
  end.
End Decoder.

(** ** Requests, responses and the calls the program issues *)

Record Request : Type := mkRequest {
  Method : string;
  URL : string;
  Header : list (string * string)
}.

(** [req.Header.Add(key, value)]. *)
Definition Header_Add (req : Request) (key value : string) : Request :=
  mkRequest (Method req) (URL req) (Header req ++ [(key, value)]).

(** [Body] is the byte sequence the body stream delivers. *)
Record Response : Type := mkResponse {
  StatusCode : Z;
  Body : string
}.

Definition StatusOK : Z := 200.

Record TableInput : Type := mkTableInput {
  TableName : string;
  Columns : list (string * string);
  Location : string;
  InputFormat : string;
  OutputFormat : string
}.

(** What the process does to the outside, in the order it does it. *)
Inductive event : Type :=
| EvLoadDotenv
| EvLoadDefaultConfig (region : string)
| EvLog (line : string)
| EvHeadBucket (bucket : string)
| EvCreateBucket (bucket : string)
| EvSleep (seconds : Z)
| EvCreateDatabase (name : string)
| EvHttpDo (req : Request)
| EvBodyClose
| EvPutObject (bucket key body : string) (contentLength : Z)
| EvCreateTable (database : string) (table : TableInput)
| EvStartQueryExecution (database query outputLocation : string).

(** The requests that leave the machine. *)
Definition is_network_call (e : event) : bool :=
  match e with
  | EvHeadBucket _ | EvCreateBucket _ | EvCreateDatabase _ | EvHttpDo _
  | EvPutObject _ _ _ _ | EvCreateTable _ _ | EvStartQueryExecution _ _ _ =>
      true
  | _ => false
  end.

(** ** The platform: environment, AWS clients, HTTP client

    [W] is the state of everything outside the process.  A client call
    answers with [None] (the Go [nil] error) or an error, and a new outside
    state. *)
Class Platform (W : Type) : Type := {
  godotenv_Load : W -> option error * W;
  os_Getenv : string -> W -> string;
  config_LoadDefaultConfig : string -> W -> option error * W;
  s3_HeadBucket : string -> W -> option error * W;
  s3_CreateBucket : string -> W -> option error * W;
  s3_PutObject : string -> string -> string -> Z -> W -> option error * W;
  glue_CreateDatabase : string -> W -> option error * W;
  glue_CreateTable : string -> TableInput -> W -> option error * W;
  athena_StartQueryExecution :
    string -> string -> string -> W -> option error * W;
  url_Parse : string -> option error;
  http_Do : Request -> W -> result Response * W;
  strconv_ParseFloat : string -> option Number;
  time_Sleep : Z -> W -> W
}.

(** ** Program state and the monad of the embedding *)

Record State (W : Type) : Type := mkState {
  world : W;
  trace : list event;
  apiKey : string;
  nbaEndpoint : string
}.
Arguments mkState {W} _ _ _ _.
Arguments world {W} _.
Arguments trace {W} _.
Arguments apiKey {W} _.
Arguments nbaEndpoint {W} _.

(** How a piece of Go code ends: it returns, the process exits ([os.Exit],
    here through [log.Fatal]), or it panics. *)
Inductive outcome (A : Type) : Type :=
| Done (a : A)
| Exit (code : Z)
| Panic (msg : string).
Arguments Done {A} a.
Arguments Exit {A} code.
Arguments Panic {A} msg.

Definition M (W A : Type) : Type := State W -> outcome A * State W.

Definition ret {W A} (a : A) : M W A := fun s => (Done a, s).

Definition bind {W A B} (m : M W A) (k : A -> M W B) : M W B :=
  fun s =>
    match m s with
    | (Done a, s') => k a s'
    | (Exit code, s') => (Exit code, s')
    | (Panic msg, s') => (Panic msg, s')
    end.

Declare Scope go_scope.
Delimit Scope go_scope with go.
Notation "x <- m ;; k" := (bind m (fun x => k))
  (at level 100, m at level 99, k at level 200, right associativity)
  : go_scope.
Notation "m ;; k" := (bind m (fun _ => k))
  (at level 100, k at level 200, right associativity) : go_scope.
Local Open Scope go_scope.

(** [defer cleanup] around [body]: [cleanup] runs when [body] returns and
    when it panics, not when the process exits. *)
Definition defer {W A} (cleanup : M W unit) (body : M W A) : M W A :=
  fun s =>
    match body s with
    | (Exit code, s') => (Exit code, s')
    | (o, s') =>
        match cleanup s' with
        | (Done _, s'') => (o, s'')
        | (Exit code, s'') => (Exit code, s'')
        | (Panic msg, s'') => (Panic msg, s'')
        end
    end.

Section Program.
Context {W : Type} `{Platform W}.

Definition emit (e : event) : M W unit :=
  fun s => (Done tt, mkState (world s) (trace s ++ [e]) (apiKey s)
                       (nbaEndpoint s)).

(** A client call: the event is recorded and the outside answers. *)
Definition call {A} (e : event) (f : W -> A * W) : M W A :=
  fun s =>
    let '(a, w') := f (world s) in
    (Done a, mkState w' (trace s ++ [e]) (apiKey s) (nbaEndpoint s)).

Definition exit {A} (code : Z) : M W A := fun s => (Exit code, s).

(** [log.Printf] and [log.Println], on the formatted line. *)
Definition log_Printf (line : string) : M W unit := emit (EvLog line).
Definition log_Println (line : string) : M W unit := emit (EvLog line).

(** [log.Fatal] and [log.Fatalf]: the line is logged, then [os.Exit(1)]. *)
Definition log_Fatal {A} (line : string) : M W A :=
  emit (EvLog line) ;; exit 1.

(** ** Package variables (main.go, lines 26-33) *)
Definition region : string := "us-east-1".
Definition bucketName : string := "sports-analytics-data-lake3".
Definition glueDBName : string := "glue_nba_data_lake".
(** [fmt.Sprintf(athenaOutputLoc, b)] for ["s3://%s/athena-results/"]. *)
Definition athenaOutputLoc (b : string) : string :=
  "s3://" ++ b ++ "/athena-results/".

Definition set_apiKey (v : string) : M W unit :=
  fun s => (Done tt, mkState (world s) (trace s) v (nbaEndpoint s)).
Definition set_nbaEndpoint (v : string) : M W unit :=
  fun s => (Done tt, mkState (world s) (trace s) (apiKey s) v).
Definition Getenv (name : string) : M W string :=
  fun s => (Done (os_Getenv name (world s)), s).

(** ** init (main.go, lines 35-51) *)
Definition init : M W unit :=
  err <- call EvLoadDotenv godotenv_Load ;;
  match err with
  | Some _ => log_Fatal "Error loading .env file"
  | None => ret tt
  end ;;
  v <- Getenv "SPORTS_DATA_API_KEY" ;;
  set_apiKey v ;;
  (if String.eqb v "" then log_Fatal "SPORTS_DATA_API_KEY is not set"
   else ret tt) ;;
  v <- Getenv "NBA_ENDPOINT" ;;
  set_nbaEndpoint v ;;
  (if String.eqb v "" then log_Fatal "NBA_ENDPOINT is not set"
   else ret tt).

(** ** createS3Bucket (main.go, lines 90-115) *)
Definition createS3Bucket : M W (option error) :=
  err <- call (EvHeadBucket bucketName) (s3_HeadBucket bucketName) ;;
  match err with
  | None =>
      log_Printf ("Bucket " ++ bucketName ++ " already exists") ;;
      ret None
  | Some err =>
      if errors_As_NotFound err then
        err <- call (EvCreateBucket bucketName)
                 (s3_CreateBucket bucketName) ;;
        match err with
        | Some err => ret (Some (Errorf_w "failed to create bucket: " err))
        | None =>
            log_Printf ("Bucket " ++ bucketName ++ " created successfully") ;;
            ret None
        end
      else
        ret (Some (Errorf_w "failed to check if bucket exists: " err))
  end.

(** ** createGlueDatabase (main.go, lines 117-124) *)
Definition createGlueDatabase : M W (option error) :=
  call (EvCreateDatabase glueDBName) (glue_CreateDatabase glueDBName).

(** [http.NewRequest(method, url, nil)]. *)
Definition http_NewRequest (method url : string) : result Request :=
  match url_Parse url with
  | Some err => Err err
  | None => Ok (mkRequest method url [])
  end.

(** The loop of lines 158-160: each element is asserted to be a map and
    appended; an element of another type panics. *)
Fixpoint assert_items (data : list Value) (nbaData : list Record_)
  : outcome (list Record_) :=
  match data with
  | [] => Done nbaData
  | item :: rest =>
      match item with
      | VMap m => assert_items rest (nbaData ++ [m])
      | _ =>
          Panic ("interface conversion: interface {} is " ++ type_name item
                 ++ ", not map[string]interface {}")
      end
  end.

Definition lift {A} (o : outcome A) : M W A := fun s => (o, s).

(** Lines 143-166: what [fetchNBAData] makes of the response. *)
Definition handle_response (resp : Response)
  : M W (result (list Record_)) :=
  if negb (StatusCode resp =? StatusOK) then
    let bodyBytes := Body resp in
    ret (Err (errorString
                ("API returned " ++ itoa (StatusCode resp) ++ ": "
                 ++ bodyBytes)))
  else
    match json_Decode strconv_ParseFloat (Body resp) with
    | Err err => ret (Err err)
    | Ok result =>
        match result with
        | VSlice data =>
            nbaData <- lift (assert_items data []) ;;
            ret (Ok nbaData)
        | VMap data => ret (Ok [data])
        | _ => ret (Err (errorString "unexpected JSON structure"))
        end
    end.

(** ** fetchNBAData (main.go, lines 125-167) *)
Definition fetchNBAData : M W (result (list Record_)) :=
  fun s =>
    match http_NewRequest "GET" (nbaEndpoint s) with
    | Err err => (Done (Err (Errorf_w "failed to create request: " err)), s)
    | Ok req =>
        let req := Header_Add req "Ocp-Apim-Subscription-Key" (apiKey s) in
        (resp <- call (EvHttpDo req) (http_Do req) ;;
         match resp with
         | Err err => ret (Err (Errorf_w "API request failed: " err))
         | Ok resp => defer (emit EvBodyClose) (handle_response resp)
         end) s
    end.

(** ** uploadDataToS3 (main.go, lines 169-181) *)
Definition uploadDataToS3 (bucket : string) (data : list Record_)
  : M W (option error) :=
  let jsonData := convertToLineDelimitedJSON data in
  let contentLength := Z.of_nat (String.length jsonData) in
  call (EvPutObject bucket "nba_data.json" jsonData contentLength)
    (s3_PutObject bucket "nba_data.json" jsonData contentLength).

(** ** createGlueTable (main.go, lines 183-201) *)
Definition nba_table : TableInput :=
  mkTableInput "nba_data"
    [("id", "string"); ("name", "string"); ("stats", "string")]
    ("s3://" ++ bucketName ++ "/")
    "org.apache.hadoop.mapred.TextInputFormat"
    "org.apache.hadoop.hive.ql.io.HiveIgnoreKeyTextOutputFormat".

Definition createGlueTable : M W (option error) :=
  call (EvCreateTable glueDBName nba_table)
    (glue_CreateTable glueDBName nba_table).

(** ** configureAthena (main.go, lines 203-214) *)
Definition configureAthena : M W (option error) :=
  let query := "CREATE DATABASE IF NOT EXISTS " ++ glueDBName in
  call (EvStartQueryExecution glueDBName query (athenaOutputLoc bucketName))
    (athena_StartQueryExecution glueDBName query
       (athenaOutputLoc bucketName)).

(** [if err != nil { log.Fatalf(format, err) }]. *)
Definition fatal_if (prefix : string) (err : option error) : M W unit :=
  match err with
  | Some e => log_Fatal (prefix ++ Error e)
  | None => ret tt
  end.

(** ** main (main.go, lines 53-88) *)
Definition main : M W unit :=
  err <- call (EvLoadDefaultConfig region) (config_LoadDefaultConfig region) ;;
  fatal_if "Failed to load configuration: " err ;;
  err <- createS3Bucket ;;
  fatal_if "Failed to create S3 bucket: " err ;;
  call (EvSleep 5) (fun w => (tt, time_Sleep 5 w)) ;;
  err <- createGlueDatabase ;;
  fatal_if "Failed to create Glue database: " err ;;
  r <- fetchNBAData ;;
  match r with
  | Err err => log_Fatal ("Failed to fetch NBA data: " ++ Error err)
  | Ok nbaData =>
      (if (0 <? Z.of_nat (List.length nbaData)) then
         err <- uploadDataToS3 bucketName nbaData ;;
         fatal_if "Failed to upload data to S3: " err
       else ret tt) ;;
      err <- createGlueTable ;;
      fatal_if "Failed to create Glue table: " err ;;
      err <- configureAthena ;;
      fatal_if "Failed to configure Athena: " err ;;
      log_Println "Data lake setup complete."
  end.

(** The request that [fetchNBAData] sends from the state [s], and the state
    of the process once the client has been answered. *)
Definition request_of (s : State W) : Request :=
  mkRequest "GET" (nbaEndpoint s)
    [("Ocp-Apim-Subscription-Key", apiKey s)].

Definition answered (s : State W) (w' : W) : State W :=
  mkState w' (trace s ++ [EvHttpDo (request_of s)]) (apiKey s)
    (nbaEndpoint s).

Definition body_closed (s : State W) : State W :=
  mkState (world s) (trace s ++ [EvBodyClose]) (apiKey s) (nbaEndpoint s).

(** The process: package initialisation, then [main]. *)
Definition program : M W unit := init ;; main.

Definition start (w : W) : State W := mkState w [] "" "".
End Program.

(** ** An in-memory platform

    Buckets, databases and tables are sets of names, the environment and the
    objects are finite maps.  The data source answers every request with
    [endpoint_answer]. *)

Record Fake : Type := mkFake {
  environ : gmap string string;
  dotenv_file : option (list (string * string));
  aws_config_ok : bool;
  buckets : gset string;
  objects : gmap (string * string) string;
  databases : gset string;
  tables : gset (string * string);
  queries : list string;
  endpoint_answer : result Response;
  slept : Z
}.

Module FakePlatform.

Definition set_environ (w : Fake) (e : gmap string string) : Fake :=
  mkFake e (dotenv_file w) (aws_config_ok w) (buckets w) (objects w)
    (databases w) (tables w) (queries w) (endpoint_answer w) (slept w).
Definition set_buckets (w : Fake) (b : gset string) : Fake :=
  mkFake (environ w) (dotenv_file w) (aws_config_ok w) b (objects w)
    (databases w) (tables w) (queries w) (endpoint_answer w) (slept w).
Definition set_objects (w : Fake) (o : gmap (string * string) string)
  : Fake :=
  mkFake (environ w) (dotenv_file w) (aws_config_ok w) (buckets w) o
    (databases w) (tables w) (queries w) (endpoint_answer w) (slept w).
Definition set_databases (w : Fake) (d : gset string) : Fake :=
  mkFake (environ w) (dotenv_file w) (aws_config_ok w) (buckets w)
    (objects w) d (tables w) (queries w) (endpoint_answer w) (slept w).
Definition set_tables (w : Fake) (t : gset (string * string)) : Fake :=
  mkFake (environ w) (dotenv_file w) (aws_config_ok w) (buckets w)
    (objects w) (databases w) t (queries w) (endpoint_answer w) (slept w).
Definition set_queries (w : Fake) (q : list string) : Fake :=
  mkFake (environ w) (dotenv_file w) (aws_config_ok w) (buckets w)
    (objects w) (databases w) (tables w) q (endpoint_answer w) (slept w).
Definition set_slept (w : Fake) (z : Z) : Fake :=
  mkFake (environ w) (dotenv_file w) (aws_config_ok w) (buckets w)
    (objects w) (databases w) (tables w) (queries w) (endpoint_answer w) z.

(** [godotenv.Load]: the variables of the file that the environment does
    not define yet are set; an unreadable file is an error. *)
Fixpoint load_vars (kvs : list (string * string)) (e : gmap string string)
  : gmap string string :=
  match kvs with
  | [] => e
  | (k, v) :: r =>
      load_vars r (match e !! k with Some _ => e | None => <[k := v]> e end)
  end.

Definition Load (w : Fake) : option error * Fake :=
  match dotenv_file w with
  | None =>
      (Some (errorString "open .env: no such file or directory"), w)
  | Some kvs => (None, set_environ w (load_vars kvs (environ w)))
  end.

Definition Getenv (name : string) (w : Fake) : string :=
  default EmptyString (environ w !! name).

Definition LoadDefaultConfig (_ : string) (w : Fake) : option error * Fake :=
  if aws_config_ok w then (None, w)
  else (Some (errorString "failed to load shared config file"), w).

Definition api_error (operation : string) (err : error) : error :=
  Errorf_w ("operation error " ++ operation ++ ": ") err.

Definition HeadBucket (b : string) (w : Fake) : option error * Fake :=
  if decide (b ∈ buckets w) then (None, w)
  else (Some (api_error "S3: HeadBucket" (s3_NotFound "NotFound: Not Found")),
        w).

Definition CreateBucket (b : string) (w : Fake) : option error * Fake :=
  if decide (b ∈ buckets w) then
    (Some (api_error "S3: CreateBucket"
             (errorString "BucketAlreadyOwnedByYou")), w)
  else (None, set_buckets w ({[ b ]} ∪ buckets w)).

Definition PutObject (b key body : string) (_ : Z) (w : Fake)
  : option error * Fake :=
  if decide (b ∈ buckets w) then
    (None, set_objects w (<[(b, key) := body]> (objects w)))
  else (Some (api_error "S3: PutObject" (errorString "NoSuchBucket")), w).

Definition CreateDatabase (name : string) (w : Fake)
  : option error * Fake :=
  if decide (name ∈ databases w) then
    (Some (api_error "Glue: CreateDatabase"
             (errorString "AlreadyExistsException: Database already exists.")),
     w)
  else (None, set_databases w ({[ name ]} ∪ databases w)).

Definition CreateTable (db : string) (t : TableInput) (w : Fake)
  : option error * Fake :=
  if decide (db ∈ databases w) then
    if decide ((db, TableName t) ∈ tables w) then
      (Some (api_error "Glue: CreateTable"
               (errorString "AlreadyExistsException: Table already exists.")),
       w)
    else (None, set_tables w ({[ (db, TableName t) ]} ∪ tables w))
  else
    (Some (api_error "Glue: CreateTable"
             (errorString "EntityNotFoundException: Database not found.")),
     w).

Definition StartQueryExecution (db query output : string) (w : Fake)
  : option error * Fake :=
  (None, set_queries w (queries w ++ [query])).

(** Digits read as a number in base ten. *)
Fixpoint digits_value (s : string) (acc : N) : N :=
  match s with
  | String c r => digits_value r (10 * acc + (byte_of c - 48))%N
  | EmptyString => acc
  end.

Definition exp_value (ex : string) : Z :=
  match ex with
  | String _ (String "-"%char ds) => - Z.of_N (digits_value ds 0)
  | String _ (String "+"%char ds) => Z.of_N (digits_value ds 0)
  | String _ ds => Z.of_N (digits_value ds 0)
  | EmptyString => 0
  end.

(** The decimal value of a literal, taken exactly.  It is the [float64]
    that [strconv.ParseFloat] returns for literals of at most 15
    significant digits within the range of [float64]. *)
Definition ParseFloat (lit : string) : option Number :=
  let '(sg, s1) := scan_sign lit in
  match scan_int s1 with
  | None => None
  | Some (i, s2) =>
      match scan_frac s2 with
      | None => None
      | Some (fr, s3) =>
          match scan_exp s3 with
          | None => None
          | Some (ex, _) =>
              let fd := skip_bytes 1 fr in
              Some (mkNumber (negb (String.eqb sg EmptyString))
                      (digits_value (i ++ fd) 0)
                      (exp_value ex - Z.of_nat (String.length fd)))
          end
      end
  end.

Definition Do (_ : Request) (w : Fake) : result Response * Fake :=
  (endpoint_answer w, w).

Definition Sleep (seconds : Z) (w : Fake) : Fake :=
  set_slept w (slept w + seconds).

#[global] Instance platform : Platform Fake := {|
  godotenv_Load := Load;
  os_Getenv := Getenv;
  config_LoadDefaultConfig := LoadDefaultConfig;
  s3_HeadBucket := HeadBucket;
  s3_CreateBucket := CreateBucket;
  s3_PutObject := PutObject;
  glue_CreateDatabase := CreateDatabase;
  glue_CreateTable := CreateTable;
  athena_StartQueryExecution := StartQueryExecution;
  url_Parse := fun _ => None;
  http_Do := Do;
  strconv_ParseFloat := ParseFloat;
  time_Sleep := Sleep
|}.

(** A machine with a [.env] file and an empty AWS account, whose data
    source answers 200 with [body]. *)
Definition fresh (body : string) : Fake :=
  mkFake ∅
    (Some [("SPORTS_DATA_API_KEY", "secret");
           ("NBA_ENDPOINT", "https://api.example.test/players")])
    true ∅ ∅ ∅ ∅ [] (Ok (mkResponse 200 body)) 0.

End FakePlatform.

(** ** The steps of [main]

    [main] is a sequence of steps, each followed by the same test
    [if err != nil { log.Fatalf(...) }].  The steps are named here so that
    properties of the sequence can be stated; [main] itself is the
    definition above, and [main_staged] is proved equal to it. *)

Inductive stage : Type :=
| Bucket | Pause | Database | Fetch | Upload | Table | Query.

Definition pipeline : list stage :=
  [Bucket; Pause; Database; Fetch; Upload; Table; Query].

Definition fatal_prefix (st : stage) : string :=
  match st with
  | Bucket => "Failed to create S3 bucket: "
  | Pause => ""
  | Database => "Failed to create Glue database: "
  | Fetch => "Failed to fetch NBA data: "
  | Upload => "Failed to upload data to S3: "
  | Table => "Failed to create Glue table: "
  | Query => "Failed to configure Athena: "
  end.

(** The step an event belongs to; log lines and the two loads of local
    configuration belong to none. *)
Definition stage_of_event (e : event) : option stage :=
  match e with
  | EvHeadBucket _ | EvCreateBucket _ => Some Bucket
  | EvSleep _ => Some Pause
  | EvCreateDatabase _ => Some Database
  | EvHttpDo _ | EvBodyClose => Some Fetch
  | EvPutObject _ _ _ _ => Some Upload
  | EvCreateTable _ _ => Some Table
  | EvStartQueryExecution _ _ _ => Some Query
  | EvLoadDotenv | EvLoadDefaultConfig _ | EvLog _ => None
  end.

Fixpoint stages_of (tr : list event) : list stage :=
  match tr with
  | [] => []
  | e :: r =>
      match stage_of_event e with
      | Some st => st :: stages_of r
      | None => stages_of r
      end
  end.

(** The most a step can issue: the bucket step a probe and a create, the
    fetch step a request and the closing of its body, the others one call. *)
Definition stage_events (st : stage) : list stage :=
  match st with
  | Bucket => [Bucket; Bucket]
  | Fetch => [Fetch; Fetch]
  | _ => [st]
  end.

Definition is_create_bucket (e : event) : bool :=
  match e with EvCreateBucket _ => true | _ => false end.

Definition is_put_object (e : event) : bool :=
  match e with EvPutObject _ _ _ _ => true | _ => false end.

Section Stages.
Context {W : Type} `{Platform W}.

(** Lines 55-58. *)
Definition preamble : M W unit :=
  err <- call (EvLoadDefaultConfig region) (config_LoadDefaultConfig region) ;;
  fatal_if "Failed to load configuration: " err.

(** One step: its error, and the batch as it is after the step. *)
Definition run_stage (st : stage) (nbaData : list Record_)
  : M W (option error * list Record_) :=
  match st with
  | Bucket => err <- createS3Bucket ;; ret (err, nbaData)
  | Pause =>
      call (EvSleep 5) (fun w => (tt, time_Sleep 5 w)) ;; ret (None, nbaData)
  | Database => err <- createGlueDatabase ;; ret (err, nbaData)
  | Fetch =>
      r <- fetchNBAData ;;
      match r with
      | Err err => ret (Some err, nbaData)
      | Ok d => ret (None, d)
      end
  | Upload =>
      if (0 <? Z.of_nat (List.length nbaData)) then
        err <- uploadDataToS3 bucketName nbaData ;; ret (err, nbaData)
      else ret (None, nbaData)
  | Table => err <- createGlueTable ;; ret (err, nbaData)
  | Query => err <- configureAthena ;; ret (err, nbaData)
  end.

Fixpoint run_stages (l : list stage) (nbaData : list Record_)
  : M W (list Record_) :=
  match l with
  | [] => ret nbaData
  | st :: rest =>
      r <- run_stage st nbaData ;;
      match fst r with
      | Some e => log_Fatal (fatal_prefix st ++ Error e)
      | None => run_stages rest (snd r)
      end
  end.

Definition main_staged : M W unit :=
  preamble ;;
  run_stages pipeline [] ;;
  log_Println "Data lake setup complete.".

(** [main] up to and including the steps [pre]. *)
Definition main_until (pre : list stage) : M W (list Record_) :=
  preamble ;; run_stages pre [].

(** The state in which [log.Fatalf] leaves the process. *)
Definition logged (s : State W) (line : string) : State W :=
  mkState (world s) (trace s ++ [EvLog line]) (apiKey s) (nbaEndpoint s).
End Stages.

(** A run from [s] to [s'] that appends the events [evs] to the trace. *)
Definition appends {W : Type} (s s' : State W) (evs : list event) : Prop :=
  trace s' = (trace s ++ evs)%list.

(** The calls of a complete run, in order, by step. *)
Definition call_order : list stage := flat_map stage_events pipeline.

Definition not_a_map (v : Value) : Prop := forall m, v <> VMap m.

(** ** Lines of a text *)

(** The lines of [s]: every newline ends a line; bytes after the last
    newline, if any, form a last line. *)
Fixpoint split_lines (s : string) : list string :=
  match s with
  | EmptyString => []
  | String c r =>
      if (byte_of c =? 10)%N then EmptyString :: split_lines r
      else
        match split_lines r with
        | [] => [String c EmptyString]
        | l :: ls => String c l :: ls
        end
  end.

Fixpoint all_chars (p : ascii -> bool) (s : string) : bool :=
  match s with
  | EmptyString => true
  | String c r => p c && all_chars p r
  end.

Definition not_newline (c : ascii) : bool := negb (byte_of c =? 10)%N.

Definition no_newline (s : string) : bool := all_chars not_newline s.

(** Decidable form of [contains]. *)
Fixpoint containsb (s sub : string) : bool :=
  String.prefix sub s
  || match s with
     | EmptyString => false
     | String _ r => containsb r sub
     end.

(** ** The configuration check, as the specification words it

    "If either required configuration value is empty, the process terminates
    fatally with a message naming the missing variable, before any network
    call is made."  The configuration values are those [init] reads: the
    environment as [godotenv.Load] leaves it. *)
Definition names_missing_variable {W : Type} `{Platform W} (w : W) : Prop :=
  let w' := snd (godotenv_Load w) in
  os_Getenv "SPORTS_DATA_API_KEY" w' = EmptyString
  \/ os_Getenv "NBA_ENDPOINT" w' = EmptyString ->
  exists s' line,
    program (start w) = (Exit 1, s')
    /\ List.last (trace s') EvLoadDotenv = EvLog line
    /\ (os_Getenv "SPORTS_DATA_API_KEY" w' = EmptyString
        /\ contains line "SPORTS_DATA_API_KEY"
        \/ os_Getenv "NBA_ENDPOINT" w' = EmptyString
           /\ contains line "NBA_ENDPOINT")
    /\ List.forallb (fun e => negb (is_network_call e)) (trace s') = true.

(** The line [init] logs before it exits. *)
Definition init_fatal_line {W : Type} `{Platform W} (w : W) : string :=
  match godotenv_Load w with
  | (Some _, _) => "Error loading .env file"
  | (None, w') =>
      if String.eqb (os_Getenv "SPORTS_DATA_API_KEY" w') EmptyString
      then "SPORTS_DATA_API_KEY is not set"
      else "NBA_ENDPOINT is not set"
  end.

(** ** Worlds used to run the program *)

Module Worlds.
Import FakePlatform.

Definition dq (s : string) : string := quote ++ s ++ quote.

(** [[{"id":"1","name":"A"},{"id":"2","name":"B"}]] *)
Definition two_players_body : string :=
  "[{" ++ dq "id" ++ ":" ++ dq "1" ++ "," ++ dq "name" ++ ":" ++ dq "A"
  ++ "},{" ++ dq "id" ++ ":" ++ dq "2" ++ "," ++ dq "name" ++ ":" ++ dq "B"
  ++ "}]".

Definition player_A : Record_ := [("id", VString "1"); ("name", VString "A")].
Definition player_B : Record_ := [("id", VString "2"); ("name", VString "B")].

(** [{"id":"1","name":"A"}\n{"id":"2","name":"B"}\n] *)
Definition two_players_ndjson : string :=
  "{" ++ dq "id" ++ ":" ++ dq "1" ++ "," ++ dq "name" ++ ":" ++ dq "A"
  ++ "}" ++ NL ++
  "{" ++ dq "id" ++ ":" ++ dq "2" ++ "," ++ dq "name" ++ ":" ++ dq "B"
  ++ "}" ++ NL.

(** [{"id":"7"}] *)
Definition one_player_body : string :=
  "{" ++ dq "id" ++ ":" ++ dq "7" ++ "}".

(** A state of the process after [init], on the machine [w]. *)
Definition configured (w : Fake) : State Fake :=
  mkState w [] "secret" "https://api.example.test/players".

Definition answering (code : Z) (body : string) : Fake :=
  mkFake ∅ None true ∅ ∅ ∅ ∅ [] (Ok (mkResponse code body)) 0.

(** No [.env] file, both variables set in the process environment. *)
Definition env_without_dotenv : Fake :=
  mkFake
    (<["SPORTS_DATA_API_KEY" := "secret"]>
       (<["NBA_ENDPOINT" := "https://api.example.test/players"]> ∅))
    None true ∅ ∅ ∅ ∅ [] (Ok (mkResponse 200 "[]")) 0.

(** No [.env] file and nothing in the process environment. *)
Definition bare : Fake :=
  mkFake ∅ None true ∅ ∅ ∅ ∅ [] (Ok (mkResponse 200 "[]")) 0.

(** A [.env] file that defines the key but not the endpoint. *)
Definition without_endpoint : Fake :=
  mkFake ∅ (Some [("SPORTS_DATA_API_KEY", "secret")]) true ∅ ∅ ∅ ∅ []
    (Ok (mkResponse 200 "[]")) 0.

(** The account already has the Glue database. *)
Definition with_database (w : Fake) : Fake :=
  set_databases w ({[ glueDBName ]} ∪ databases w).
End Worlds.

(** ** Shapes of JSON texts

    The predicates by which the output of the encoder is related to the
    scanner. *)

Definition all_digits (s : string) : bool := all_chars is_digit s.

(** What may follow a value inside an array or an object, or end the text. *)
Definition delimited (rest : string) : bool :=
  match rest with
  | EmptyString => true
  | String c _ =>
      let b := byte_of c in ((b =? 44) || (b =? 93) || (b =? 125))%N
  end.

(** The first byte of a value: not white space, not a closing bracket. *)
Definition value_start (text : string) : bool :=
  match text with
  | EmptyString => false
  | String c _ =>
      let b := byte_of c in
      (negb (isSpace c) && negb (b =? 93) && negb (b =? 125))%N
  end.

Definition nonzero_digit (c : ascii) : bool :=
  is_digit c && negb (byte_of c =? 48)%N.

(** The grammar of a number: sign, integer part, fraction, exponent. *)
Definition sign_part (sg : string) : Prop := sg = EmptyString \/ sg = "-".

Definition int_part (i : string) : Prop :=
  i = "0"
  \/ exists d r, i = String d r /\ nonzero_digit d = true
                 /\ all_digits r = true.

Definition frac_part (fr : string) : Prop :=
  fr = EmptyString
  \/ exists d r, fr = String "."%char (String d r)
                 /\ all_digits (String d r) = true.

Definition exp_part (ex : string) : Prop :=
  ex = EmptyString
  \/ exists sg d r,
      ex = String "e"%char (sg ++ String d r)
      /\ (sg = "+" \/ sg = "-") /\ all_digits (String d r) = true.

Definition number_literal (s : string) : Prop :=
  exists sg i fr ex,
    s = sg ++ i ++ fr ++ ex
    /\ sign_part sg /\ int_part i /\ frac_part fr /\ exp_part ex.

(** The inside of a string literal: plain bytes and escape sequences. *)
Fixpoint string_body (s : string) : bool :=
  match s with
  | EmptyString => true
  | String c r =>
      let b := byte_of c in
      if (b =? 34)%N then false
      else if (b =? 92)%N then
        match r with
        | String e r1 =>
            if simple_escape e then string_body r1
            else if (byte_of e =? 117)%N then
              match r1 with
              | String h1 (String h2 (String h3 (String h4 r2))) =>
                  is_hex h1 && is_hex h2 && is_hex h3 && is_hex h4
                  && string_body r2
              | _ => false
              end
            else false
        | EmptyString => false
        end
      else if (b <? 32)%N then false
      else string_body r
  end.

(** [text] is scanned as one value, whatever delimiter follows it. *)
Definition scans (text : string) : Prop :=
  value_start text = true
  /\ forall fuel rest,
      (String.length text <= fuel)%nat ->
      delimited rest = true ->
      exists t, scan_value fuel (text ++ rest) = Some (t, rest).

(** What the encoder writes: no newline, and one scannable value. *)
Definition well_encoded (text : string) : Prop :=
  no_newline text = true /\ scans text.

(** The first byte of [s] satisfies [p]. *)
Definition head_is (p : ascii -> bool) (s : string) : bool :=
  match s with
  | String c _ => p c
  | EmptyString => false
  end.

(** The bytes that can continue a number literal. *)
Definition number_char (c : ascii) : bool :=
  let b := byte_of c in
  (is_digit c || (b =? 46) || (b =? 101) || (b =? 69) || (b =? 43)
   || (b =? 45))%N.

(** A byte that stands for itself inside a string literal. *)
Definition plain (c : ascii) : bool :=
  let b := byte_of c in
  (negb (b =? 34) && negb (b =? 92) && negb (b <? 32))%N.

(** A byte of a multi-byte UTF-8 sequence. *)
Definition high (c : ascii) : bool := (128 <=? byte_of c)%N.

(** The shape a literal word is scanned as. *)
Definition literal_syntax (word : string) : Syntax :=
  if String.eqb word "null" then SNull
  else if String.eqb word "true" then STrue else SFalse.

(** ** Notions used to state what the code does beyond the specification *)

(** The message of the panic of line 159 on the element [v]. *)
Definition conversion_panic (v : Value) : string :=
  "interface conversion: interface {} is " ++ type_name v
  ++ ", not map[string]interface {}".

(** The bytes one record takes in the uploaded text: its encoding and the
    newline. *)
Definition line_bytes (item : Record_) : nat :=
  S (String.length (json_Marshal item)).

(** The calls [main] may issue when [init] has read the key [key] and the
    address [endpoint]: each with the arguments the source gives it. *)
Definition expected_event (key endpoint : string) (e : event) : Prop :=
  match e with
  | EvLoadDotenv | EvLog _ | EvBodyClose => True
  | EvLoadDefaultConfig r => r = region
  | EvHeadBucket b | EvCreateBucket b => b = bucketName
  | EvSleep seconds => seconds = 5
  | EvCreateDatabase name => name = glueDBName
  | EvHttpDo req =>
      req = mkRequest "GET" endpoint [("Ocp-Apim-Subscription-Key", key)]
  | EvPutObject b k body n =>
      b = bucketName /\ k = "nba_data.json"
      /\ n = Z.of_nat (String.length body)
      /\ exists data : list Record_,
          data <> [] /\ body = convertToLineDelimitedJSON data
  | EvCreateTable db t => db = glueDBName /\ t = nba_table
  | EvStartQueryExecution db query output =>
      db = glueDBName
      /\ query = "CREATE DATABASE IF NOT EXISTS " ++ glueDBName
      /\ output = athenaOutputLoc bucketName
  end.

(** The package variables [apiKey] and [nbaEndpoint] are as they were. *)
Definition keeps_config {W : Type} (s s' : State W) : Prop :=
  apiKey s' = apiKey s /\ nbaEndpoint s' = nbaEndpoint s.

(** The state in which [init] returns, [w1] being the outside as
    [godotenv.Load] left it. *)
Definition configured_by {W : Type} `{Platform W} (s : State W) (w1 : W)
  : State W :=
  mkState w1 (trace s ++ [EvLoadDotenv])
    (os_Getenv "SPORTS_DATA_API_KEY" w1) (os_Getenv "NBA_ENDPOINT" w1).

(** How a run of [main] can end, and the last events of its trace. *)
Inductive ending : Type :=
| Completed
| Fatal (line : string)
| Panicked (v : Value).

Definition ends_with {W : Type} (o : outcome unit) (s' : State W)
    (e : ending) : Prop :=
  match e with
  | Completed =>
      o = Done tt
      /\ exists tr,
          trace s' = (tr ++ [EvLog "Data lake setup complete."])%list
  | Fatal line =>
      o = Exit 1
      /\ exists tr, trace s' = (tr ++ [EvLog ("Failed to " ++ line)])%list
  | Panicked v =>
      o = Panic (conversion_panic v) /\ not_a_map v
      /\ exists tr req, trace s' = (tr ++ [EvHttpDo req; EvBodyClose])%list
  end.

(** What a run leaves of the machine it started on: the local configuration
    and the data source are as they were, and no bucket or database has
    disappeared. *)
Definition extends (w w' : Fake) : Prop :=
  environ w' = environ w
  /\ dotenv_file w' = dotenv_file w
  /\ aws_config_ok w' = aws_config_ok w
  /\ endpoint_answer w' = endpoint_answer w
  /\ buckets w ⊆ buckets w'
  /\ databases w ⊆ databases w'.

(** The answer of the in-memory catalog to the creation of a database that
    exists. *)
Definition database_conflict : error :=
  FakePlatform.api_error "Glue: CreateDatabase"
    (errorString "AlreadyExistsException: Database already exists.").

(** A Go map holds a key once. *)
Definition distinct_keys (v : Value) : Prop :=
  forall m, v = VMap m -> NoDup (List.map fst m).

(** A decimal integer read back ([strconv.Atoi] on the output of [%d]). *)
Definition atoi (s : string) : Z :=
  match s with
  | String c ds =>
      if (byte_of c =? 45)%N then - Z.of_N (FakePlatform.digits_value ds 0)
      else Z.of_N (FakePlatform.digits_value s 0)
  | EmptyString => 0
  end.

Definition is_log (e : event) : bool :=
  match e with EvLog _ => true | _ => false end.

(** A machine whose AWS configuration cannot be loaded. *)
Definition no_aws_config : Fake :=
  mkFake ∅ None false ∅ ∅ ∅ ∅ [] (Ok (mkResponse 200 "[]")) 0.

(** An account that already holds the bucket. *)
Definition with_bucket : Fake :=
  FakePlatform.set_buckets (Worlds.answering 200 "[]") {[ bucketName ]}.

(** A process configured on an empty account whose data source answers with
    the two players. *)
Definition two_players_run : State Fake :=
  Worlds.configured (Worlds.answering 200 Worlds.two_players_body).

(** ** Tactics *)

(** Case analysis on the eight bits of a character. *)
Ltac char_cases c :=
  destruct c as [[] [] [] [] [] [] [] []]; try discriminate; try reflexivity.

(** The numeric value of the literal characters of a goal. *)
Ltac eval_bytes :=
  repeat match goal with
    | |- context [byte_of (Ascii ?a ?b ?c ?d ?e ?f ?g ?h)] =>
        let v := eval vm_compute in (byte_of (Ascii a b c d e f g h)) in
        change (byte_of (Ascii a b c d e f g h)) with v
    end.

(** Case analysis on the next monadic computation of a goal. *)
Ltac next_run :=
  match goal with
  | |- context [match ?m with _ => _ end] =>
      lazymatch m with
      | context [match _ with _ => _ end] => fail
      | _ => destruct m eqn:?
      end
  end.

Ltac solve_sublist :=
  repeat first [apply sublist_nil | apply sublist_skip | apply sublist_cons].

Local Open Scope go_scope.

(** * Properties *)

Lemma append_nil_r (s : string) : s ++ EmptyString = s.
Proof. induction s as [|c s IH]; simpl; [reflexivity | now rewrite IH]. Qed.

Lemma append_assoc (a b c : string) : (a ++ b) ++ c = a ++ (b ++ c).
Proof. induction a as [|x a IH]; simpl; [reflexivity | now rewrite IH]. Qed.

Lemma contains_intro (pre sub post : string) : contains (pre ++ sub ++ post) sub.
Proof. exists pre, post. reflexivity. Qed.

Lemma prefix_append (sub post : string) : String.prefix sub (sub ++ post) = true.
Proof.
  induction sub as [|c sub IH]; simpl; [now destruct post|].
  destruct (ascii_dec c c); [exact IH | contradiction].
Qed.

Lemma containsb_unfold (s sub : string) :
  containsb s sub
  = String.prefix sub s
    || match s with EmptyString => false | String _ r => containsb r sub end.
Proof. destruct s; reflexivity. Qed.

Lemma contains_containsb (s sub : string) : contains s sub -> containsb s sub = true.
Proof.
  intros (pre & post & ->). induction pre as [|c pre IH]; simpl.
  - rewrite containsb_unfold, prefix_append. reflexivity.
  - rewrite IH. apply orb_true_r.
Qed.

Section Fetch.
Context {W : Type} `{Platform W}.

Lemma fetchNBAData_answered (s : State W) (resp : Response) (w' : W) :
  url_Parse (nbaEndpoint s) = None ->
  http_Do (request_of s) (world s) = (Ok resp, w') ->
  fetchNBAData s
  = defer (emit EvBodyClose) (handle_response resp) (answered s w').
Proof.
  intros Hurl Hdo. unfold fetchNBAData, http_NewRequest. rewrite Hurl.
  unfold bind, call, Header_Add. simpl. fold (request_of s). rewrite Hdo. reflexivity.
Qed.

Lemma assert_items_maps (records acc : list Record_) :
  assert_items (List.map VMap records) acc = Done (acc ++ records)%list.
Proof.
  revert acc. induction records as [|m r IH]; intros acc; simpl.
  - now rewrite app_nil_r.
  - rewrite IH, <- app_assoc. reflexivity.
Qed.

Lemma assert_items_panics (data : list Value) (acc : list Record_) :
  Exists not_a_map data -> exists msg, assert_items data acc = Panic msg.
Proof.
  intros Hex. revert acc. induction Hex as [v l Hv | v l _ IH]; intros acc.
  - destruct v; simpl; eauto. now destruct (Hv entries).
  - destruct v; simpl; eauto.
Qed.

(** C4. For a response whose status is not 200, [fetchNBAData] returns an
    error, not a batch; the message of the error is
    "API returned <status>: <body>", so it contains the decimal status code
    and the body text as received. *)
Theorem fetchNBAData_status_error (s : State W) (resp : Response) (w' : W) :
  url_Parse (nbaEndpoint s) = None ->
  http_Do (request_of s) (world s) = (Ok resp, w') ->
  StatusCode resp <> StatusOK ->
  exists e,
    fetchNBAData s = (Done (Err e), body_closed (answered s w'))
    /\ Error e
       = "API returned " ++ itoa (StatusCode resp) ++ ": " ++ Body resp
    /\ contains (Error e) (itoa (StatusCode resp))
    /\ contains (Error e) (Body resp).
Proof.
  intros Hurl Hdo Hcode.
  rewrite (fetchNBAData_answered s resp w' Hurl Hdo).
  unfold defer, handle_response.
  destruct (Z.eqb_spec (StatusCode resp) StatusOK) as [E | _]; [contradiction|].
  simpl. eexists. split; [reflexivity|]. simpl. split; [reflexivity|]. split.
  - apply (contains_intro "API returned " _ (": " ++ Body resp)).
  - exists ("API returned " ++ itoa (StatusCode resp) ++ ": "), EmptyString.
    rewrite append_nil_r, !append_assoc. reflexivity.
Qed.
End Fetch.

(** ** Characters and digit strings *)

Lemma byte_of_chr (n : N) : (n < 256)%N -> byte_of (chr n) = n.
Proof. apply N_ascii_embedding. Qed.

Lemma all_chars_app (p : ascii -> bool) (a b : string) :
  all_chars p (a ++ b) = all_chars p a && all_chars p b.
Proof.
  induction a as [|c a IH]; simpl; [reflexivity|].
  now rewrite IH, andb_assoc.
Qed.

Lemma all_chars_impl (p q : ascii -> bool) (s : string) :
  (forall c, p c = true -> q c = true) ->
  all_chars p s = true -> all_chars q s = true.
Proof.
  intros Hpq. induction s as [|c s IH]; simpl; [reflexivity|].
  intros [Hc Hs]%andb_true_iff. now rewrite (Hpq c Hc), IH.
Qed.

Lemma all_chars_repeat (p : ascii -> bool) (c : ascii) (n : nat) :
  p c = true -> all_chars p (repeat_char c n) = true.
Proof. intros Hc. induction n as [|n IH]; simpl; [reflexivity | now rewrite Hc]. Qed.

Lemma all_chars_first_bytes (p : ascii -> bool) (n : nat) (s : string) :
  all_chars p s = true -> all_chars p (first_bytes n s) = true.
Proof.
  revert s. induction n as [|n IH]; intros [|c s]; simpl; try reflexivity.
  intros [Hc Hs]%andb_true_iff. now rewrite Hc, IH.
Qed.

Lemma all_chars_skip_bytes (p : ascii -> bool) (n : nat) (s : string) :
  all_chars p s = true -> all_chars p (skip_bytes n s) = true.
Proof.
  revert s. induction n as [|n IH]; intros [|c s]; simpl; try tauto.
  intros [Hc Hs]%andb_true_iff. now apply IH.
Qed.

Lemma first_skip_bytes (n : nat) (s : string) :
  first_bytes n s ++ skip_bytes n s = s.
Proof.
  revert s. induction n as [|n IH]; intros [|c s]; simpl; try reflexivity.
  now rewrite IH.
Qed.

Lemma length_append (a b : string) :
  String.length (a ++ b) = (String.length a + String.length b)%nat.
Proof. induction a as [|c a IH]; simpl; [reflexivity | now rewrite IH]. Qed.

Lemma length_skip_bytes (n : nat) (s : string) :
  String.length (skip_bytes n s) = (String.length s - n)%nat.
Proof.
  revert s. induction n as [|n IH]; intros [|c s]; simpl; try reflexivity.
  apply IH.
Qed.

Lemma is_digit_digit_char (d : N) : (d < 10)%N -> is_digit (digit_char d) = true.
Proof.
  intros Hd. unfold is_digit, digit_char. rewrite byte_of_chr by lia.
  apply andb_true_iff. split; apply N.leb_le; lia.
Qed.

Lemma digit_char_nonzero (d : N) :
  (0 < d < 10)%N -> nonzero_digit (digit_char d) = true.
Proof.
  intros Hd. unfold nonzero_digit. rewrite is_digit_digit_char by lia.
  unfold digit_char. rewrite byte_of_chr by lia.
  destruct (N.eqb_spec (48 + d) 48); [lia | reflexivity].
Qed.

Lemma utoa_loop_digits (fuel : nat) :
  forall (n : N) (acc : string),
    (0 < n < 2 ^ N.of_nat fuel)%N ->
    exists d r,
      utoa_loop fuel n acc = String d (r ++ acc)
      /\ nonzero_digit d = true /\ all_digits r = true.
Proof.
  induction fuel as [|fuel IH]; intros n acc Hn.
  - simpl in Hn. lia.
  - cbn [utoa_loop].
    assert (Hmod : (n mod 10 < 10)%N) by (apply N.mod_lt; lia).
    destruct (N.eqb_spec (n / 10) 0) as [Hq | Hq].
    + exists (digit_char (n mod 10)), EmptyString. split; [reflexivity|].
      split; [|reflexivity]. apply digit_char_nonzero.
      assert (n < 10)%N by (apply N.div_small_iff; [lia | exact Hq]).
      rewrite N.mod_small by lia. lia.
    + destruct (IH (n / 10)%N (String (digit_char (n mod 10)) acc))
        as (d & r & Heq & Hd & Hr).
      { split; [now apply N.neq_0_lt_0|].
        rewrite Nat2N.inj_succ, N.pow_succ_r' in Hn.
        apply N.Div0.div_lt_upper_bound. destruct Hn as [_ Hn].
        eapply N.lt_le_trans; [exact Hn|].
        apply N.mul_le_mono_r. lia. }
      exists d, (r ++ String (digit_char (n mod 10)) EmptyString).
      split; [|split; [exact Hd|]].
      * rewrite Heq, append_assoc. reflexivity.
      * unfold all_digits in *. rewrite all_chars_app, Hr. simpl.
        now rewrite is_digit_digit_char.
Qed.

Lemma utoa_nonzero (n : N) :
  (0 < n)%N ->
  exists d r, utoa n = String d r /\ nonzero_digit d = true
              /\ all_digits r = true.
Proof.
  intros Hn. unfold utoa.
  destruct (utoa_loop_digits (S (N.to_nat (N.log2 n))) n EmptyString)
    as (d & r & Heq & Hd & Hr).
  { split; [exact Hn|]. rewrite Nat2N.inj_succ, N2Nat.id.
    now apply N.log2_spec. }
  exists d, r. now rewrite Heq, append_nil_r.
Qed.

Lemma nonzero_digit_is_digit (c : ascii) : nonzero_digit c = true -> is_digit c = true.
Proof. unfold nonzero_digit. now intros [? _]%andb_true_iff. Qed.

Lemma utoa_digits (n : N) :
  exists d r, utoa n = String d r /\ all_digits (String d r) = true.
Proof.
  destruct (N.eq_0_gt_0_cases n) as [-> | Hn].
  - exists "0"%char, EmptyString. split; reflexivity.
  - destruct (utoa_nonzero n Hn) as (d & r & Heq & Hd & Hr).
    exists d, r. split; [exact Heq|]. unfold all_digits in *. simpl.
    now rewrite (nonzero_digit_is_digit d Hd), Hr.
Qed.

Lemma strip_trailing_zeros_digits (ds : string) :
  all_digits ds = true -> all_digits (fst (strip_trailing_zeros ds)) = true.
Proof.
  unfold all_digits. induction ds as [|c ds IH]; simpl; [reflexivity|].
  intros [Hc Hds]%andb_true_iff. specialize (IH Hds).
  destruct (strip_trailing_zeros ds) as [t k]. simpl in IH.
  destruct t as [|c' t'].
  - destruct (byte_of c =? 48)%N; simpl; [reflexivity | now rewrite Hc].
  - cbn [fst all_chars] in *. now rewrite Hc, IH.
Qed.

Lemma strip_trailing_zeros_nonzero (d : ascii) (r : string) :
  nonzero_digit d = true -> all_digits r = true ->
  exists r', fst (strip_trailing_zeros (String d r)) = String d r'
             /\ all_digits r' = true.
Proof.
  intros Hd Hr. pose proof (strip_trailing_zeros_digits r Hr) as Ht.
  cbn [strip_trailing_zeros]. destruct (strip_trailing_zeros r) as [t k].
  cbn [fst] in Ht. destruct t as [|c' t'].
  - unfold nonzero_digit in Hd. apply andb_true_iff in Hd as [_ Hz].
    apply negb_true_iff in Hz. rewrite Hz. exists EmptyString. now split.
  - exists (String c' t'). now split.
Qed.

Lemma delimited_head (rest : string) :
  delimited rest = true -> head_is number_char rest = false.
Proof. destruct rest as [|c r]; [reflexivity|]. cbn. char_cases c. Qed.

Lemma head_not_digit (rest : string) :
  head_is number_char rest = false -> head_is is_digit rest = false.
Proof.
  destruct rest as [|c r]; [reflexivity|]. cbn. unfold number_char.
  now destruct (is_digit c).
Qed.

Lemma span_digits_app (ds rest : string) :
  all_digits ds = true -> head_is is_digit rest = false ->
  span_digits (ds ++ rest) = (ds, rest).
Proof.
  unfold all_digits. intros Hds Hrest. induction ds as [|c ds IH]; simpl.
  - destruct rest as [|c r]; [reflexivity|]. simpl in *. now rewrite Hrest.
  - simpl in Hds. apply andb_true_iff in Hds as [Hc Hds].
    now rewrite Hc, IH.
Qed.

Lemma scan_int_app (i rest : string) :
  int_part i -> head_is is_digit rest = false ->
  scan_int (i ++ rest) = Some (i, rest).
Proof.
  intros [-> | (d & r & -> & Hd & Hr)] Hrest; [reflexivity|].
  cbn [String.append scan_int]. unfold nonzero_digit in Hd.
  apply andb_true_iff in Hd as [Hdig Hnz]. apply negb_true_iff in Hnz.
  now rewrite Hnz, Hdig, span_digits_app.
Qed.

Lemma scan_frac_app (fr rest : string) :
  frac_part fr -> head_is number_char rest = false ->
  scan_frac (fr ++ rest) = Some (fr, rest).
Proof.
  intros [-> | (d & r & -> & Hds)] Hrest.
  - destruct rest as [|c r]; [reflexivity|]. cbn in *. char_cases c.
  - cbn [String.append scan_frac].
    change (String d (r ++ rest)) with (String d r ++ rest).
    now rewrite span_digits_app by auto using head_not_digit.
Qed.

Lemma scan_exp_app (ex rest : string) :
  exp_part ex -> head_is number_char rest = false ->
  scan_exp (ex ++ rest) = Some (ex, rest).
Proof.
  intros [-> | (sg & d & r & -> & Hsg & Hds)] Hrest.
  - destruct rest as [|c r]; [reflexivity|]. cbn in *. char_cases c.
  - assert (Hspan : span_digits (String d r ++ rest) = (String d r, rest))
      by auto using span_digits_app, head_not_digit.
    destruct Hsg as [-> | ->]; cbn [String.append scan_exp];
      change (String d (r ++ rest)) with (String d r ++ rest);
      eval_bytes; cbn [N.eqb Pos.eqb orb]; now rewrite Hspan.
Qed.

Lemma int_part_head (i rest : string) :
  int_part i -> head_is is_digit (i ++ rest) = true.
Proof.
  intros [-> | (d & r & -> & Hd & _)]; [reflexivity|].
  cbn. now apply nonzero_digit_is_digit.
Qed.

Lemma scan_sign_app (sg s : string) :
  sign_part sg -> head_is is_digit s = true ->
  scan_sign (sg ++ s) = (sg, s).
Proof.
  intros [-> | ->] Hs; [|reflexivity].
  destruct s as [|c r]; [discriminate|]. cbn in *. char_cases c.
Qed.

Lemma scan_number_literal (s rest : string) :
  number_literal s -> delimited rest = true ->
  scan_number (s ++ rest) = Some (s, rest).
Proof.
  intros (sg & i & fr & ex & -> & Hsg & Hi & Hfr & Hex) Hrest.
  apply delimited_head in Hrest.
  rewrite !append_assoc. unfold scan_number.
  rewrite (scan_sign_app sg _ Hsg (int_part_head i _ Hi)).
  assert (Hex_head : head_is is_digit (ex ++ rest) = false
                     /\ (fr = EmptyString ->
                         head_is number_char (ex ++ rest) = false
                         \/ exists r, ex ++ rest = String "e"%char r)).
  { destruct Hex as [-> | (sg' & d & r & -> & _ & _)].
    - split; [now apply head_not_digit | now left].
    - split; [reflexivity | right; eauto]. }
  destruct Hex_head as [Hexd Hexn].
  assert (Hfr_head : head_is is_digit (fr ++ ex ++ rest) = false).
  { destruct Hfr as [-> | (d & r & -> & _)]; [exact Hexd | reflexivity]. }
  rewrite (scan_int_app i _ Hi Hfr_head).
  assert (Hfrac : scan_frac (fr ++ ex ++ rest) = Some (fr, ex ++ rest)).
  { destruct Hfr as [-> | Hfr'].
    - destruct (Hexn eq_refl) as [Hn | [r Hr]].
      + now apply scan_frac_app; [left|].
      + cbn [String.append]. now rewrite Hr.
    - destruct Hfr' as (d & r & -> & Hds).
      cbn [String.append scan_frac].
      change (String d (r ++ ex ++ rest)) with (String d r ++ ex ++ rest).
      now rewrite span_digits_app. }
  rewrite Hfrac, (scan_exp_app ex rest Hex Hrest). reflexivity.
Qed.

Lemma all_digits_cons (d : ascii) (r : string) :
  is_digit d = true -> all_digits r = true -> all_digits (String d r) = true.
Proof. unfold all_digits. simpl. now intros -> ->. Qed.

Lemma all_digits_app (a b : string) :
  all_digits a = true -> all_digits b = true -> all_digits (a ++ b) = true.
Proof. unfold all_digits. rewrite all_chars_app. now intros -> ->. Qed.

Lemma all_digits_zeros (n : nat) : all_digits (repeat_char "0" n) = true.
Proof. now apply all_chars_repeat. Qed.

Lemma nonempty_length (s : string) :
  (0 < String.length s)%nat -> exists c r, s = String c r.
Proof. destruct s as [|c r]; simpl; [lia | eauto]. Qed.

(** The formats ['e'] and ['f'] write number literals. *)
Lemma format_e_literal (d : ascii) (r : string) (x : Z) :
  nonzero_digit d = true -> all_digits r = true ->
  exists i fr ex,
    format_e (String d r) x = i ++ fr ++ ex
    /\ int_part i /\ frac_part fr /\ exp_part ex.
Proof.
  intros Hd Hr. destruct (utoa_digits (Z.abs_N x)) as (d2 & r2 & Hu & Hds).
  exists (String d EmptyString),
    (match r with EmptyString => EmptyString | _ => "." ++ r end),
    (String "e"%char ((if x <? 0 then "-" else "+") ++ String d2 r2)).
  split; [|split; [|split]].
  - unfold format_e. rewrite Hu. destruct r; reflexivity.
  - right. exists d, EmptyString. now split.
  - destruct r as [|c r]; [now left | right]. exists c, r. now split.
  - right. exists (if x <? 0 then "-" else "+"), d2, r2.
    split; [reflexivity|]. split; [destruct (x <? 0); auto | exact Hds].
Qed.

Lemma format_f_literal (d : ascii) (r : string) (e : Z) :
  nonzero_digit d = true -> all_digits r = true ->
  exists i fr,
    format_f (String d r) e = i ++ fr ++ EmptyString
    /\ int_part i /\ frac_part fr.
Proof.
  intros Hd Hr. unfold format_f.
  pose proof (nonzero_digit_is_digit d Hd) as Hdig.
  destruct (Z.leb_spec 0 e) as [Hpos | Hneg].
  - exists (String d (r ++ repeat_char "0" (Z.to_nat e))), EmptyString.
    split; [now rewrite !append_nil_r|]. split; [|now left].
    right. eexists _, _. split; [reflexivity|]. split; [exact Hd|].
    apply all_digits_app; [exact Hr | apply all_digits_zeros].
  - set (k := Z.to_nat (- e)). assert (Hk : (1 <= k)%nat) by lia.
    cbn [String.length].
    destruct (Nat.ltb_spec k (S (String.length r))) as [Hlt | Hge].
    + set (j := (String.length r - k)%nat).
      replace (S (String.length r) - k)%nat with (S j) by lia.
      cbn [first_bytes skip_bytes].
      destruct (nonempty_length (skip_bytes j r)) as (c & r' & Hskip).
      { rewrite length_skip_bytes. lia. }
      exists (String d (first_bytes j r)), (String "."%char (String c r')).
      split; [now rewrite Hskip, !append_nil_r|]. split.
      * right. eexists _, _. split; [reflexivity|]. split; [exact Hd|].
        now apply all_chars_first_bytes.
      * right. exists c, r'. split; [reflexivity|]. rewrite <- Hskip.
        now apply all_chars_skip_bytes.
    + exists "0".
      destruct (nonempty_length
                  (repeat_char "0" (k - S (String.length r)) ++ String d r))
        as (c & r' & Hfr).
      { rewrite length_append. simpl. lia. }
      exists (String "."%char (String c r')).
      split; [now rewrite <- Hfr, !append_nil_r|]. split; [now left|].
      right. exists c, r'. split; [reflexivity|]. rewrite <- Hfr.
      apply all_digits_app; [apply all_digits_zeros|].
      now apply all_digits_cons.
Qed.

Lemma formatFloat_literal (f : Number) : number_literal (formatFloat f).
Proof.
  unfold formatFloat.
  assert (Hsg : sign_part (if negative f then "-" else EmptyString))
    by (destruct (negative f); [now right | now left]).
  destruct (N.eqb_spec (mant f) 0) as [_ | Hm].
  - exists (if negative f then "-" else EmptyString), "0", EmptyString,
      EmptyString.
    split; [reflexivity|]. repeat split; [exact Hsg | now left..].
  - destruct (utoa_nonzero (mant f)) as (d & r & Hu & Hd & Hr); [lia|].
    rewrite Hu.
    destruct (strip_trailing_zeros_nonzero d r Hd Hr) as (r' & Hfst & Hr').
    destruct (strip_trailing_zeros (String d r)) as [ds k].
    cbn [fst] in Hfst. subst ds.
    match goal with
    | |- context [if ?b then _ else _ ] =>
        lazymatch b with
        | orb _ _ => destruct b
        end
    end.
    + destruct (format_e_literal d r'
                  (Z.of_nat (String.length (String d r'))
                   + (exp10 f + Z.of_nat k) - 1) Hd Hr')
        as (i & fr & ex & -> & Hi & Hfr & Hex).
      now exists (if negative f then "-" else EmptyString), i, fr, ex.
    + destruct (format_f_literal d r' (exp10 f + Z.of_nat k) Hd Hr')
        as (i & fr & -> & Hi & Hfr).
      exists (if negative f then "-" else EmptyString), i, fr, EmptyString.
      repeat split; [exact Hsg | exact Hi | exact Hfr | now left].
Qed.

Lemma number_char_not_newline (c : ascii) :
  number_char c = true -> not_newline c = true.
Proof. char_cases c. Qed.

Lemma digit_number_char (c : ascii) : is_digit c = true -> number_char c = true.
Proof. unfold number_char. now intros ->. Qed.

Lemma number_literal_chars (s : string) :
  number_literal s -> all_chars number_char s = true.
Proof.
  assert (Hdigits : forall t, all_digits t = true ->
                              all_chars number_char t = true)
    by (intros t; apply all_chars_impl, digit_number_char).
  intros (sg & i & fr & ex & -> & Hsg & Hi & Hfr & Hex).
  rewrite !all_chars_app.
  assert (all_chars number_char sg = true) as ->
    by (destruct Hsg as [-> | ->]; reflexivity).
  assert (all_chars number_char i = true) as ->.
  { destruct Hi as [-> | (d & r & -> & Hd & Hr)]; [reflexivity|].
    apply Hdigits, all_digits_cons; [now apply nonzero_digit_is_digit | exact Hr]. }
  assert (all_chars number_char fr = true) as ->.
  { destruct Hfr as [-> | (d & r & -> & Hds)]; [reflexivity|].
    change (String "."%char (String d r)) with ("." ++ String d r).
    now rewrite all_chars_app, (Hdigits (String d r) Hds). }
  destruct Hex as [-> | (sg' & d & r & -> & Hsg' & Hds)]; [reflexivity|].
  change (String "e"%char (sg' ++ String d r))
    with ("e" ++ sg' ++ String d r).
  rewrite !all_chars_app, (Hdigits (String d r) Hds).
  destruct Hsg' as [-> | ->]; reflexivity.
Qed.

Lemma number_literal_head (s : string) :
  number_literal s ->
  head_is (fun c => is_digit c || (byte_of c =? 45)%N) s = true.
Proof.
  intros (sg & i & fr & ex & -> & Hsg & Hi & _).
  destruct Hsg as [-> | ->]; [|reflexivity].
  destruct Hi as [-> | (d & r & -> & Hd & _)]; [reflexivity|].
  cbn. now rewrite (nonzero_digit_is_digit d Hd).
Qed.

Lemma number_start_facts (c : ascii) :
  is_digit c || (byte_of c =? 45)%N = true ->
  isSpace c = false
  /\ (byte_of c =? 123)%N = false /\ (byte_of c =? 91)%N = false
  /\ (byte_of c =? 34)%N = false /\ (byte_of c =? 93)%N = false
  /\ (byte_of c =? 125)%N = false
  /\ c <> "n"%char /\ c <> "t"%char /\ c <> "f"%char.
Proof. char_cases c; intros _; repeat split; discriminate. Qed.

Lemma scan_value_number (fuel : nat) (c : ascii) (r lit rest : string) :
  is_digit c || (byte_of c =? 45)%N = true ->
  scan_number (String c r) = Some (lit, rest) ->
  scan_value (S fuel) (String c r) = Some (SNumber lit, rest).
Proof.
  intros Hc Hnum.
  destruct (number_start_facts c Hc)
    as (Hsp & H1 & H2 & H3 & _ & _ & Hn & Ht & Hf).
  cbn [scan_value skip_ws]. rewrite Hsp, H1, H2, H3.
  cbn [String.prefix].
  destruct (ascii_dec "n" c) as [E | _]; [now destruct Hn|].
  destruct (ascii_dec "t" c) as [E | _]; [now destruct Ht|].
  destruct (ascii_dec "f" c) as [E | _]; [now destruct Hf|].
  now rewrite Hnum.
Qed.

(** A number, as the encoder writes it, is scanned as a number. *)
Lemma formatFloat_well_encoded (f : Number) : well_encoded (formatFloat f).
Proof.
  pose proof (formatFloat_literal f) as Hlit.
  pose proof (number_literal_head _ Hlit) as Hhead.
  split; [|split].
  - eapply all_chars_impl; [apply number_char_not_newline|].
    now apply number_literal_chars.
  - destruct (formatFloat f) as [|c r]; [discriminate|].
    cbn in Hhead. destruct (number_start_facts c Hhead)
      as (Hsp & _ & _ & _ & H4 & H5 & _).
    cbn. now rewrite Hsp, H4, H5.
  - intros fuel rest Hfuel Hrest.
    pose proof (scan_number_literal _ rest Hlit Hrest) as Hscan.
    destruct (formatFloat f) as [|c r]; [discriminate|].
    destruct fuel as [|fuel]; [simpl in Hfuel; lia|].
    exists (SNumber (String c r)). now apply scan_value_number.
Qed.

(** ** String literals *)

Lemma string_body_plain (c : ascii) (r : string) :
  plain c = true -> string_body (String c r) = string_body r.
Proof.
  unfold plain. intros [[H1 H2]%andb_true_iff H3]%andb_true_iff.
  apply negb_true_iff in H1, H2, H3. cbn [string_body].
  now rewrite H1, H2, H3.
Qed.

Lemma string_body_escape (e : ascii) (r : string) :
  simple_escape e = true ->
  string_body (String "\"%char (String e r)) = string_body r.
Proof. intros He. cbn [string_body]. eval_bytes. cbn. now rewrite He. Qed.

Lemma string_body_u (h1 h2 h3 h4 : ascii) (r : string) :
  is_hex h1 = true -> is_hex h2 = true -> is_hex h3 = true ->
  is_hex h4 = true ->
  string_body
    (String "\"%char (String "u"%char
       (String h1 (String h2 (String h3 (String h4 r))))))
  = string_body r.
Proof.
  intros H1 H2 H3 H4. cbn [string_body]. eval_bytes. cbn -[string_body].
  now rewrite H1, H2, H3, H4.
Qed.

(** Induction along the escapes of a string body. *)
Lemma string_body_induction (P : string -> Prop) :
  P EmptyString ->
  (forall c r, plain c = true -> string_body r = true -> P r -> P (String c r)) ->
  (forall e r,
      simple_escape e = true -> string_body r = true -> P r ->
      P (String "\"%char (String e r))) ->
  (forall h1 h2 h3 h4 r,
      is_hex h1 = true -> is_hex h2 = true -> is_hex h3 = true ->
      is_hex h4 = true -> string_body r = true -> P r ->
      P (String "\"%char (String "u"%char
           (String h1 (String h2 (String h3 (String h4 r))))))) ->
  forall s, string_body s = true -> P s.
Proof.
  intros Hnil Hplain Hesc Hu s.
  remember (String.length s) as n eqn:Hn.
  assert (Hle : (String.length s <= n)%nat) by lia. clear Hn.
  revert s Hle. induction n as [|n IH]; intros s Hle Hs.
  { destruct s; [exact Hnil | simpl in Hle; lia]. }
  destruct s as [|c r]; [exact Hnil|].
  cbn [string_body] in Hs.
  destruct (N.eqb_spec (byte_of c) 34) as [_ | Hq]; [discriminate|].
  destruct (N.eqb_spec (byte_of c) 92) as [Hb | Hb].
  - assert (c = "\"%char) as ->.
    { rewrite <- (ascii_N_embedding c). unfold byte_of in Hb. now rewrite Hb. }
    destruct r as [|e r1]; [discriminate|].
    destruct (simple_escape e) eqn:He.
    + apply Hesc; [exact He | exact Hs |]. apply IH; [simpl in Hle; lia | exact Hs].
    + destruct (N.eqb_spec (byte_of e) 117) as [Hu' | _]; [|discriminate].
      assert (e = "u"%char) as ->.
      { rewrite <- (ascii_N_embedding e). unfold byte_of in Hu'. now rewrite Hu'. }
      destruct r1 as [|h1 [|h2 [|h3 [|h4 r2]]]]; try discriminate.
      apply andb_true_iff in Hs as [Hs Hr2].
      apply andb_true_iff in Hs as [Hs H4].
      apply andb_true_iff in Hs as [Hs H3].
      apply andb_true_iff in Hs as [H1 H2].
      apply Hu; try assumption. apply IH; [simpl in Hle; lia | exact Hr2].
  - destruct (N.ltb_spec (byte_of c) 32) as [_ | Hge]; [discriminate|].
    apply Hplain; [|exact Hs | apply IH; [simpl in Hle; lia | exact Hs]].
    unfold plain. apply N.eqb_neq in Hq, Hb. apply N.ltb_ge in Hge.
    now rewrite Hq, Hb, Hge.
Qed.

Lemma scan_string_body (raw rest : string) :
  string_body raw = true ->
  scan_string (raw ++ quote ++ rest) = Some (raw, rest).
Proof.
  intros Hraw. revert raw Hraw. apply string_body_induction.
  - reflexivity.
  - intros c r Hc _ IH. unfold plain in Hc.
    apply andb_true_iff in Hc as [[H1 H2]%andb_true_iff H3].
    apply negb_true_iff in H1, H2, H3.
    cbn [String.append scan_string]. now rewrite H1, H2, H3, IH.
  - intros e r He _ IH. cbn [String.append scan_string]. eval_bytes.
    cbn -[scan_string String.append]. now rewrite He, IH.
  - intros h1 h2 h3 h4 r H1 H2 H3 H4 _ IH.
    cbn [String.append scan_string]. eval_bytes.
    cbn -[scan_string String.append]. now rewrite H1, H2, H3, H4, IH.
Qed.

Lemma plain_not_newline (c : ascii) : plain c = true -> not_newline c = true.
Proof. char_cases c. Qed.

Lemma simple_escape_not_newline (c : ascii) :
  simple_escape c = true -> not_newline c = true.
Proof. char_cases c. Qed.

Lemma is_hex_not_newline (c : ascii) : is_hex c = true -> not_newline c = true.
Proof. char_cases c. Qed.

Lemma string_body_no_newline (raw : string) :
  string_body raw = true -> no_newline raw = true.
Proof.
  revert raw. apply string_body_induction; unfold no_newline; cbn [all_chars].
  - reflexivity.
  - intros c r Hc _ ->. now rewrite plain_not_newline.
  - intros e r He _ ->. rewrite (simple_escape_not_newline e He).
    reflexivity.
  - intros h1 h2 h3 h4 r H1 H2 H3 H4 _ ->.
    rewrite (is_hex_not_newline h1 H1), (is_hex_not_newline h2 H2),
      (is_hex_not_newline h3 H3), (is_hex_not_newline h4 H4).
    reflexivity.
Qed.

(** ** What [appendString] writes *)

Lemma high_plain (c : ascii) : high c = true -> plain c = true.
Proof. char_cases c. Qed.

Lemma htmlSafe_plain (c : ascii) : htmlSafe (byte_of c) = true -> plain c = true.
Proof. char_cases c. Qed.

Lemma string_body_high (p t : string) :
  all_chars high p = true -> string_body (p ++ t) = string_body t.
Proof.
  induction p as [|c p IH]; [reflexivity|]. cbn [all_chars String.append].
  intros [Hc Hp]%andb_true_iff.
  now rewrite string_body_plain, IH by auto using high_plain.
Qed.

Lemma is_hex_hex_char (d : N) : (d < 16)%N -> is_hex (hex_char d) = true.
Proof.
  intros Hd. unfold is_hex, hex_char.
  destruct (N.ltb_spec d 10); rewrite byte_of_chr by lia.
  - replace ((48 <=? 48 + d)%N && (48 + d <=? 57)%N) with true; [reflexivity|].
    symmetry. apply andb_true_iff. split; apply N.leb_le; lia.
  - replace ((97 <=? 87 + d)%N && (87 + d <=? 102)%N) with true;
      [now rewrite orb_true_r|].
    symmetry. apply andb_true_iff. split; apply N.leb_le; lia.
Qed.

Lemma land_15_lt (b : N) : (N.land b 15 < 16)%N.
Proof.
  change 15%N with (N.ones 4). rewrite N.land_ones.
  apply N.mod_lt. discriminate.
Qed.

Lemma shiftr_4_lt (b : N) : (b < 256)%N -> (N.shiftr b 4 < 16)%N.
Proof.
  intros Hb. rewrite N.shiftr_div_pow2.
  apply N.Div0.div_lt_upper_bound. exact Hb.
Qed.

Lemma string_body_escape_byte (b : N) (t : string) :
  (b < 256)%N -> string_body (escape_byte b ++ t) = string_body t.
Proof.
  intros Hb. unfold escape_byte.
  destruct (b =? 92)%N; [reflexivity|].
  destruct (b =? 34)%N; [reflexivity|].
  destruct (b =? 10)%N; [reflexivity|].
  destruct (b =? 13)%N; [reflexivity|].
  destruct (b =? 9)%N; [reflexivity|].
  cbn [String.append].
  apply string_body_u;
    auto using is_hex_hex_char, land_15_lt, shiftr_4_lt.
Qed.

Lemma byte_of_lt (c : ascii) : (byte_of c < 256)%N.
Proof. apply N_ascii_bounded. Qed.

Lemma first_byte_lo (b0 : N) (sz : nat) (lo hi : N) :
  first_byte b0 = Some (sz, lo, hi) -> (128 <= lo)%N.
Proof.
  unfold first_byte.
  repeat match goal with
         | |- context [if ?b then _ else _] => destruct b
         end; intros [= <- <- <-] || discriminate; lia.
Qed.

Lemma DecodeRune_high (c : ascii) (s : string) :
  high c = true ->
  all_chars high
    (first_bytes (snd (DecodeRuneInString (String c s))) (String c s)) = true.
Proof.
  intros Hc. unfold DecodeRuneInString.
  assert (Hone : all_chars high (first_bytes 1 (String c s)) = true)
    by (cbn; now rewrite Hc).
  destruct (byte_of c <? 128)%N; [exact Hone|].
  destruct (first_byte (byte_of c)) as [[[sz lo] hi]|] eqn:Hfb; [|exact Hone].
  apply first_byte_lo in Hfb.
  destruct s as [|c1 s2]; [exact Hone|].
  destruct (N.ltb_spec (byte_of c1) lo) as [_ | H1]; [exact Hone|].
  cbn [orb]. destruct (hi <? byte_of c1)%N; [exact Hone|].
  assert (Hc1 : high c1 = true) by (apply N.leb_le; lia).
  destruct (sz <=? 2)%nat; [cbn; now rewrite Hc, Hc1|].
  destruct s2 as [|c2 s3]; [exact Hone|].
  unfold continuation.
  destruct (N.leb_spec 128 (byte_of c2)) as [H2 | _]; [|exact Hone].
  cbn [andb negb]. destruct (byte_of c2 <=? 191)%N; [|exact Hone].
  assert (Hc2 : high c2 = true) by (apply N.leb_le; lia).
  cbn [negb]. destruct (sz <=? 3)%nat; [cbn; now rewrite Hc, Hc1, Hc2|].
  destruct s3 as [|c3 s4]; [exact Hone|].
  destruct (N.leb_spec 128 (byte_of c3)) as [H3 | _]; [|exact Hone].
  cbn [andb negb]. destruct (byte_of c3 <=? 191)%N; [|exact Hone].
  assert (Hc3 : high c3 = true) by (apply N.leb_le; lia).
  cbn. now rewrite Hc, Hc1, Hc2, Hc3.
Qed.

Lemma appendString_loop_body (fuel : nat) :
  forall src, string_body (appendString_loop fuel src) = true.
Proof.
  induction fuel as [|fuel IH]; intros src; [reflexivity|].
  cbn [appendString_loop]. destruct src as [|c rest]; [reflexivity|].
  destruct (N.ltb_spec (byte_of c) 128) as [Hlow | Hhigh].
  - destruct (htmlSafe (byte_of c)) eqn:Hsafe.
    + now rewrite string_body_plain by auto using htmlSafe_plain.
    + rewrite string_body_escape_byte by apply byte_of_lt. apply IH.
  - pose proof (DecodeRune_high c rest) as Hraw.
    destruct (DecodeRuneInString (String c rest)) as [r size].
    cbn [snd] in Hraw.
    destruct ((r =? RuneError)%N && (size =? 1)%nat).
    + unfold replacement_escape. cbn [String.append].
      rewrite string_body_u by reflexivity. apply IH.
    + destruct ((r =? 8232) || (r =? 8233))%N.
      * cbn [String.append].
        rewrite string_body_u
          by (try reflexivity; apply is_hex_hex_char, land_15_lt).
        apply IH.
      * rewrite string_body_high; [apply IH | apply Hraw].
        apply N.leb_le. exact Hhigh.
Qed.

Lemma quote_facts :
  isSpace (chr 34) = false /\ (byte_of (chr 34) =? 123)%N = false
  /\ (byte_of (chr 34) =? 91)%N = false /\ (byte_of (chr 34) =? 34)%N = true.
Proof. repeat split. Qed.

(** A string, as the encoder writes it, is scanned as a string. *)
Lemma appendString_scans (src rest : string) (fuel : nat) :
  exists raw,
    string_body raw = true
    /\ appendString src = quote ++ raw ++ quote
    /\ scan_value (S fuel) (appendString src ++ rest) = Some (SString raw, rest).
Proof.
  exists (appendString_loop (String.length src) src).
  pose proof (appendString_loop_body (String.length src) src) as Hbody.
  split; [exact Hbody|]. split; [reflexivity|].
  unfold appendString. rewrite !append_assoc.
  change (quote ++ ?x) with (String (chr 34) x).
  destruct quote_facts as (Hsp & H1 & H2 & H3).
  cbn [scan_value skip_ws]. rewrite Hsp, H1, H2, H3.
  now rewrite scan_string_body.
Qed.

Lemma appendString_no_newline (src : string) : no_newline (appendString src) = true.
Proof.
  pose proof (string_body_no_newline _
                (appendString_loop_body (String.length src) src)) as Hn.
  unfold appendString, no_newline in *. rewrite !all_chars_app, Hn.
  reflexivity.
Qed.

Lemma appendString_well_encoded (src : string) : well_encoded (appendString src).
Proof.
  split; [apply appendString_no_newline|]. split; [reflexivity|].
  intros fuel rest Hfuel _.
  destruct fuel as [|fuel]; [simpl in Hfuel; lia|].
  destruct (appendString_scans src rest fuel) as (raw & _ & _ & Hscan).
  eauto.
Qed.

(** ** Arrays and objects *)

Lemma value_start_facts (text rest : string) :
  value_start text = true ->
  skip_ws (text ++ rest) = text ++ rest
  /\ next_is 93 (text ++ rest) = None
  /\ next_is 125 (text ++ rest) = None
  /\ (1 <= String.length text)%nat.
Proof.
  destruct text as [|c r]; [discriminate|]. cbn.
  intros [[H1 H2]%andb_true_iff H3]%andb_true_iff.
  apply negb_true_iff in H1, H2, H3. rewrite H1, H2, H3.
  repeat split. lia.
Qed.

Lemma scans_value_start (text : string) : scans text -> value_start text = true.
Proof. now intros [? _]. Qed.

Lemma length_concat_cons (t : string) (ts : list string) :
  ts <> [] ->
  String.concat "," (t :: ts) = t ++ "," ++ String.concat "," ts.
Proof. destruct ts; [contradiction | reflexivity]. Qed.

Lemma next_comma (x : string) : next_is 44 (skip_ws ("," ++ x)) = Some x.
Proof. reflexivity. Qed.

Lemma next_colon (x : string) : next_is 58 (skip_ws (":" ++ x)) = Some x.
Proof. reflexivity. Qed.

Lemma next_bracket (x : string) :
  next_is 44 (skip_ws ("]" ++ x)) = None
  /\ next_is 93 (skip_ws ("]" ++ x)) = Some x.
Proof. split; reflexivity. Qed.

Lemma next_brace (x : string) :
  next_is 44 (skip_ws ("}" ++ x)) = None
  /\ next_is 125 (skip_ws ("}" ++ x)) = Some x.
Proof. split; reflexivity. Qed.

Lemma scan_elements_texts (texts : list string) :
  texts <> [] ->
  Forall scans texts ->
  forall fuel acc rest,
    (String.length (String.concat "," texts) < fuel)%nat ->
    exists ts,
      scan_elements fuel (String.concat "," texts ++ "]" ++ rest) acc
      = Some (SArray (acc ++ ts), rest).
Proof.
  induction texts as [|t1 more IH]; [contradiction|].
  intros _ Hall fuel acc rest Hfuel.
  apply Forall_cons in Hall as [[Hstart Ht1] Hmore].
  destruct fuel as [|fuel]; [lia|].
  destruct more as [|t2 more'].
  - cbn [String.concat] in *.
    destruct (Ht1 fuel ("]" ++ rest)) as [t Ht]; [lia | reflexivity|].
    cbn [scan_elements]. rewrite Ht.
    destruct (next_bracket rest) as [-> ->]. now exists [t].
  - rewrite length_concat_cons in * by discriminate.
    rewrite !length_append in Hfuel. cbn [String.length] in Hfuel.
    rewrite !append_assoc.
    destruct (Ht1 fuel ("," ++ String.concat "," (t2 :: more') ++ "]" ++ rest))
      as [t Ht]; [lia | reflexivity|].
    cbn [scan_elements]. rewrite Ht, next_comma.
    destruct (proj1 (Forall_cons _ _ _) Hmore) as [[Hs2 _] _].
    destruct (value_start_facts t1 EmptyString Hstart) as (_ & _ & _ & Hlen).
    destruct (IH ltac:(discriminate) Hmore fuel (acc ++ [t])%list rest)
      as [ts Hts]; [lia|].
    rewrite Hts. exists (t :: ts). now rewrite <- app_assoc.
Qed.

Lemma member_length (kv : string * string) :
  (String.length (snd kv) + 3 <= String.length (member kv))%nat.
Proof.
  unfold member, appendString. rewrite !length_append. cbn. lia.
Qed.

Lemma scan_members_texts (pairs : list (string * string)) :
  pairs <> [] ->
  Forall (fun kv => scans (snd kv)) pairs ->
  forall fuel acc rest,
    (String.length (String.concat "," (List.map member pairs)) < fuel)%nat ->
    exists ms,
      scan_members fuel
        (String.concat "," (List.map member pairs) ++ "}" ++ rest) acc
      = Some (SObject (acc ++ ms), rest).
Proof.
  induction pairs as [|kv more IH]; [contradiction|].
  intros _ Hall fuel acc rest Hfuel.
  apply Forall_cons in Hall as [[Hstart Hkv] Hmore].
  destruct fuel as [|fuel]; [lia|].
  pose proof (member_length kv) as Hlen.
  cbn [List.map] in *.
  assert (Hmember : forall tail,
             delimited tail = true ->
             exists key t,
               next_is 34 (skip_ws (member kv ++ tail))
               = Some (key ++ quote ++ ":" ++ snd kv ++ tail)
               /\ scan_string (key ++ quote ++ ":" ++ snd kv ++ tail)
                  = Some (key, ":" ++ snd kv ++ tail)
               /\ scan_value fuel (snd kv ++ tail) = Some (t, tail)).
  { intros tail Htail.
    destruct (appendString_scans (fst kv) EmptyString 0)
      as (raw & Hraw & Hq & _).
    destruct (Hkv fuel tail) as [t Ht]; [|exact Htail|].
    { destruct more; cbn [List.map String.concat] in Hfuel;
        [|rewrite !length_append in Hfuel]; lia. }
    exists raw, t. unfold member. rewrite Hq, !append_assoc.
    split; [reflexivity|]. split; [|exact Ht].
    now apply scan_string_body. }
  destruct more as [|kv2 more'].
  - cbn [List.map String.concat] in *.
    destruct (Hmember ("}" ++ rest) eq_refl) as (key & t & H1 & H2 & H3).
    cbn [scan_members]. rewrite H1, H2, next_colon, H3.
    destruct (next_brace rest) as [-> ->]. now exists [(key, t)].
  - cbn [List.map]. rewrite length_concat_cons in * by discriminate.
    cbn [List.map] in Hfuel.
    rewrite !length_append in Hfuel. cbn [String.length] in Hfuel.
    rewrite !append_assoc.
    destruct (Hmember ("," ++ String.concat "," (member kv2 :: List.map member more')
                         ++ "}" ++ rest) eq_refl)
      as (key & t & H1 & H2 & H3).
    cbn [scan_members]. rewrite H1, H2, next_colon, H3, next_comma.
    destruct (IH ltac:(discriminate) Hmore fuel (acc ++ [(key, t)])%list rest)
      as [ms Hms]; [cbn [List.map]; lia|].
    cbn [List.map] in Hms. rewrite Hms.
    exists ((key, t) :: ms). now rewrite <- app_assoc.
Qed.

Lemma no_newline_app (a b : string) :
  no_newline a = true -> no_newline b = true -> no_newline (a ++ b) = true.
Proof. unfold no_newline. rewrite all_chars_app. now intros -> ->. Qed.

Lemma no_newline_concat (texts : list string) :
  Forall (fun t => no_newline t = true) texts ->
  no_newline (String.concat "," texts) = true.
Proof.
  induction 1 as [|t ts Ht Hts IH]; [reflexivity|].
  destruct ts as [|t2 ts']; [exact Ht|].
  rewrite length_concat_cons by discriminate.
  auto using no_newline_app.
Qed.

Lemma Forall_insert_sorted (P : string * string -> Prop) kv l :
  P kv -> Forall P l -> Forall P (insert_sorted kv l).
Proof.
  intros Hkv. induction 1 as [|x l Hx Hl IH]; cbn [insert_sorted].
  - now constructor.
  - destruct (String.leb (fst kv) (fst x)); repeat constructor; assumption.
Qed.

Lemma Forall_sort_keys (P : string * string -> Prop) l :
  Forall P l -> Forall P (sort_keys l).
Proof.
  induction 1 as [|x l Hx Hl IH]; cbn [sort_keys]; [constructor|].
  now apply Forall_insert_sorted.
Qed.

Lemma member_no_newline (kv : string * string) :
  no_newline (snd kv) = true -> no_newline (member kv) = true.
Proof.
  intros Hv. unfold member.
  auto using no_newline_app, appendString_no_newline.
Qed.

Lemma scan_value_bracket (fuel : nat) (x : string) :
  scan_value (S fuel) ("[" ++ x)
  = match next_is 93 (skip_ws x) with
    | Some r' => Some (SArray [], r')
    | None => scan_elements fuel x []
    end.
Proof. reflexivity. Qed.

Lemma scan_value_brace (fuel : nat) (x : string) :
  scan_value (S fuel) ("{" ++ x)
  = match next_is 125 (skip_ws x) with
    | Some r' => Some (SObject [], r')
    | None => scan_members fuel x []
    end.
Proof. reflexivity. Qed.

Lemma array_well_encoded (texts : list string) :
  Forall well_encoded texts ->
  well_encoded ("[" ++ String.concat "," texts ++ "]").
Proof.
  intros Hall. split.
  - apply (no_newline_app "["); [reflexivity|].
    apply no_newline_app; [|reflexivity].
    apply no_newline_concat. eapply Forall_impl; [exact Hall|].
    now intros t [? _].
  - split; [reflexivity|]. intros fuel rest Hfuel _.
    assert (Hscans : Forall scans texts)
      by (eapply Forall_impl; [exact Hall | now intros t [_ ?]]).
    cbn [String.append String.length] in Hfuel.
    rewrite length_append in Hfuel. cbn [String.length] in Hfuel.
    destruct fuel as [|fuel]; [lia|].
    rewrite !append_assoc, scan_value_bracket.
    destruct texts as [|t1 more].
    + exists (SArray []). reflexivity.
    + apply Forall_cons in Hscans as Hs. destruct Hs as [[Hstart _] _].
      assert (Hcat : exists tail,
                 String.concat "," (t1 :: more) ++ "]" ++ rest = t1 ++ tail).
      { destruct more; [now exists ("]" ++ rest)|].
        rewrite length_concat_cons by discriminate.
        rewrite !append_assoc. eauto. }
      destruct Hcat as [tail Hcat].
      destruct (value_start_facts t1 tail Hstart) as (Hws & Hnb & _ & _).
      rewrite Hcat, Hws, Hnb, <- Hcat.
      destruct (scan_elements_texts (t1 :: more) ltac:(discriminate) Hscans
                  fuel [] rest) as [ts Hts]; [lia|].
      eauto.
Qed.

Lemma object_well_encoded (pairs : list (string * string)) :
  Forall (fun kv => well_encoded (snd kv)) pairs ->
  well_encoded ("{" ++ String.concat "," (List.map member pairs) ++ "}").
Proof.
  intros Hall. split.
  - apply (no_newline_app "{"); [reflexivity|].
    apply no_newline_app; [|reflexivity].
    apply no_newline_concat, Forall_map.
    eapply Forall_impl; [exact Hall|].
    intros kv [? _]. now apply member_no_newline.
  - split; [reflexivity|]. intros fuel rest Hfuel _.
    assert (Hscans : Forall (fun kv => scans (snd kv)) pairs)
      by (eapply Forall_impl; [exact Hall | now intros t [_ ?]]).
    cbn [String.append String.length] in Hfuel.
    rewrite length_append in Hfuel. cbn [String.length] in Hfuel.
    destruct fuel as [|fuel]; [lia|].
    rewrite !append_assoc, scan_value_brace.
    destruct pairs as [|kv more].
    + exists (SObject []). reflexivity.
    + assert (Hcat : exists tail,
                 String.concat "," (List.map member (kv :: more)) ++ "}" ++ rest
                 = quote ++ tail).
      { cbn [List.map]. unfold member at 1, appendString.
        destruct (List.map member more);
          [|rewrite length_concat_cons by discriminate];
          rewrite !append_assoc; eauto. }
      destruct Hcat as [tail Hcat].
      assert (Hnb : next_is 125 (skip_ws (quote ++ tail)) = None)
        by reflexivity.
      rewrite Hcat, Hnb, <- Hcat.
      destruct (scan_members_texts (kv :: more) ltac:(discriminate) Hscans
                  fuel [] rest) as [ms Hms]; [lia|].
      eauto.
Qed.

Lemma scan_value_literal (fuel : nat) (word rest : string) :
  word = "null" \/ word = "true" \/ word = "false" ->
  scan_value (S fuel) (word ++ rest) = Some (literal_syntax word, rest).
Proof.
  intros [-> | [-> | ->]]; cbn [scan_value].
  - change (skip_ws ("null" ++ rest)) with (String "n" ("ull" ++ rest)).
    cbv beta iota zeta. change (byte_of "n") with 110%N.
    cbn [N.eqb Pos.eqb].
    change (String "n" ("ull" ++ rest)) with ("null" ++ rest).
    now rewrite prefix_append.
  - change (skip_ws ("true" ++ rest)) with (String "t" ("rue" ++ rest)).
    cbv beta iota zeta. change (byte_of "t") with 116%N.
    cbn [N.eqb Pos.eqb].
    change (String.prefix "null" (String "t" ("rue" ++ rest))) with false.
    cbv iota.
    change (String "t" ("rue" ++ rest)) with ("true" ++ rest).
    now rewrite prefix_append.
  - change (skip_ws ("false" ++ rest)) with (String "f" ("alse" ++ rest)).
    cbv beta iota zeta. change (byte_of "f") with 102%N.
    cbn [N.eqb Pos.eqb].
    change (String.prefix "null" (String "f" ("alse" ++ rest))) with false.
    change (String.prefix "true" (String "f" ("alse" ++ rest))) with false.
    cbv iota.
    change (String "f" ("alse" ++ rest)) with ("false" ++ rest).
    now rewrite prefix_append.
Qed.

(** Every encoded value is free of newlines and is scanned as one value. *)
Lemma Marshal_well_encoded (v : Value) : well_encoded (Marshal v).
Proof.
  induction v as [| b | f | s | items IH | entries IH] using Value_ind.
  - split; [reflexivity|]. split; [reflexivity|].
    intros [|fuel] rest Hfuel _; [simpl in Hfuel; lia|].
    exists SNull. apply (scan_value_literal fuel "null"). now left.
  - destruct b; (split; [reflexivity|]); (split; [reflexivity|]);
      intros [|fuel] rest Hfuel _; try (simpl in Hfuel; lia);
      [exists STrue; apply (scan_value_literal fuel "true")
      | exists SFalse; apply (scan_value_literal fuel "false")]; auto.
  - apply formatFloat_well_encoded.
  - apply appendString_well_encoded.
  - cbn [Marshal]. apply array_well_encoded. now apply Forall_map.
  - cbn [Marshal]. apply object_well_encoded, Forall_sort_keys, Forall_map.
    exact IH.
Qed.

(** ** Lines of the converted batch *)

Lemma scan_members_object (fuel : nat) :
  forall s acc t r, scan_members fuel s acc = Some (t, r) -> is_object t = true.
Proof.
  induction fuel as [|fuel IH]; intros s acc t r; [discriminate|].
  cbn [scan_members].
  repeat match goal with
         | |- context [match ?m with _ => _ end] =>
             lazymatch m with
             | context [match _ with _ => _ end] => fail
             | _ => destruct m as [[? ?]|] || destruct m
             end
         end; try discriminate.
  - apply IH.
  - now intros [= <- _].
Qed.

Lemma scan_object_text (fuel : nat) (x : string) t r :
  scan_value fuel ("{" ++ x) = Some (t, r) -> is_object t = true.
Proof.
  destruct fuel as [|fuel]; [discriminate|]. rewrite scan_value_brace.
  destruct (next_is 125 (skip_ws x)); [now intros [= <- _]|].
  apply scan_members_object.
Qed.

Lemma json_Marshal_parses (m : Record_) : parses_as_object (json_Marshal m) = true.
Proof.
  unfold parses_as_object, parse_text.
  destruct (Marshal_well_encoded (VMap m)) as [_ [_ Hscan]].
  destruct (Hscan (String.length (json_Marshal m)) EmptyString) as [t Ht];
    [reflexivity | reflexivity |].
  rewrite append_nil_r in Ht. unfold json_Marshal in *. rewrite Ht.
  cbn [skip_ws]. cbn [Marshal] in Ht. now apply scan_object_text in Ht.
Qed.

Lemma split_lines_line (t rest : string) :
  no_newline t = true ->
  split_lines (t ++ NL ++ rest) = t :: split_lines rest.
Proof.
  unfold no_newline. induction t as [|c t IH]; [reflexivity|].
  cbn [all_chars]. intros [Hc Ht]%andb_true_iff.
  cbn [String.append split_lines]. unfold not_newline in Hc.
  apply negb_true_iff in Hc. now rewrite Hc, IH.
Qed.

Lemma convert_loop_app (data : list Record_) :
  forall sb, convert_loop data sb = sb ++ convert_loop data EmptyString.
Proof.
  induction data as [|item rest IH]; intros sb; cbn [convert_loop].
  - now rewrite append_nil_r.
  - rewrite IH, (IH (EmptyString ++ _)). cbn [String.append].
    now rewrite append_assoc.
Qed.

Lemma convert_cons (item : Record_) (rest : list Record_) :
  convertToLineDelimitedJSON (item :: rest)
  = json_Marshal item ++ NL ++ convertToLineDelimitedJSON rest.
Proof.
  unfold convertToLineDelimitedJSON. cbn [convert_loop].
  rewrite convert_loop_app. cbn [String.append]. now rewrite append_assoc.
Qed.

Lemma convert_lines (data : list Record_) :
  split_lines (convertToLineDelimitedJSON data) = List.map json_Marshal data.
Proof.
  induction data as [|item rest IH]; [reflexivity|].
  rewrite convert_cons, split_lines_line, IH; [reflexivity|].
  apply Marshal_well_encoded.
Qed.

(** C2. For every batch, the text of [convertToLineDelimitedJSON] has
    exactly one line per record, the i-th line being the encoding of the
    i-th record, and every line parses on its own as a JSON object.  The
    batch of the players A and B is written as the two lines of
    [Worlds.two_players_ndjson], each ended by a newline, in whatever order
    the records hold their keys. *)
Theorem convertToLineDelimitedJSON_lines (data : list Record_) :
  split_lines (convertToLineDelimitedJSON data) = List.map json_Marshal data
  /\ List.length (split_lines (convertToLineDelimitedJSON data))
     = List.length data
  /\ Forall (fun line => parses_as_object line = true)
       (split_lines (convertToLineDelimitedJSON data))
  /\ convertToLineDelimitedJSON [Worlds.player_A; Worlds.player_B]
     = Worlds.two_players_ndjson
  /\ convertToLineDelimitedJSON
       [List.rev Worlds.player_A; List.rev Worlds.player_B]
     = Worlds.two_players_ndjson.
Proof.
  rewrite convert_lines, length_map. split; [reflexivity|].
  split; [reflexivity|]. split; [|split; reflexivity].
  apply Forall_map, Forall_forall. intros m _. apply json_Marshal_parses.
Qed.

Section Laws.
Context {W : Type} `{Platform W}.

Lemma bind_assoc {A B C} (m : M W A) (f : A -> M W B) (g : B -> M W C) s :
  bind (bind m f) g s = bind m (fun x => bind (f x) g) s.
Proof. unfold bind. destruct (m s) as [[a | code | msg] s']; reflexivity. Qed.

Lemma bind_ret_l {A B} (a : A) (k : A -> M W B) s : bind (ret a) k s = k a s.
Proof. reflexivity. Qed.

Lemma bind_Done {A B} (m : M W A) (k : A -> M W B) s a s' :
  m s = (Done a, s') -> bind m k s = k a s'.
Proof. unfold bind. now intros ->. Qed.

Lemma bind_Exit {A B} (m : M W A) (k : A -> M W B) s code s' :
  m s = (Exit code, s') -> bind m k s = (Exit code, s').
Proof. unfold bind. now intros ->. Qed.

Lemma bind_Panic {A B} (m : M W A) (k : A -> M W B) s msg s' :
  m s = (Panic msg, s') -> bind m k s = (Panic msg, s').
Proof. unfold bind. now intros ->. Qed.

Lemma log_Fatal_run {A} (line : string) (s : State W) :
  @log_Fatal W A line s = (Exit 1, logged s line).
Proof. reflexivity. Qed.

Lemma main_staged_eq (s : State W) : main s = main_staged s.
Proof.
  unfold main, main_staged, preamble, pipeline.
  cbn [run_stages run_stage].
  unfold bind, fatal_if, ret, fst, snd.
  repeat (next_run; try reflexivity; simplify_eq/=).
  all: try reflexivity.
Qed.
End Laws.

Lemma stages_of_app (a b : list event) :
  stages_of (a ++ b)%list = (stages_of a ++ stages_of b)%list.
Proof.
  induction a as [|e a IH]; simpl; [reflexivity|].
  destruct (stage_of_event e); simpl; now rewrite IH.
Qed.

Lemma stages_of_elem (tr : list event) (st : stage) :
  In st (stages_of tr) <-> exists e, In e tr /\ stage_of_event e = Some st.
Proof.
  induction tr as [|e tr IH]; simpl.
  - split; [tauto | intros (e & [] & _)].
  - destruct (stage_of_event e) eqn:E; simpl; rewrite IH; split.
    + intros [-> | (e' & Hin & He')]; eauto.
    + intros (e' & [-> | Hin] & He'); [left; congruence | eauto].
    + intros (e' & Hin & He'); eauto.
    + intros (e' & [-> | Hin] & He'); [congruence | eauto].
Qed.

Lemma stage_events_elem (l : list stage) (st : stage) :
  In st (flat_map stage_events l) -> In st l.
Proof.
  induction l as [|x l IH]; simpl; [tauto|].
  rewrite in_app_iff. intros [Hx | Hl]; [left | right; auto].
  destruct x; simpl in Hx; intuition congruence.
Qed.

Section Traces.
Context {W : Type} `{Platform W}.

Lemma run_stage_trace (st : stage) (d : list Record_) (s s' : State W) o :
  run_stage st d s = (o, s') ->
  exists evs, appends s s' evs
              /\ stages_of evs `sublist_of` stage_events st.
Proof.
  destruct st; cbn [run_stage];
    unfold createS3Bucket, createGlueDatabase, fetchNBAData, uploadDataToS3,
      createGlueTable, configureAthena, handle_response, defer, lift, bind,
      call, log_Printf, emit, ret; intros Hrun.
  all: repeat (match type of Hrun with
               | context [match ?m with _ => _ end] =>
                   lazymatch m with
                   | context [match _ with _ => _ end] => fail
                   | _ => destruct m eqn:?
                   end
               | context [if ?b then _ else _] => destruct b eqn:?
               end; simplify_eq/=).
  all: simplify_eq/=.
  all: first
    [ exists []; split;
      [unfold appends; cbn; now rewrite app_nil_r | cbn; solve_sublist]
    | eexists; split;
      [unfold appends; cbn; rewrite <- ?app_assoc; reflexivity
      | cbn; solve_sublist] ].
Qed.

Lemma log_Fatal_trace {A} line (s s' : State W) (o : outcome A) :
  log_Fatal line s = (o, s') -> appends s s' [EvLog line] /\ o = Exit 1.
Proof. unfold log_Fatal, bind, emit, exit. intros [= <- <-]. now split. Qed.

Lemma run_stages_trace (l : list stage) :
  forall (d : list Record_) (s s' : State W) o,
    run_stages l d s = (o, s') ->
    exists evs, appends s s' evs
                /\ stages_of evs `sublist_of` flat_map stage_events l.
Proof.
  induction l as [|st l IH]; intros d s s' o; cbn [run_stages flat_map].
  - intros [= <- <-]. exists []. split; [unfold appends; now rewrite app_nil_r|].
    apply sublist_nil.
  - unfold bind at 1. destruct (run_stage st d s) as [o1 s1] eqn:E1.
    apply run_stage_trace in E1 as (evs1 & Happ1 & Hsub1).
    destruct o1 as [[[e|] d'] | code | msg]; cbn [fst snd].
    + intros Hf. apply log_Fatal_trace in Hf as [Happ2 _].
      exists (evs1 ++ [EvLog (fatal_prefix st ++ Error e)])%list. split.
      * unfold appends in *. now rewrite Happ2, Happ1, app_assoc.
      * rewrite stages_of_app. cbn. rewrite app_nil_r.
        now apply sublist_inserts_r.
    + intros Hr. apply IH in Hr as (evs2 & Happ2 & Hsub2).
      exists (evs1 ++ evs2)%list. split.
      * unfold appends in *. now rewrite Happ2, Happ1, app_assoc.
      * rewrite stages_of_app. now apply sublist_app.
    + intros [= <- <-]. exists evs1. split; [assumption|].
      now apply sublist_inserts_r.
    + intros [= <- <-]. exists evs1. split; [assumption|].
      now apply sublist_inserts_r.
Qed.

Lemma preamble_trace (s s' : State W) o :
  preamble s = (o, s') ->
  exists evs, appends s s' evs /\ stages_of evs = [].
Proof.
  unfold preamble, bind, call, fatal_if, log_Fatal, bind, emit, exit, ret.
  destruct (config_LoadDefaultConfig region (world s)) as [[e|] w'];
    intros [= <- <-]; eexists;
    (split; [unfold appends; cbn; rewrite <- ?app_assoc; reflexivity
            | reflexivity]).
Qed.

Lemma bind_ext {A B} (m : M W A) (f g : A -> M W B) s :
  (forall a s', f a s' = g a s') -> bind m f s = bind m g s.
Proof.
  intros Hfg. unfold bind.
  destruct (m s) as [[a | code | msg] s']; [apply Hfg | reflexivity..].
Qed.

Lemma run_stages_app (pre l : list stage) :
  forall (d : list Record_) (s : State W),
    run_stages (pre ++ l) d s
    = bind (run_stages pre d) (fun d' => run_stages l d') s.
Proof.
  induction pre as [|st pre IH]; intros d s; [reflexivity|].
  cbn [run_stages app]. rewrite bind_assoc. apply bind_ext.
  intros [[e|] d'] s1; cbn [fst snd]; [reflexivity | apply IH].
Qed.

Lemma main_until_trace (pre : list stage) (s s' : State W) o :
  main_until pre s = (o, s') ->
  exists evs, appends s s' evs
              /\ stages_of evs `sublist_of` flat_map stage_events pre.
Proof.
  unfold main_until, bind. destruct (preamble s) as [o1 s1] eqn:E1.
  apply preamble_trace in E1 as (evs1 & Happ1 & Hst1).
  destruct o1 as [[] | code | msg].
  - intros Hr. apply run_stages_trace in Hr as (evs2 & Happ2 & Hsub2).
    exists (evs1 ++ evs2)%list. split.
    + unfold appends in *. now rewrite Happ2, Happ1, app_assoc.
    + now rewrite stages_of_app, Hst1.
  - intros [= <- <-]. exists evs1. split; [assumption|].
    rewrite Hst1. apply sublist_nil_l.
  - intros [= <- <-]. exists evs1. split; [assumption|].
    rewrite Hst1. apply sublist_nil_l.
Qed.

Lemma main_from_prefix (pre l : list stage) (s0 s1 : State W) d :
  pipeline = (pre ++ l)%list ->
  main_until pre s0 = (Done d, s1) ->
  main s0
  = bind (run_stages l d) (fun _ => log_Println "Data lake setup complete.") s1.
Proof.
  intros Hpipe Hpre. rewrite main_staged_eq. unfold main_staged.
  rewrite Hpipe. unfold main_until in Hpre.
  transitivity
    (bind (bind preamble (fun _ => run_stages pre []))
       (fun d' => bind (run_stages l d')
                    (fun _ => log_Println "Data lake setup complete.")) s0).
  - rewrite bind_assoc. apply bind_ext. intros [] s'.
    rewrite <- bind_assoc. unfold bind at 1 3. now rewrite run_stages_app.
  - unfold bind at 1. now rewrite Hpre.
Qed.

Lemma main_stops_at (s0 : State W) pre st post d d' e s1 s2 :
  pipeline = (pre ++ st :: post)%list ->
  main_until pre s0 = (Done d, s1) ->
  run_stage st d s1 = (Done (Some e, d'), s2) ->
  main s0 = (Exit 1, logged s2 (fatal_prefix st ++ Error e)).
Proof.
  intros Hpipe Hpre Hst.
  rewrite (main_from_prefix pre (st :: post) s0 s1 d Hpipe Hpre).
  cbn [run_stages]. rewrite bind_assoc. unfold bind at 1.
  rewrite Hst. reflexivity.
Qed.

(** C7. The calls of a run of [main] occur in the order bucket, pause,
    database, fetch, upload, table, query, each at most once.  Whenever a
    step returns an error after the steps before it have succeeded, [main]
    exits with status 1 in the very state that step left, plus the fatal
    log line: no call of a later step is issued, the step is not run again
    and nothing done so far is undone.  When all steps succeed, [main]
    logs the completion line and returns. *)
Theorem main_linear_fail_fast (s0 : State W) :
  (forall o s',
      main s0 = (o, s') ->
      exists evs, appends s0 s' evs
                  /\ stages_of evs `sublist_of` call_order)
  /\ (forall pre st post d d' e s1 s2,
         pipeline = (pre ++ st :: post)%list ->
         main_until pre s0 = (Done d, s1) ->
         run_stage st d s1 = (Done (Some e, d'), s2) ->
         main s0 = (Exit 1, logged s2 (fatal_prefix st ++ Error e))
         /\ exists evs,
             appends s0 (logged s2 (fatal_prefix st ++ Error e)) evs
             /\ Forall (fun ev => forall later,
                            In later post -> stage_of_event ev <> Some later)
                  evs)
  /\ (forall d s1,
         main_until pipeline s0 = (Done d, s1) ->
         main s0 = (Done tt, logged s1 "Data lake setup complete.")).
Proof.
  split; [|split].
  - intros o s'. rewrite main_staged_eq. unfold main_staged.
    rewrite <- bind_assoc. fold (main_until pipeline). unfold bind.
    destruct (main_until pipeline s0) as [o1 s1] eqn:E1.
    apply main_until_trace in E1 as (evs & Happ & Hsub).
    destruct o1 as [d | code | msg]; intros [= <- <-].
    + exists (evs ++ [EvLog "Data lake setup complete."])%list. split.
      * unfold appends in *. cbn. now rewrite Happ, app_assoc.
      * rewrite stages_of_app. cbn. now rewrite app_nil_r.
    + now exists evs.
    + now exists evs.
  - intros pre st post d d' e s1 s2 Hpipe Hpre Hst.
    split; [now apply (main_stops_at s0 pre st post d d' e s1 s2)|].
    apply main_until_trace in Hpre as (evs1 & Happ1 & Hsub1).
    apply run_stage_trace in Hst as (evs2 & Happ2 & Hsub2).
    exists (evs1 ++ evs2 ++ [EvLog (fatal_prefix st ++ Error e)])%list. split.
    { unfold appends in *. cbn. now rewrite Happ2, Happ1, <- !app_assoc. }
    assert (Hnd : NoDup (pre ++ st :: post)).
    { rewrite <- Hpipe. unfold pipeline.
      repeat (apply NoDup_cons_2;
                [rewrite ?elem_of_cons, elem_of_nil; intuition discriminate|]).
      apply NoDup_nil_2. }
    apply NoDup_app in Hnd as (_ & Hdisj & Hnd).
    apply NoDup_cons in Hnd as [Hst_post _].
    apply List.Forall_forall. intros ev Hev later Hlater Hstage.
    assert (Hin : In later
                    (stages_of
                       (evs1 ++ evs2
                        ++ [EvLog (fatal_prefix st ++ Error e)]))).
    { apply stages_of_elem. eauto. }
    rewrite !stages_of_app in Hin. cbn in Hin. rewrite app_nil_r in Hin.
    apply in_app_iff in Hin as [Hin | Hin].
    + apply list_elem_of_In in Hin.
      apply (sublist_subseteq _ _ Hsub1) in Hin.
      apply list_elem_of_In, stage_events_elem, list_elem_of_In in Hin.
      apply (Hdisj later Hin). apply elem_of_cons. right.
      now apply list_elem_of_In.
    + apply list_elem_of_In in Hin.
      apply (sublist_subseteq _ _ Hsub2) in Hin.
      apply list_elem_of_In in Hin.
      assert (later = st) as ->.
      { destruct st; cbn in Hin; intuition congruence. }
      apply Hst_post. now apply list_elem_of_In.
  - intros d s1 Hall.
    rewrite (main_from_prefix pipeline [] s0 s1 d); [reflexivity | | exact Hall].
    now rewrite app_nil_r.
Qed.
End Traces.

Section Fetch2.
Context {W : Type} `{Platform W}.

(** C1. For a response with status 200 whose body decodes to [result]:
    when [result] is an array of N objects, [fetchNBAData] returns the batch
    of exactly these N records, in order; when it is a single object, the
    batch of that one record; when it is any other JSON value (a string, a
    number, a boolean, null), the error "unexpected JSON structure". *)
Theorem fetchNBAData_batch (s : State W) (resp : Response) (w' : W)
    (result : Value) :
  url_Parse (nbaEndpoint s) = None ->
  http_Do (request_of s) (world s) = (Ok resp, w') ->
  StatusCode resp = StatusOK ->
  json_Decode strconv_ParseFloat (Body resp) = Ok result ->
  let s' := body_closed (answered s w') in
  (forall records,
      result = VSlice (List.map VMap records) ->
      fetchNBAData s = (Done (Ok records), s')
      /\ List.length records = List.length (List.map VMap records))
  /\ (forall m, result = VMap m -> fetchNBAData s = (Done (Ok [m]), s'))
  /\ ((forall items, result <> VSlice items) ->
      (forall m, result <> VMap m) ->
      fetchNBAData s
      = (Done (Err (errorString "unexpected JSON structure")), s')).
Proof.
  intros Hurl Hdo Hcode Hdec s'.
  rewrite (fetchNBAData_answered s resp w' Hurl Hdo).
  unfold defer, handle_response. rewrite Hcode, Z.eqb_refl, Hdec. cbn [negb].
  split; [|split].
  - intros records ->. unfold bind, lift. rewrite assert_items_maps.
    split; [reflexivity | now rewrite length_map].
  - intros m ->. reflexivity.
  - intros Hs Hm. destruct result; try reflexivity.
    + now destruct (Hs items).
    + now destruct (Hm entries).
Qed.

(** C9. When the body of a 200 response decodes to an array with an
    element that is not an object, [fetchNBAData] does not return: the type
    assertion of line 159 panics (after the deferred close of the body), and
    the panic ends [main], without any "unexpected JSON structure" error. *)
Theorem fetchNBAData_panics (s : State W) (resp : Response) (w' : W)
    (data : list Value) :
  url_Parse (nbaEndpoint s) = None ->
  http_Do (request_of s) (world s) = (Ok resp, w') ->
  StatusCode resp = StatusOK ->
  json_Decode strconv_ParseFloat (Body resp) = Ok (VSlice data) ->
  Exists not_a_map data ->
  exists msg,
    fetchNBAData s = (Panic msg, body_closed (answered s w'))
    /\ (forall s0 d,
           main_until [Bucket; Pause; Database] s0 = (Done d, s) ->
           main s0 = (Panic msg, body_closed (answered s w'))).
Proof.
  intros Hurl Hdo Hcode Hdec Hex.
  destruct (assert_items_panics data [] Hex) as [msg Hmsg].
  assert (Hf : fetchNBAData s = (Panic msg, body_closed (answered s w'))).
  { rewrite (fetchNBAData_answered s resp w' Hurl Hdo).
    unfold defer, handle_response. rewrite Hcode, Z.eqb_refl, Hdec.
    cbn [negb]. unfold bind, lift. now rewrite Hmsg. }
  exists msg. split; [exact Hf|].
  intros s0 d Hpre.
  rewrite (main_from_prefix [Bucket; Pause; Database]
             [Fetch; Upload; Table; Query] s0 s d eq_refl Hpre).
  cbn [run_stages run_stage]. unfold bind at 1 2 3. now rewrite Hf.
Qed.

Lemma main_until_snoc (pre : list stage) (st : stage) (s0 s1 s2 : State W) d d' :
  main_until pre s0 = (Done d, s1) ->
  run_stage st d s1 = (Done (None, d'), s2) ->
  main_until (pre ++ [st]) s0 = (Done d', s2).
Proof.
  unfold main_until. intros Hpre Hst.
  transitivity (bind (bind preamble (fun _ => run_stages pre []))
                  (fun x => run_stages [st] x) s0).
  - rewrite bind_assoc. apply bind_ext. intros [] s'. apply run_stages_app.
  - unfold bind at 1. rewrite Hpre. cbn [run_stages]. unfold bind at 1.
    now rewrite Hst.
Qed.

(** C5. With an empty batch the upload step does nothing: it leaves the
    state as it is and reports no error.  When the fetch returns an empty
    batch, [main] goes on with the table step, and its run issues no
    [PutObject] call. *)
Theorem empty_batch_skips_upload (s0 : State W) :
  (forall s, run_stage Upload [] s = (Done (None, []), s))
  /\ (forall d s1 s2,
         main_until [Bucket; Pause; Database] s0 = (Done d, s1) ->
         fetchNBAData s1 = (Done (Ok []), s2) ->
         main s0
         = bind (run_stages [Table; Query] [])
             (fun _ => log_Println "Data lake setup complete.") s2
         /\ forall o s',
             main s0 = (o, s') ->
             exists evs,
               appends s0 s' evs
               /\ List.forallb (fun e => negb (is_put_object e)) evs = true).
Proof.
  split; [reflexivity|].
  intros d s1 s2 Hpre Hfetch.
  assert (Hf : run_stage Fetch d s1 = (Done (None, []), s2)).
  { cbn [run_stage]. unfold bind. now rewrite Hfetch. }
  pose proof (main_until_snoc _ _ _ _ _ _ _ Hpre Hf) as Hpre4.
  assert (Hu : run_stage Upload [] s2 = (Done (None, []), s2)) by reflexivity.
  pose proof (main_until_snoc _ _ _ _ _ _ _ Hpre4 Hu) as Hpre5.
  cbn [app] in Hpre5.
  pose proof (main_from_prefix [Bucket; Pause; Database; Fetch; Upload]
                [Table; Query] s0 s2 [] eq_refl Hpre5) as Hmain.
  split; [exact Hmain|].
  intros o s'. rewrite Hmain. clear Hmain Hpre5 Hu.
  apply main_until_trace in Hpre4 as (evs1 & Happ1 & Hsub1).
  unfold bind at 1.
  destruct (run_stages [Table; Query] [] s2) as [o2 s3] eqn:E2.
  apply run_stages_trace in E2 as (evs2 & Happ2 & Hsub2).
  assert (Hno : forall evs evs',
             stages_of evs `sublist_of` [Bucket; Bucket; Pause; Database; Fetch; Fetch] ->
             stages_of evs' `sublist_of` [Table; Query] ->
             List.forallb (fun e => negb (is_put_object e)) (evs ++ evs') = true).
  { intros evs evs' Ha Hb. apply forallb_forall. intros ev Hev.
    destruct ev; try reflexivity. exfalso.
    assert (Hin : In Upload (stages_of (evs ++ evs'))).
    { apply stages_of_elem. eexists. split; [exact Hev | reflexivity]. }
    rewrite stages_of_app in Hin. apply in_app_iff in Hin as [Hin | Hin];
      apply list_elem_of_In in Hin;
      [apply (sublist_subseteq _ _ Ha) in Hin
      | apply (sublist_subseteq _ _ Hb) in Hin];
      rewrite ?elem_of_cons, elem_of_nil in Hin; intuition discriminate. }
  destruct o2 as [d2 | code | msg]; intros [= <- <-].
  - exists (evs1 ++ evs2 ++ [EvLog "Data lake setup complete."])%list. split.
    + unfold appends in *. cbn. now rewrite Happ2, Happ1, <- !app_assoc.
    + rewrite app_assoc, forallb_app, Hno by assumption. reflexivity.
  - exists (evs1 ++ evs2)%list. split.
    + unfold appends in *. now rewrite Happ2, Happ1, <- !app_assoc.
    + now apply Hno.
  - exists (evs1 ++ evs2)%list. split.
    + unfold appends in *. now rewrite Happ2, Happ1, <- !app_assoc.
    + now apply Hno.
Qed.
End Fetch2.

Section Init.
Context {W : Type} `{Platform W}.

Lemma program_init_exit (w : W) (s' : State W) code :
  init (start w) = (Exit code, s') -> program (start w) = (Exit code, s').
Proof. intros Hinit. unfold program. now apply bind_Exit. Qed.

Lemma init_fatal (w : W) :
  let w' := snd (godotenv_Load w) in
  fst (godotenv_Load w) <> None
  \/ os_Getenv "SPORTS_DATA_API_KEY" w' = EmptyString
  \/ os_Getenv "NBA_ENDPOINT" w' = EmptyString ->
  exists key endpoint,
    init (start w)
    = (Exit 1, mkState w' [EvLoadDotenv; EvLog (init_fatal_line w)] key endpoint).
Proof.
  unfold init_fatal_line, init, bind, call, log_Fatal, bind, emit, exit, ret,
    Getenv, set_apiKey, set_nbaEndpoint, start.
  cbn [world trace apiKey nbaEndpoint].
  destruct (godotenv_Load w) as [[e|] w']; cbn [fst snd app].
  - intros _. eauto.
  - intros Hempty. cbn.
    destruct (String.eqb_spec (os_Getenv "SPORTS_DATA_API_KEY" w') "");
      cbn; [eauto|].
    destruct (String.eqb_spec (os_Getenv "NBA_ENDPOINT" w') "");
      cbn; [eauto | tauto].
Qed.

Lemma init_load_failure (w w' : W) (e : error) :
  godotenv_Load w = (Some e, w') ->
  program (start w)
  = (Exit 1,
     mkState w' [EvLoadDotenv; EvLog "Error loading .env file"]
       EmptyString EmptyString).
Proof.
  intros Hload. apply program_init_exit.
  unfold init, bind, call, log_Fatal, bind, emit, exit, start.
  cbn [world trace apiKey nbaEndpoint]. now rewrite Hload.
Qed.

(** C10. When [godotenv.Load] fails, the process logs "Error loading .env
    file" and exits with status 1 without reading any variable, whatever the
    process environment holds. *)
Theorem init_requires_dotenv (w w' : W) (e : error) :
  godotenv_Load w = (Some e, w') ->
  program (start w)
  = (Exit 1,
     mkState w' [EvLoadDotenv; EvLog "Error loading .env file"]
       EmptyString EmptyString).
Proof. apply init_load_failure. Qed.

(** C6, amended. If either required configuration value is empty, the
    process exits with status 1 after loading the [.env] file and logging
    one line, so before any network call.  When [godotenv.Load] succeeded
    the line names a missing variable (the API key when both are missing);
    when it failed the line is "Error loading .env file". *)
Theorem init_rejects_missing_config (w : W) :
  let w' := snd (godotenv_Load w) in
  os_Getenv "SPORTS_DATA_API_KEY" w' = EmptyString
  \/ os_Getenv "NBA_ENDPOINT" w' = EmptyString ->
  exists s',
    program (start w) = (Exit 1, s')
    /\ trace s' = [EvLoadDotenv; EvLog (init_fatal_line w)]
    /\ List.forallb (fun e => negb (is_network_call e)) (trace s') = true
    /\ (fst (godotenv_Load w) = None ->
        os_Getenv "SPORTS_DATA_API_KEY" w' = EmptyString
        /\ init_fatal_line w = "SPORTS_DATA_API_KEY is not set"
        \/ os_Getenv "NBA_ENDPOINT" w' = EmptyString
           /\ init_fatal_line w = "NBA_ENDPOINT is not set")
    /\ (fst (godotenv_Load w) <> None ->
        init_fatal_line w = "Error loading .env file").
Proof.
  intros w' Hempty.
  destruct (init_fatal w) as (key & endpoint & Hinit); [tauto|].
  eexists. split; [apply program_init_exit, Hinit|].
  cbn [trace forallb is_network_call negb andb].
  split; [reflexivity|]. split; [reflexivity|].
  unfold init_fatal_line. subst w'.
  destruct (godotenv_Load w) as [[e|] w1]; cbn [fst snd] in *.
  - split; [discriminate | reflexivity].
  - split; [intros _ | congruence].
    destruct (String.eqb_spec (os_Getenv "SPORTS_DATA_API_KEY" w1) "");
      [left; tauto | right; split; [tauto | reflexivity]].
Qed.
End Init.

(** C6 as worded fails on a machine with no [.env] file and an empty
    environment: both values are empty and the fatal line, "Error loading
    .env file", names neither variable. *)
Lemma init_message_counterexample : ~ names_missing_variable Worlds.bare.
Proof.
  unfold names_missing_variable. intros Hclaim.
  destruct Hclaim as (s' & line & Hrun & Hlast & Hname & _); [left; reflexivity|].
  assert (Hload : godotenv_Load Worlds.bare
                  = (Some (errorString "open .env: no such file or directory"),
                     Worlds.bare)) by reflexivity.
  rewrite (init_load_failure _ _ _ Hload) in Hrun.
  injection Hrun as <-. cbn in Hlast. injection Hlast as <-.
  destruct Hname as [[_ Hc] | [_ Hc]]; apply contains_containsb in Hc;
    vm_compute in Hc; discriminate.
Qed.

Section BucketCases.
Context {W : Type} `{Platform W}.

Lemma createS3Bucket_exists (s : State W) (w' : W) :
  s3_HeadBucket bucketName (world s) = (None, w') ->
  createS3Bucket s
  = (Done None,
     mkState w'
       (trace s ++ [EvHeadBucket bucketName;
                    EvLog ("Bucket " ++ bucketName ++ " already exists")])
       (apiKey s) (nbaEndpoint s)).
Proof.
  unfold createS3Bucket, bind, call, log_Printf, emit, ret.
  intros ->. cbn. now rewrite <- app_assoc.
Qed.

Lemma createS3Bucket_creates (s : State W) (e : error) (w' w'' : W) :
  s3_HeadBucket bucketName (world s) = (Some e, w') ->
  errors_As_NotFound e = true ->
  s3_CreateBucket bucketName w' = (None, w'') ->
  createS3Bucket s
  = (Done None,
     mkState w''
       (trace s ++ [EvHeadBucket bucketName; EvCreateBucket bucketName;
                    EvLog ("Bucket " ++ bucketName
                           ++ " created successfully")])
       (apiKey s) (nbaEndpoint s)).
Proof.
  unfold createS3Bucket, bind, call, log_Printf, emit, ret.
  intros -> Hnf Hcreate. cbn. rewrite Hnf. cbn. rewrite Hcreate. cbn.
  now rewrite <- !app_assoc.
Qed.

Lemma createS3Bucket_create_fails (s : State W) (e e' : error) (w' w'' : W) :
  s3_HeadBucket bucketName (world s) = (Some e, w') ->
  errors_As_NotFound e = true ->
  s3_CreateBucket bucketName w' = (Some e', w'') ->
  createS3Bucket s
  = (Done (Some (Errorf_w "failed to create bucket: " e')),
     mkState w''
       (trace s ++ [EvHeadBucket bucketName; EvCreateBucket bucketName])
       (apiKey s) (nbaEndpoint s)).
Proof.
  unfold createS3Bucket, bind, call, log_Printf, emit, ret.
  intros -> Hnf Hcreate. cbn. rewrite Hnf. cbn. rewrite Hcreate. cbn.
  now rewrite <- !app_assoc.
Qed.

Lemma createS3Bucket_probe_fails (s : State W) (e : error) (w' : W) :
  s3_HeadBucket bucketName (world s) = (Some e, w') ->
  errors_As_NotFound e = false ->
  createS3Bucket s
  = (Done (Some (Errorf_w "failed to check if bucket exists: " e)),
     mkState w' (trace s ++ [EvHeadBucket bucketName])
       (apiKey s) (nbaEndpoint s)).
Proof.
  unfold createS3Bucket, bind, call, log_Printf, emit, ret.
  intros -> Hnf. cbn. now rewrite Hnf.
Qed.
End BucketCases.

Lemma Fake_HeadBucket_present (b : string) (w : Fake) :
  b ∈ buckets w -> s3_HeadBucket b w = (None, w).
Proof.
  intros Hin. cbn. unfold FakePlatform.HeadBucket.
  destruct (decide (b ∈ buckets w)); [reflexivity | contradiction].
Qed.

Lemma Fake_HeadBucket_absent (b : string) (w : Fake) :
  b ∉ buckets w ->
  exists e, s3_HeadBucket b w = (Some e, w) /\ errors_As_NotFound e = true.
Proof.
  intros Hout. cbn. unfold FakePlatform.HeadBucket.
  destruct (decide (b ∈ buckets w)); [contradiction|].
  eexists. split; reflexivity.
Qed.

Lemma Fake_CreateBucket_absent (b : string) (w : Fake) :
  b ∉ buckets w ->
  s3_CreateBucket b w
  = (None, FakePlatform.set_buckets w ({[ b ]} ∪ buckets w)).
Proof.
  intros Hout. cbn. unfold FakePlatform.CreateBucket.
  destruct (decide (b ∈ buckets w)); [contradiction | reflexivity].
Qed.

(** C3. [createS3Bucket] first issues the existence probe.  When the probe
    succeeds it returns nil without a create call; when the probe fails with
    a not-found error it issues the create call and returns its outcome; any
    other probe failure is returned as an error without a create call.  On
    the in-memory S3, two calls in a row both return nil, the bucket exists
    afterwards, the second call creates nothing, and the two calls together
    create the bucket once if it was absent and never if it was present. *)
Theorem createS3Bucket_idempotent :
  (forall (W : Type) (P : Platform W) (s : State W),
      (forall w',
          s3_HeadBucket bucketName (world s) = (None, w') ->
          createS3Bucket s
          = (Done None,
             mkState w'
               (trace s ++ [EvHeadBucket bucketName;
                            EvLog ("Bucket " ++ bucketName ++ " already exists")])
               (apiKey s) (nbaEndpoint s)))
      /\ (forall e w' r w'',
             s3_HeadBucket bucketName (world s) = (Some e, w') ->
             errors_As_NotFound e = true ->
             s3_CreateBucket bucketName w' = (r, w'') ->
             exists s' logs,
               createS3Bucket s
               = (Done (option_map (Errorf_w "failed to create bucket: ") r), s')
               /\ world s' = w''
               /\ trace s'
                  = (trace s ++ [EvHeadBucket bucketName;
                                 EvCreateBucket bucketName] ++ logs)%list
               /\ stages_of logs = [])
      /\ (forall e w',
             s3_HeadBucket bucketName (world s) = (Some e, w') ->
             errors_As_NotFound e = false ->
             createS3Bucket s
             = (Done (Some (Errorf_w "failed to check if bucket exists: " e)),
                mkState w' (trace s ++ [EvHeadBucket bucketName])
                  (apiKey s) (nbaEndpoint s))))
  /\ (forall s : State Fake,
         exists s1 s2 evs1 evs2,
           createS3Bucket s = (Done None, s1)
           /\ createS3Bucket s1 = (Done None, s2)
           /\ appends s s1 evs1 /\ appends s1 s2 evs2
           /\ bucketName ∈ buckets (world s2)
           /\ world s2 = world s1
           /\ List.filter is_create_bucket evs2 = []
           /\ List.length (List.filter is_create_bucket (evs1 ++ evs2))
              = if decide (bucketName ∈ buckets (world s)) then 0%nat
                else 1%nat).
Proof.
  split.
  - intros W P s. split; [|split].
    + apply createS3Bucket_exists.
    + intros e w' [e'|] w'' Hhead Hnf Hcreate.
      * rewrite (createS3Bucket_create_fails s e e' w' w'' Hhead Hnf Hcreate).
        eexists _, []. repeat split.
      * rewrite (createS3Bucket_creates s e w' w'' Hhead Hnf Hcreate).
        eexists _, [EvLog _]. repeat split.
    + apply createS3Bucket_probe_fails.
  - intros s. destruct (decide (bucketName ∈ buckets (world s))) as [Hin | Hout].
    + pose proof (createS3Bucket_exists s _ (Fake_HeadBucket_present _ _ Hin))
        as H1.
      eexists _, _, _, _. split; [exact H1|].
      split; [apply createS3Bucket_exists, Fake_HeadBucket_present, Hin|].
      repeat split; assumption.
    + destruct (Fake_HeadBucket_absent _ _ Hout) as (e & Hhead & Hnf).
      pose proof (createS3Bucket_creates s e _ _ Hhead Hnf
                    (Fake_CreateBucket_absent _ _ Hout)) as H1.
      assert (Hin : bucketName
                    ∈ buckets (FakePlatform.set_buckets (world s)
                                 ({[bucketName]} ∪ buckets (world s)))).
      { cbn. apply elem_of_union_l, elem_of_singleton. reflexivity. }
      eexists _, _, _, _. split; [exact H1|].
      split; [apply createS3Bucket_exists, Fake_HeadBucket_present, Hin|].
      repeat split; assumption.
Qed.

(** C8. [createGlueDatabase] issues exactly one create-database request,
    with no probe before it, and returns the answer of the service as it is.
    On the in-memory catalog, when the database already exists the caller
    gets the conflict error and [main] exits on it; a second call right
    after a first one always gets the conflict error. *)
Theorem createGlueDatabase_unconditional :
  (forall (W : Type) (P : Platform W) (s : State W) r w',
      glue_CreateDatabase glueDBName (world s) = (r, w') ->
      createGlueDatabase s
      = (Done r,
         mkState w' (trace s ++ [EvCreateDatabase glueDBName]) (apiKey s)
           (nbaEndpoint s)))
  /\ (forall s : State Fake,
         glueDBName ∈ databases (world s) ->
         exists e,
           createGlueDatabase s
           = (Done (Some e),
              mkState (world s) (trace s ++ [EvCreateDatabase glueDBName])
                (apiKey s) (nbaEndpoint s))
           /\ contains (Error e) "AlreadyExistsException"
           /\ forall s0 d,
               main_until [Bucket; Pause] s0 = (Done d, s) ->
               main s0
               = (Exit 1,
                  logged
                    (mkState (world s)
                       (trace s ++ [EvCreateDatabase glueDBName])
                       (apiKey s) (nbaEndpoint s))
                    ("Failed to create Glue database: " ++ Error e)))
  /\ (forall s : State Fake,
         exists r s1 e s2,
           createGlueDatabase s = (Done r, s1)
           /\ createGlueDatabase s1 = (Done (Some e), s2)
           /\ contains (Error e) "AlreadyExistsException").
Proof.
  assert (Hgen : forall (W : Type) (P : Platform W) (s : State W) r w',
             glue_CreateDatabase glueDBName (world s) = (r, w') ->
             createGlueDatabase s
             = (Done r,
                mkState w' (trace s ++ [EvCreateDatabase glueDBName]) (apiKey s)
                  (nbaEndpoint s))).
  { intros W P s r w' Hc. unfold createGlueDatabase, call. now rewrite Hc. }
  assert (Hconflict : forall w : Fake,
             glueDBName ∈ databases w ->
             exists e, glue_CreateDatabase glueDBName w = (Some e, w)
                       /\ contains (Error e) "AlreadyExistsException").
  { intros w Hin. cbn. unfold FakePlatform.CreateDatabase.
    destruct (decide (glueDBName ∈ databases w)); [|contradiction].
    eexists. split; [reflexivity|].
    exists "operation error Glue: CreateDatabase: ",
      ": Database already exists.". reflexivity. }
  split; [exact Hgen|]. split.
  - intros s Hin. destruct (Hconflict (world s) Hin) as (e & He & Hc).
    exists e. split; [now apply Hgen|]. split; [exact Hc|].
    intros s0 d Hpre.
    apply (main_stops_at s0 [Bucket; Pause] Database
             [Fetch; Upload; Table; Query] d d e s);
      [reflexivity | exact Hpre |].
    cbn [run_stage]. unfold bind. now rewrite (Hgen _ _ s (Some e) (world s) He).
  - intros s.
    destruct (glue_CreateDatabase glueDBName (world s)) as [r w1] eqn:E1.
    assert (Hin : glueDBName ∈ databases w1).
    { cbn in E1. unfold FakePlatform.CreateDatabase in E1.
      destruct (decide (glueDBName ∈ databases (world s))); simplify_eq/=;
        [assumption | cbn; apply elem_of_union_l, elem_of_singleton; reflexivity]. }
    destruct (Hconflict w1 Hin) as (e & He & Hc).
    eexists r, _, e, _. split; [apply Hgen, E1|].
    split; [apply Hgen; cbn [world]; exact He | exact Hc].
Qed.

(** ** The theorems at concrete worlds *)

Lemma fetchNBAData_batch_witness :
  let s := Worlds.configured (Worlds.answering 200 Worlds.two_players_body) in
  json_Decode strconv_ParseFloat Worlds.two_players_body
  = Ok (VSlice (List.map VMap [Worlds.player_A; Worlds.player_B]))
  /\ fetchNBAData s
     = (Done (Ok [Worlds.player_A; Worlds.player_B]),
        body_closed (answered s (world s)))
  /\ List.length [Worlds.player_A; Worlds.player_B] = 2%nat.
Proof.
  intros s.
  assert (Hdec : json_Decode strconv_ParseFloat Worlds.two_players_body
                 = Ok (VSlice (List.map VMap [Worlds.player_A; Worlds.player_B])))
    by (vm_compute; reflexivity).
  split; [exact Hdec|].
  assert (Hurl : url_Parse (nbaEndpoint s) = None) by reflexivity.
  assert (Hdo : http_Do (request_of s) (world s)
                = (Ok (mkResponse 200 Worlds.two_players_body), world s))
    by reflexivity.
  destruct (fetchNBAData_batch s (mkResponse 200 Worlds.two_players_body)
              (world s)
              (VSlice (List.map VMap [Worlds.player_A; Worlds.player_B]))
              Hurl Hdo eq_refl Hdec) as (Harray & _ & _).
  destruct (Harray [Worlds.player_A; Worlds.player_B] eq_refl) as [Hrun _].
  split; [exact Hrun | reflexivity].
Defined.

Lemma fetchNBAData_status_error_witness :
  let s := Worlds.configured (Worlds.answering 401 "Unauthorized") in
  exists e,
    fetchNBAData s = (Done (Err e), body_closed (answered s (world s)))
    /\ Error e = "API returned 401: Unauthorized".
Proof.
  intros s.
  assert (Hurl : url_Parse (nbaEndpoint s) = None) by reflexivity.
  assert (Hdo : http_Do (request_of s) (world s)
                = (Ok (mkResponse 401 "Unauthorized"), world s))
    by reflexivity.
  assert (Hcode : StatusCode (mkResponse 401 "Unauthorized") <> StatusOK)
    by discriminate.
  destruct (fetchNBAData_status_error s (mkResponse 401 "Unauthorized")
              (world s) Hurl Hdo Hcode)
    as (e & Hrun & Hmsg & _).
  exists e. split; [exact Hrun | exact Hmsg].
Defined.

Lemma fetchNBAData_panics_witness :
  let s := Worlds.configured (Worlds.answering 200 "[1,2,3]") in
  exists msg, fetchNBAData s = (Panic msg, body_closed (answered s (world s))).
Proof.
  intros s.
  assert (Hdec : json_Decode strconv_ParseFloat "[1,2,3]"
                 = Ok (VSlice [VFloat64 (mkNumber false 1 0);
                               VFloat64 (mkNumber false 2 0);
                               VFloat64 (mkNumber false 3 0)]))
    by (vm_compute; reflexivity).
  assert (Hurl : url_Parse (nbaEndpoint s) = None) by reflexivity.
  assert (Hdo : http_Do (request_of s) (world s)
                = (Ok (mkResponse 200 "[1,2,3]"), world s))
    by reflexivity.
  destruct (fetchNBAData_panics s (mkResponse 200 "[1,2,3]") (world s) _
              Hurl Hdo eq_refl Hdec) as (msg & Hrun & _).
  - apply Exists_cons_hd. intros m. discriminate.
  - exists msg. exact Hrun.
Defined.

Lemma init_requires_dotenv_witness :
  os_Getenv "SPORTS_DATA_API_KEY" Worlds.env_without_dotenv = "secret"
  /\ os_Getenv "NBA_ENDPOINT" Worlds.env_without_dotenv
     = "https://api.example.test/players"
  /\ program (start Worlds.env_without_dotenv)
     = (Exit 1,
        mkState Worlds.env_without_dotenv
          [EvLoadDotenv; EvLog "Error loading .env file"] EmptyString
          EmptyString).
Proof.
  split; [vm_compute; reflexivity|]. split; [vm_compute; reflexivity|].
  apply (init_requires_dotenv Worlds.env_without_dotenv
           Worlds.env_without_dotenv
           (errorString "open .env: no such file or directory")).
  reflexivity.
Defined.

Lemma init_rejects_missing_config_witness :
  os_Getenv "NBA_ENDPOINT" (snd (godotenv_Load Worlds.without_endpoint))
  = EmptyString
  /\ exists s',
      program (start Worlds.without_endpoint) = (Exit 1, s')
      /\ trace s' = [EvLoadDotenv; EvLog "NBA_ENDPOINT is not set"].
Proof.
  assert (Hempty : os_Getenv "NBA_ENDPOINT"
                     (snd (godotenv_Load Worlds.without_endpoint))
                   = EmptyString) by (vm_compute; reflexivity).
  split; [exact Hempty|].
  destruct (init_rejects_missing_config Worlds.without_endpoint
              (or_intror Hempty)) as (s' & Hrun & Htrace & _).
  exists s'. split; [exact Hrun|]. rewrite Htrace. vm_compute. reflexivity.
Defined.

Lemma createS3Bucket_idempotent_witness :
  let s := Worlds.configured (Worlds.answering 200 "[]") in
  s3_HeadBucket bucketName (world (snd (createS3Bucket s)))
  = (None, world (snd (createS3Bucket s)))
  /\ fst (createS3Bucket (snd (createS3Bucket s))) = Done None
  /\ exists s1 s2,
      createS3Bucket s = (Done None, s1)
      /\ createS3Bucket s1 = (Done None, s2)
      /\ bucketName ∈ buckets (world s2).
Proof.
  intros s. destruct createS3Bucket_idempotent as [Hcases Htwice].
  assert (Hhead : s3_HeadBucket bucketName (world (snd (createS3Bucket s)))
                  = (None, world (snd (createS3Bucket s))))
    by (vm_compute; reflexivity).
  split; [exact Hhead|]. split.
  - destruct (Hcases Fake _ (snd (createS3Bucket s))) as (Hexists & _ & _).
    now rewrite (Hexists _ Hhead).
  - destruct (Htwice s) as (s1 & s2 & _ & _ & H1 & H2 & _ & _ & Hin & _).
    exists s1, s2. auto.
Defined.

Lemma empty_batch_skips_upload_witness :
  let s0 := Worlds.configured (Worlds.answering 200 "[]") in
  let s1 := snd (main_until [Bucket; Pause; Database] s0) in
  let s2 := snd (fetchNBAData s1) in
  main_until [Bucket; Pause; Database] s0 = (Done [], s1)
  /\ fetchNBAData s1 = (Done (Ok []), s2)
  /\ main s0
     = bind (run_stages [Table; Query] [])
         (fun _ => log_Println "Data lake setup complete.") s2.
Proof.
  intros s0 s1 s2.
  assert (H1 : main_until [Bucket; Pause; Database] s0 = (Done [], s1))
    by (vm_compute; reflexivity).
  assert (H2 : fetchNBAData s1 = (Done (Ok []), s2))
    by (vm_compute; reflexivity).
  split; [exact H1|]. split; [exact H2|].
  destruct (empty_batch_skips_upload s0) as [_ Hskip].
  destruct (Hskip [] s1 s2 H1 H2) as [Hmain _]. exact Hmain.
Defined.

Lemma main_linear_fail_fast_witness :
  let s0 :=
    Worlds.configured (Worlds.with_database (Worlds.answering 200 "[]")) in
  let s1 := snd (main_until [Bucket; Pause] s0) in
  let s2 := snd (run_stage Database [] s1) in
  let e :=
    FakePlatform.api_error "Glue: CreateDatabase"
      (errorString "AlreadyExistsException: Database already exists.") in
  main_until [Bucket; Pause] s0 = (Done [], s1)
  /\ run_stage Database [] s1 = (Done (Some e, []), s2)
  /\ main s0
     = (Exit 1, logged s2 ("Failed to create Glue database: " ++ Error e)).
Proof.
  intros s0 s1 s2 e.
  assert (H1 : main_until [Bucket; Pause] s0 = (Done [], s1))
    by (vm_compute; reflexivity).
  assert (H2 : run_stage Database [] s1 = (Done (Some e, []), s2))
    by (vm_compute; reflexivity).
  split; [exact H1|]. split; [exact H2|].
  destruct (main_linear_fail_fast s0) as (_ & Hfail & _).
  destruct (Hfail [Bucket; Pause] Database [Fetch; Upload; Table; Query]
              [] [] e s1 s2 eq_refl H1 H2) as [Hmain _].
  exact Hmain.
Defined.

Lemma createGlueDatabase_unconditional_witness :
  let s :=
    Worlds.configured (Worlds.with_database (Worlds.answering 200 "[]")) in
  glueDBName ∈ databases (world s)
  /\ exists e,
      createGlueDatabase s
      = (Done (Some e),
         mkState (world s) (trace s ++ [EvCreateDatabase glueDBName])
           (apiKey s) (nbaEndpoint s))
      /\ contains (Error e) "AlreadyExistsException".
Proof.
  intros s.
  assert (Hin : glueDBName ∈ databases (world s))
    by (apply elem_of_union_l, elem_of_singleton; reflexivity).
  split; [exact Hin|].
  destruct createGlueDatabase_unconditional as (_ & Hconflict & _).
  destruct (Hconflict s Hin) as (e & Hrun & Hc & _).
  exists e. split; [exact Hrun | exact Hc].
Defined.

(** ** Runs of the whole program *)

(** The end-to-end scenario: the two-player answer is stored as two lines. *)
Example program_stores_two_lines :
  let '(o, s) := program (start (FakePlatform.fresh Worlds.two_players_body)) in
  o = Done tt
  /\ objects (world s) !! (bucketName, "nba_data.json")
     = Some Worlds.two_players_ndjson.
Proof. vm_compute. split; reflexivity. Qed.

(** A single object is a batch of one record; a string is an error. *)
Example fetch_single_object :
  fst (fetchNBAData
         (Worlds.configured (Worlds.answering 200 Worlds.one_player_body)))
  = Done (Ok [[("id", VString "7")]]).
Proof. vm_compute. reflexivity. Qed.

Example fetch_string_is_error :
  fst (fetchNBAData
         (Worlds.configured (Worlds.answering 200 (Worlds.dq "players"))))
  = Done (Err (errorString "unexpected JSON structure")).
Proof. vm_compute. reflexivity. Qed.

(** A second run on the same account stops at the database step. *)
Example second_run_conflicts :
  let w1 := world (snd (program (start (FakePlatform.fresh "[]")))) in
  let '(o, s) := program (start w1) in
  o = Exit 1
  /\ List.last (trace s) EvLoadDotenv
     = EvLog
         ("Failed to create Glue database: operation error Glue: "
          ++ "CreateDatabase: AlreadyExistsException: Database already exists.").
Proof. vm_compute. split; reflexivity. Qed.

(** The skip of an empty batch is the test of [main] (line 76);
    [uploadDataToS3] itself writes whatever it is given. *)
Remark uploadDataToS3_unguarded :
  fst (uploadDataToS3 bucketName []
         (Worlds.configured (Worlds.answering 200 "[]")))
  = Done (Some (FakePlatform.api_error "S3: PutObject"
                  (errorString "NoSuchBucket")))
  /\ trace (snd (uploadDataToS3 bucketName []
                   (Worlds.configured (Worlds.answering 200 "[]"))))
     = [EvPutObject bucketName "nba_data.json" EmptyString 0].
Proof. vm_compute. split; reflexivity. Qed.

(** * Further properties of the code *)

Section FetchOutcomes.
Context {W : Type} `{Platform W}.

Lemma fetchNBAData_bad_url (s : State W) (e : error) :
  url_Parse (nbaEndpoint s) = Some e ->
  fetchNBAData s
  = (Done (Err (Errorf_w "failed to create request: " e)), s).
Proof.
  intros Hurl. unfold fetchNBAData, http_NewRequest. now rewrite Hurl.
Qed.

Lemma fetchNBAData_transport (s : State W) (e : error) (w' : W) :
  url_Parse (nbaEndpoint s) = None ->
  http_Do (request_of s) (world s) = (Err e, w') ->
  fetchNBAData s
  = (Done (Err (Errorf_w "API request failed: " e)), answered s w').
Proof.
  intros Hurl Hdo. unfold fetchNBAData, http_NewRequest. rewrite Hurl.
  unfold bind, call, Header_Add. simpl. fold (request_of s). rewrite Hdo.
  reflexivity.
Qed.

Lemma assert_items_no_exit (data : list Value) (acc : list Record_) code :
  assert_items data acc <> Exit code.
Proof.
  revert acc. induction data as [|v data IH]; intros acc; simpl;
    [discriminate|].
  destruct v; try discriminate. apply IH.
Qed.

Lemma handle_response_pure (resp : Response) (s : State W) :
  exists o, handle_response resp s = (o, s) /\ forall code, o <> Exit code.
Proof.
  unfold handle_response.
  destruct (negb (StatusCode resp =? StatusOK)).
  { eexists. split; [reflexivity | intros ?; discriminate]. }
  destruct (json_Decode strconv_ParseFloat (Body resp)) as [v | e].
  2: { eexists. split; [reflexivity | intros ?; discriminate]. }
  destruct v; try (eexists; split; [reflexivity | intros ?; discriminate]).
  unfold bind, lift. pose proof (assert_items_no_exit items []) as Hne.
  destruct (assert_items items []);
    eexists; (split; [reflexivity | intros ?; try discriminate]).
  now destruct (Hne code).
Qed.

Lemma fetchNBAData_response (s : State W) (resp : Response) (w' : W) :
  url_Parse (nbaEndpoint s) = None ->
  http_Do (request_of s) (world s) = (Ok resp, w') ->
  exists o,
    fetchNBAData s = (o, body_closed (answered s w'))
    /\ handle_response resp (answered s w') = (o, answered s w')
    /\ forall code, o <> Exit code.
Proof.
  intros Hurl Hdo. rewrite (fetchNBAData_answered s resp w' Hurl Hdo).
  destruct (handle_response_pure resp (answered s w')) as (o & Ho & Hne).
  exists o. split; [|split; assumption].
  unfold defer. rewrite Ho. destruct o; try reflexivity. now destruct (Hne code).
Qed.

Lemma fetchNBAData_cases (s s' : State W)
    (o : outcome (result (list Record_))) :
  fetchNBAData s = (o, s') ->
  (forall code, o <> Exit code)
  /\ apiKey s' = apiKey s /\ nbaEndpoint s' = nbaEndpoint s
  /\ ((exists e,
          url_Parse (nbaEndpoint s) = Some e
          /\ o = Done (Err (Errorf_w "failed to create request: " e))
          /\ s' = s)
      \/ (exists e w',
             http_Do (request_of s) (world s) = (Err e, w')
             /\ o = Done (Err (Errorf_w "API request failed: " e))
             /\ s' = answered s w')
      \/ (exists resp w',
             http_Do (request_of s) (world s) = (Ok resp, w')
             /\ s' = body_closed (answered s w'))).
Proof.
  intros Hrun.
  destruct (url_Parse (nbaEndpoint s)) as [e|] eqn:Hurl.
  { rewrite (fetchNBAData_bad_url s e Hurl) in Hrun. injection Hrun as <- <-.
    split; [intros ?; discriminate|]. split; [reflexivity|]. split; [reflexivity|].
    left. eauto. }
  destruct (http_Do (request_of s) (world s)) as [[resp | e] w'] eqn:Hdo.
  - destruct (fetchNBAData_response s resp w' Hurl Hdo) as (o' & Ho & _ & Hne).
    rewrite Ho in Hrun. injection Hrun as <- <-.
    split; [exact Hne|]. split; [reflexivity|]. split; [reflexivity|].
    right. right. eauto.
  - rewrite (fetchNBAData_transport s e w' Hurl Hdo) in Hrun.
    injection Hrun as <- <-.
    split; [intros ?; discriminate|]. split; [reflexivity|]. split; [reflexivity|].
    right. left. eauto.
Qed.

(** X1. Every run of [fetchNBAData] is one of three: the address does not
    parse, no request is sent and the error wraps the cause with
    "failed to create request: "; the request is sent once and fails, the
    error wraps the cause with "API request failed: " and nothing is closed;
    or a response arrives and its body is closed exactly once, whatever is
    made of it.  The function never ends the process and leaves the key and
    the address as they are. *)
Theorem fetchNBAData_outcomes (s s' : State W)
    (o : outcome (result (list Record_))) :
  fetchNBAData s = (o, s') ->
  (forall code, o <> Exit code)
  /\ apiKey s' = apiKey s /\ nbaEndpoint s' = nbaEndpoint s
  /\ ((exists e,
          url_Parse (nbaEndpoint s) = Some e
          /\ o = Done (Err (Errorf_w "failed to create request: " e))
          /\ s' = s)
      \/ (exists e w',
             http_Do (request_of s) (world s) = (Err e, w')
             /\ o = Done (Err (Errorf_w "API request failed: " e))
             /\ s' = answered s w')
      \/ (exists resp w',
             http_Do (request_of s) (world s) = (Ok resp, w')
             /\ s' = body_closed (answered s w'))).
Proof. apply fetchNBAData_cases. Qed.

End FetchOutcomes.

Lemma assert_items_first (pre : list Record_) (v : Value) (rest : list Value)
    (acc : list Record_) :
  not_a_map v ->
  assert_items (List.map VMap pre ++ v :: rest)%list acc
  = Panic (conversion_panic v).
Proof.
  intros Hv. revert acc. induction pre as [|m pre IH]; intros acc; simpl.
  - destruct v; try reflexivity. now destruct (Hv entries).
  - apply IH.
Qed.

Lemma assert_items_panic_inv (data : list Value) :
  forall (acc : list Record_) msg,
    assert_items data acc = Panic msg ->
    exists pre v rest,
      data = (List.map VMap pre ++ v :: rest)%list
      /\ not_a_map v /\ msg = conversion_panic v.
Proof.
  induction data as [|v data IH]; intros acc msg; simpl; [discriminate|].
  destruct v.
  1-5: intros [= <-]; eexists [], _, data;
       (split; [reflexivity | split; [intros m; discriminate | reflexivity]]).
  intros Hrest. apply IH in Hrest as (pre & v & rest & -> & Hv & ->).
  exists (entries :: pre), v, rest. now split.
Qed.

Section FetchPanic.
Context {W : Type} `{Platform W}.

Lemma fetchNBAData_panic_inv (s s' : State W) (msg : string) :
  fetchNBAData s = (Panic msg, s') ->
  exists resp w' pre v rest,
    url_Parse (nbaEndpoint s) = None
    /\ http_Do (request_of s) (world s) = (Ok resp, w')
    /\ StatusCode resp = StatusOK
    /\ json_Decode strconv_ParseFloat (Body resp)
       = Ok (VSlice (List.map VMap pre ++ v :: rest)%list)
    /\ not_a_map v
    /\ msg = conversion_panic v
    /\ s' = body_closed (answered s w').
Proof.
  intros Hrun.
  destruct (fetchNBAData_cases s s' _ Hrun) as (_ & _ & _ & Hcase).
  destruct Hcase as [(e & Hurl & Ho & _) | [(e & w' & _ & Ho & _) |
                                             (resp & w' & Hdo & ->)]];
    [discriminate Ho | discriminate Ho |].
  destruct (url_Parse (nbaEndpoint s)) as [e|] eqn:Hurl.
  { rewrite (fetchNBAData_bad_url s e Hurl) in Hrun. discriminate Hrun. }
  rewrite (fetchNBAData_answered s resp w' Hurl Hdo) in Hrun.
  unfold defer, handle_response in Hrun.
  destruct (Z.eqb_spec (StatusCode resp) StatusOK) as [Hcode | _];
    [|discriminate Hrun].
  cbn [negb] in Hrun.
  destruct (json_Decode strconv_ParseFloat (Body resp)) as [v | e] eqn:Hdec;
    [|discriminate Hrun].
  destruct v; try discriminate Hrun.
  unfold bind, lift in Hrun.
  destruct (assert_items items []) as [d | code | m] eqn:Hitems;
    try discriminate Hrun.
  injection Hrun as ->.
  apply assert_items_panic_inv in Hitems as (pre & v & rest & -> & Hv & ->).
  exists resp, w', pre, v, rest. repeat split; assumption.
Qed.

(** X2. [fetchNBAData] panics exactly when a response with status 200
    arrives whose body decodes to an array holding an element that is not an
    object; the message names the dynamic type of the first such element,
    and the body has been closed. *)
Theorem fetchNBAData_panic_iff (s s' : State W) (msg : string) :
  fetchNBAData s = (Panic msg, s') <->
  exists resp w' pre v rest,
    url_Parse (nbaEndpoint s) = None
    /\ http_Do (request_of s) (world s) = (Ok resp, w')
    /\ StatusCode resp = StatusOK
    /\ json_Decode strconv_ParseFloat (Body resp)
       = Ok (VSlice (List.map VMap pre ++ v :: rest)%list)
    /\ not_a_map v
    /\ msg = conversion_panic v
    /\ s' = body_closed (answered s w').
Proof.
  split; [apply fetchNBAData_panic_inv|].
  intros (resp & w' & pre & v & rest & Hurl & Hdo & Hcode & Hdec & Hv
          & -> & ->).
  rewrite (fetchNBAData_answered s resp w' Hurl Hdo).
  unfold defer, handle_response. rewrite Hcode, Z.eqb_refl, Hdec.
  cbn [negb]. unfold bind, lift. now rewrite assert_items_first.
Qed.
End FetchPanic.

Lemma list_sum_cons (x : nat) (l : list nat) :
  list_sum (x :: l) = (x + list_sum l)%nat.
Proof. reflexivity. Qed.

Lemma convert_app (a b : list Record_) :
  convertToLineDelimitedJSON (a ++ b)
  = convertToLineDelimitedJSON a ++ convertToLineDelimitedJSON b.
Proof.
  induction a as [|item a IH]; [reflexivity|].
  cbn [app]. rewrite !convert_cons, IH, !append_assoc. reflexivity.
Qed.

Lemma convert_length (data : list Record_) :
  String.length (convertToLineDelimitedJSON data)
  = list_sum (List.map line_bytes data).
Proof.
  induction data as [|item rest IH]; [reflexivity|].
  rewrite convert_cons, !length_append, IH. cbn [List.map]. rewrite list_sum_cons.
  change (line_bytes item) with (S (String.length (json_Marshal item))).
  cbn [NL String.length]. lia.
Qed.

Lemma json_Marshal_braces (item : Record_) :
  exists inner, json_Marshal item = "{" ++ inner ++ "}".
Proof. unfold json_Marshal. cbn [Marshal]. eauto. Qed.

Lemma line_bytes_min (item : Record_) : (3 <= line_bytes item)%nat.
Proof.
  unfold line_bytes. destruct (json_Marshal_braces item) as [inner ->].
  cbn [String.append String.length]. rewrite length_append. cbn. lia.
Qed.

(** X3. [convertToLineDelimitedJSON] distributes over the concatenation
    of batches; its text is empty only for the empty batch; its length is
    the sum over the records of the length of the encoding plus one, and so
    at least three bytes per record. *)
Theorem convertToLineDelimitedJSON_app (a b : list Record_) :
  convertToLineDelimitedJSON (a ++ b)
  = convertToLineDelimitedJSON a ++ convertToLineDelimitedJSON b
  /\ (convertToLineDelimitedJSON a = EmptyString <-> a = [])
  /\ String.length (convertToLineDelimitedJSON a)
     = list_sum (List.map line_bytes a)
  /\ (3 * List.length a <= String.length (convertToLineDelimitedJSON a))%nat.
Proof.
  split; [apply convert_app|]. split; [|split; [apply convert_length|]].
  - split; [|now intros ->].
    destruct a as [|item a]; [reflexivity|].
    rewrite convert_cons. destruct (json_Marshal_braces item) as [inner ->].
    discriminate.
  - rewrite convert_length. induction a as [|item a IH]; [reflexivity|].
    cbn [List.map List.length]. rewrite list_sum_cons.
    pose proof (line_bytes_min item). lia.
Qed.

Section Upload.
Context {W : Type} `{Platform W}.

(** X4. [uploadDataToS3] issues exactly one [PutObject], to the key
    "nba_data.json" of the bucket it is given, whose body has the encodings
    of the records as its lines and whose [ContentLength] is the length of
    that body in bytes; it returns the answer of the service as it is. *)
Theorem uploadDataToS3_request (bucket : string) (data : list Record_)
    (s s' : State W) (o : outcome (option error)) :
  uploadDataToS3 bucket data s = (o, s') ->
  exists r body,
    o = Done r
    /\ trace s'
       = (trace s
          ++ [EvPutObject bucket "nba_data.json" body
                (Z.of_nat (String.length body))])%list
    /\ split_lines body = List.map json_Marshal data
    /\ String.length body = list_sum (List.map line_bytes data)
    /\ (r, world s')
       = s3_PutObject bucket "nba_data.json" body
           (Z.of_nat (String.length body)) (world s)
    /\ apiKey s' = apiKey s /\ nbaEndpoint s' = nbaEndpoint s.
Proof.
  unfold uploadDataToS3, call.
  destruct (s3_PutObject _ _ _ _ _) as [r w'] eqn:Hput.
  intros [= <- <-]. exists r, (convertToLineDelimitedJSON data).
  split; [reflexivity|]. split; [reflexivity|].
  split; [apply convert_lines|]. split; [apply convert_length|].
  split; [now rewrite Hput | split; reflexivity].
Qed.

(** X5. When the AWS configuration cannot be loaded, [main] logs
    "Failed to load configuration: " followed by the cause and exits with
    status 1; it has issued no other call. *)
Theorem main_config_failure (s : State W) (e : error) (w' : W) :
  config_LoadDefaultConfig region (world s) = (Some e, w') ->
  main s
  = (Exit 1,
     mkState w'
       (trace s
        ++ [EvLoadDefaultConfig region;
            EvLog ("Failed to load configuration: " ++ Error e)])
       (apiKey s) (nbaEndpoint s)).
Proof.
  intros Hcfg. unfold main. unfold bind at 1 2. unfold call at 1.
  rewrite Hcfg. cbn [fatal_if]. unfold log_Fatal, bind, emit, exit.
  cbn [world trace apiKey nbaEndpoint]. now rewrite <- app_assoc.
Qed.

(** X6. A body of a 200 response that does not decode makes
    [fetchNBAData] return the error of the decoder as it is, without a
    prefix, and [main] exit on "Failed to fetch NBA data: " followed by it.
    A body that is empty or holds only white space is such a body: its error
    is "EOF". *)
Theorem fetchNBAData_decode_error (s : State W) (resp : Response) (w' : W) :
  url_Parse (nbaEndpoint s) = None ->
  http_Do (request_of s) (world s) = (Ok resp, w') ->
  StatusCode resp = StatusOK ->
  (forall e,
      json_Decode strconv_ParseFloat (Body resp) = Err e ->
      fetchNBAData s = (Done (Err e), body_closed (answered s w'))
      /\ forall s0 d,
          main_until [Bucket; Pause; Database] s0 = (Done d, s) ->
          main s0
          = (Exit 1,
             logged (body_closed (answered s w'))
               ("Failed to fetch NBA data: " ++ Error e)))
  /\ (skip_ws (Body resp) = EmptyString ->
      json_Decode strconv_ParseFloat (Body resp) = Err (errorString "EOF")).
Proof.
  intros Hurl Hdo Hcode. split.
  - intros e Hdec.
    assert (Hf : fetchNBAData s = (Done (Err e), body_closed (answered s w'))).
    { rewrite (fetchNBAData_answered s resp w' Hurl Hdo).
      unfold defer, handle_response. rewrite Hcode, Z.eqb_refl, Hdec.
      reflexivity. }
    split; [exact Hf|]. intros s0 d Hpre.
    apply (main_stops_at s0 [Bucket; Pause; Database] Fetch
             [Upload; Table; Query] d d e s);
      [reflexivity | exact Hpre |].
    cbn [run_stage]. unfold bind. now rewrite Hf.
  - intros Hws. unfold json_Decode. now rewrite Hws.
Qed.
End Upload.

Section Invariant.
Context {W : Type} `{Platform W}.

Lemma run_stage_expected (st : stage) (d : list Record_) (s s' : State W) o :
  run_stage st d s = (o, s') ->
  keeps_config s s'
  /\ exists evs, appends s s' evs
                 /\ Forall (expected_event (apiKey s) (nbaEndpoint s)) evs.
Proof.
  destruct st; cbn [run_stage].
  - (* Bucket *)
    unfold createS3Bucket, bind, call, log_Printf, emit, ret. intros Hrun.
    repeat (match type of Hrun with
            | context [match ?m with _ => _ end] =>
                lazymatch m with
                | context [match _ with _ => _ end] => fail
                | _ => destruct m eqn:?
                end
            | context [if ?b then _ else _] => destruct b eqn:?
            end; simplify_eq/=).
    all: simplify_eq/=.
    all: (split; [split; reflexivity|]); eexists;
      (split; [unfold appends; cbn; rewrite <- ?app_assoc; reflexivity|]).
    all: repeat constructor.
  - unfold bind, call, ret. intros [= <- <-].
    split; [split; reflexivity|]. exists [EvSleep 5].
    split; [reflexivity | repeat constructor].
  - unfold createGlueDatabase, bind, call, ret.
    destruct (glue_CreateDatabase _ _) as [r w']. intros [= <- <-].
    split; [split; reflexivity|]. eexists.
    split; [reflexivity | repeat constructor].
  - unfold bind at 1. destruct (fetchNBAData s) as [o1 s1] eqn:Hf.
    destruct (fetchNBAData_cases s s1 o1 Hf) as (_ & Hk & He & Hcase).
    intros Hrun. assert (Hs : s' = s1).
    { destruct o1 as [[d1 | e1] | code | msg]; now injection Hrun. }
    clear Hrun. subst s'. split; [now split|].
    destruct Hcase as [(e & _ & _ & ->) | [(e & w' & _ & _ & ->) |
                                            (resp & w' & _ & ->)]].
    + exists []. split; [unfold appends; now rewrite app_nil_r | constructor].
    + eexists. split; [reflexivity | repeat constructor].
    + exists [EvHttpDo (request_of s); EvBodyClose].
      split; [unfold appends; cbn; now rewrite <- app_assoc
             | repeat constructor].
  - destruct (0 <? Z.of_nat (List.length d)) eqn:Hlen.
    + unfold uploadDataToS3, bind, call, ret.
      destruct (s3_PutObject _ _ _ _ _) as [r w']. intros [= <- <-].
      split; [split; reflexivity|]. eexists. split; [reflexivity|].
      repeat constructor. exists d. split; [|reflexivity].
      intros ->. discriminate Hlen.
    + intros [= <- <-]. split; [split; reflexivity|]. exists [].
      split; [unfold appends; now rewrite app_nil_r | constructor].
  - unfold createGlueTable, bind, call, ret.
    destruct (glue_CreateTable _ _ _) as [r w']. intros [= <- <-].
    split; [split; reflexivity|]. eexists.
    split; [reflexivity | repeat constructor].
  - unfold configureAthena, bind, call, ret.
    destruct (athena_StartQueryExecution _ _ _ _) as [r w'].
    intros [= <- <-].
    split; [split; reflexivity|]. eexists.
    split; [reflexivity | repeat constructor].
Qed.

Lemma run_stages_expected (l : list stage) :
  forall (d : list Record_) (s s' : State W) o,
    run_stages l d s = (o, s') ->
    keeps_config s s'
    /\ exists evs, appends s s' evs
                   /\ Forall (expected_event (apiKey s) (nbaEndpoint s)) evs.
Proof.
  induction l as [|st l IH]; intros d s s' o; cbn [run_stages].
  - intros [= <- <-]. split; [split; reflexivity|]. exists [].
    split; [unfold appends; now rewrite app_nil_r | constructor].
  - unfold bind at 1. destruct (run_stage st d s) as [o1 s1] eqn:E1.
    apply run_stage_expected in E1 as ([Hk1 He1] & evs1 & Happ1 & Hall1).
    destruct o1 as [[[e|] d'] | code | msg]; cbn [fst snd].
    + intros Hf. apply log_Fatal_trace in Hf as Hf'. destruct Hf' as [Happ2 _].
      unfold log_Fatal, bind, emit, exit in Hf. injection Hf as _ <-.
      split; [split; assumption|].
      exists (evs1 ++ [EvLog (fatal_prefix st ++ Error e)])%list. split.
      * unfold appends in *. cbn. now rewrite Happ1, app_assoc.
      * apply Forall_app. split; [assumption | repeat constructor].
    + intros Hr. apply IH in Hr as ([Hk2 He2] & evs2 & Happ2 & Hall2).
      split; [split; congruence|].
      exists (evs1 ++ evs2)%list. split.
      * unfold appends in *. now rewrite Happ2, Happ1, app_assoc.
      * apply Forall_app. split; [assumption|]. now rewrite <- Hk1, <- He1.
    + intros [= <- <-]. split; [now split|]. now exists evs1.
    + intros [= <- <-]. split; [now split|]. now exists evs1.
Qed.

Lemma main_expected (s s' : State W) o :
  main s = (o, s') ->
  keeps_config s s'
  /\ exists evs, appends s s' evs
                 /\ Forall (expected_event (apiKey s) (nbaEndpoint s)) evs.
Proof.
  rewrite main_staged_eq. unfold main_staged. unfold bind at 1.
  destruct (preamble s) as [o0 s0] eqn:E0.
  assert (Hpre : keeps_config s s0
                 /\ exists evs, appends s s0 evs
                     /\ Forall (expected_event (apiKey s) (nbaEndpoint s)) evs).
  { revert E0.
    unfold preamble, bind, call, fatal_if, log_Fatal, bind, emit, exit, ret.
    destruct (config_LoadDefaultConfig region (world s)) as [[e|] w'];
      intros [= <- <-]; (split; [split; reflexivity|]); eexists;
      (split; [unfold appends; cbn; rewrite <- ?app_assoc; reflexivity
              | repeat constructor]). }
  destruct Hpre as ([Hk0 He0] & evs0 & Happ0 & Hall0).
  destruct o0 as [[] | code | msg].
  - unfold bind at 1. destruct (run_stages pipeline [] s0) as [o1 s1] eqn:E1.
    apply run_stages_expected in E1 as ([Hk1 He1] & evs1 & Happ1 & Hall1).
    rewrite Hk0, He0 in Hall1.
    destruct o1 as [d1 | code | msg]; intros [= <- <-].
    + split; [split; cbn; congruence|].
      exists (evs0 ++ evs1 ++ [EvLog "Data lake setup complete."])%list. split.
      * unfold appends in *. cbn. now rewrite Happ1, Happ0, <- !app_assoc.
      * rewrite !Forall_app. repeat split; try assumption. repeat constructor.
    + split; [split; congruence|]. exists (evs0 ++ evs1)%list. split.
      * unfold appends in *. now rewrite Happ1, Happ0, <- !app_assoc.
      * rewrite !Forall_app. now split.
    + split; [split; congruence|]. exists (evs0 ++ evs1)%list. split.
      * unfold appends in *. now rewrite Happ1, Happ0, <- !app_assoc.
      * rewrite !Forall_app. now split.
  - intros [= <- <-]. split; [now split|]. now exists evs0.
  - intros [= <- <-]. split; [now split|]. now exists evs0.
Qed.
End Invariant.

Lemma appends_unique {W : Type} (s s' : State W) (a b : list event) :
  appends s s' a -> appends s s' b -> a = b.
Proof.
  unfold appends. intros Ha Hb. rewrite Ha in Hb.
  now apply app_inv_head in Hb.
Qed.

Section InitOutcomes.
Context {W : Type} `{Platform W}.

Lemma init_cases (s : State W) :
  let w1 := snd (godotenv_Load (world s)) in
  (fst (godotenv_Load (world s)) = None
   /\ os_Getenv "SPORTS_DATA_API_KEY" w1 <> EmptyString
   /\ os_Getenv "NBA_ENDPOINT" w1 <> EmptyString
   /\ init s = (Done tt, configured_by s w1))
  \/ (exists line key endpoint,
         init s
         = (Exit 1,
            mkState w1 (trace s ++ [EvLoadDotenv; EvLog line]) key endpoint)
         /\ (fst (godotenv_Load (world s)) <> None
             \/ os_Getenv "SPORTS_DATA_API_KEY" w1 = EmptyString
             \/ os_Getenv "NBA_ENDPOINT" w1 = EmptyString)).
Proof.
  unfold init, configured_by, bind, call, log_Fatal, bind, emit, exit, ret,
    Getenv, set_apiKey, set_nbaEndpoint.
  cbn [world trace apiKey nbaEndpoint].
  destruct (godotenv_Load (world s)) as [[e|] w1]; cbn [fst snd].
  - cbn [world trace apiKey nbaEndpoint].
    right. eexists _, _, _. rewrite <- app_assoc.
    split; [reflexivity | left; discriminate].
  - cbn [world trace apiKey nbaEndpoint].
    destruct (String.eqb_spec (os_Getenv "SPORTS_DATA_API_KEY" w1) "")
      as [Hk | Hk]; cbn [world trace apiKey nbaEndpoint].
    { right. eexists _, _, _. rewrite <- app_assoc.
      split; [reflexivity | right; left; exact Hk]. }
    destruct (String.eqb_spec (os_Getenv "NBA_ENDPOINT" w1) "")
      as [He | He]; cbn [world trace apiKey nbaEndpoint].
    { right. eexists _, _, _. rewrite <- app_assoc.
      split; [reflexivity | right; right; exact He]. }
    left. repeat split; assumption.
Qed.

(** X8. [init] returns exactly when [godotenv.Load] succeeds and both
    variables are non-empty in the environment it leaves; the key and the
    address are then these two values.  Otherwise it exits with status 1: it
    never panics. *)
Theorem init_returns_iff (s s1 : State W) :
  let w1 := snd (godotenv_Load (world s)) in
  (init s = (Done tt, s1)
   <-> fst (godotenv_Load (world s)) = None
       /\ os_Getenv "SPORTS_DATA_API_KEY" w1 <> EmptyString
       /\ os_Getenv "NBA_ENDPOINT" w1 <> EmptyString
       /\ s1 = configured_by s w1)
  /\ (forall o s', init s = (o, s') -> o = Done tt \/ o = Exit 1).
Proof.
  intros w1. pose proof (init_cases s) as Hcases. cbv zeta in Hcases.
  fold w1 in Hcases. split.
  - split.
    + intros Hrun.
      destruct Hcases as [(Hl & Hk & He & Hi) | (l & k & e & Hi & _)];
        rewrite Hi in Hrun; [|discriminate Hrun].
      injection Hrun as <-. auto.
    + intros (Hl & Hk & He & ->).
      destruct Hcases as [(_ & _ & _ & Hi) | (l & k & e & _ & Hbad)];
        [exact Hi | tauto].
  - intros o s' Hrun.
    destruct Hcases as [(_ & _ & _ & Hi) | (l & k & e & Hi & _)];
      rewrite Hi in Hrun; injection Hrun as <- <-; auto.
Qed.

(** X7. In every run of the program, each call carries the arguments the
    source gives it.  A call leaves the machine only after [godotenv.Load]
    has succeeded and both values were found non-empty, and every HTTP
    request is a GET to the configured address whose only header is the
    subscription key. *)
Theorem program_calls_as_configured (w : W) (s' : State W) o :
  program (start w) = (o, s') ->
  let w1 := snd (godotenv_Load w) in
  let key := os_Getenv "SPORTS_DATA_API_KEY" w1 in
  let endpoint := os_Getenv "NBA_ENDPOINT" w1 in
  Forall (expected_event key endpoint) (trace s')
  /\ (forall e, In e (trace s') -> is_network_call e = true ->
        fst (godotenv_Load w) = None
        /\ key <> EmptyString /\ endpoint <> EmptyString)
  /\ (forall req, In (EvHttpDo req) (trace s') ->
        Method req = "GET" /\ URL req = endpoint
        /\ Header req = [("Ocp-Apim-Subscription-Key", key)]).
Proof.
  intros Hrun w1 key endpoint.
  assert (Hall : Forall (expected_event key endpoint) (trace s')
                 /\ ((exists e, In e (trace s') /\ is_network_call e = true) ->
                     fst (godotenv_Load w) = None
                     /\ key <> EmptyString /\ endpoint <> EmptyString)).
  { unfold program, bind in Hrun.
    pose proof (init_cases (start w)) as Hcases. cbv zeta in Hcases.
    cbn [start world trace] in Hcases. fold w1 in Hcases.
    destruct Hcases as [(Hl & Hk & He & Hi) | (l & k & e & Hi & _)];
      rewrite Hi in Hrun.
    - apply main_expected in Hrun as (_ & evs & Happ & Hevs).
      unfold appends in Happ. cbn in Happ, Hevs. rewrite Happ.
      split; [|now intros _].
      constructor; [exact I | exact Hevs].
    - injection Hrun as <- <-. cbn [trace app]. split.
      + repeat constructor.
      + intros (ev & [<- | [<- | []]] & Hnet); discriminate Hnet. }
  destruct Hall as [Hall Hnet]. split; [exact Hall|]. split.
  - intros e Hin He. apply Hnet. eauto.
  - intros req Hin. rewrite Forall_forall in Hall.
    apply list_elem_of_In in Hin. apply Hall in Hin. cbn in Hin.
    subst req. repeat split.
Qed.
End InitOutcomes.

Section MainEvents.
Context {W : Type} `{Platform W}.

Lemma main_events (s s' : State W) o evs :
  main s = (o, s') -> appends s s' evs ->
  Forall (expected_event (apiKey s) (nbaEndpoint s)) evs
  /\ stages_of evs `sublist_of` call_order.
Proof.
  intros Hrun Happ.
  destruct (main_expected s s' o Hrun) as (_ & evs' & Happ' & Hall).
  rewrite (appends_unique s s' evs evs' Happ Happ'). split; [exact Hall|].
  clear Hall. revert Hrun. rewrite main_staged_eq. unfold main_staged.
  rewrite <- bind_assoc. fold (main_until pipeline). unfold bind.
  destruct (main_until pipeline s) as [o1 s1] eqn:E1.
  apply main_until_trace in E1 as (evs1 & Happ1 & Hsub).
  destruct o1 as [d | code | msg]; intros [= <- <-].
  - assert (evs' = (evs1 ++ [EvLog "Data lake setup complete."])%list) as ->.
    { apply (appends_unique s _ _ _ Happ'). unfold appends in *. cbn.
      now rewrite Happ1, app_assoc. }
    rewrite stages_of_app. cbn. now rewrite app_nil_r.
  - now rewrite (appends_unique s _ _ _ Happ' Happ1).
  - now rewrite (appends_unique s _ _ _ Happ' Happ1).
Qed.

Lemma stages_of_filter_put (evs : list event) :
  List.length (List.filter is_put_object evs)
  = List.length (List.filter (fun st => match st with Upload => true
                                                 | _ => false end)
                   (stages_of evs)).
Proof.
  induction evs as [|e evs IH]; [reflexivity|].
  destruct e; cbn; rewrite ?IH; reflexivity.
Qed.

Lemma sublist_filter_length {A} (p : A -> bool) (l k : list A) :
  l `sublist_of` k ->
  (List.length (List.filter p l) <= List.length (List.filter p k))%nat.
Proof.
  induction 1 as [|x l k _ IH | x l k _ IH]; cbn; [lia | |].
  - destruct (p x); cbn; lia.
  - destruct (p x); cbn; lia.
Qed.

(** X9. A run of [main] uploads at most once, and what it uploads goes to
    "nba_data.json" in the bucket of the program, is not empty, declares its
    own length, and has as lines the encodings of a non-empty batch, each of
    which parses as a JSON object. *)
Theorem main_upload_wellformed (s s' : State W) o (evs : list event) :
  main s = (o, s') -> appends s s' evs ->
  (List.length (List.filter is_put_object evs) <= 1)%nat
  /\ forall b k body n,
      In (EvPutObject b k body n) evs ->
      b = bucketName /\ k = "nba_data.json"
      /\ n = Z.of_nat (String.length body) /\ 0 < n
      /\ exists data,
          data <> []
          /\ split_lines body = List.map json_Marshal data
          /\ Forall (fun line => parses_as_object line = true)
               (split_lines body).
Proof.
  intros Hrun Happ. destruct (main_events s s' o evs Hrun Happ) as [Hall Hsub].
  split.
  - rewrite stages_of_filter_put.
    apply (sublist_filter_length
             (fun st => match st with Upload => true | _ => false end))
      in Hsub.
    exact Hsub.
  - intros b k body n Hin. rewrite Forall_forall in Hall.
    apply list_elem_of_In in Hin. apply Hall in Hin.
    destruct Hin as (-> & -> & -> & data & Hne & ->).
    split; [reflexivity|]. split; [reflexivity|]. split; [reflexivity|].
    split.
    + destruct data as [|item data]; [contradiction|].
      rewrite convert_cons, length_append.
      destruct (json_Marshal_braces item) as [inner ->]. cbn. lia.
    + exists data. split; [exact Hne|]. rewrite convert_lines.
      split; [reflexivity|].
      apply Forall_map, Forall_forall. intros m _. apply json_Marshal_parses.
Qed.

(** X10. The resources of a run agree with each other: the table is
    located at the bucket that was probed and written to, it is created in
    the database that was created, and the Athena query runs in that
    database with its output under the location of the table. *)
Theorem main_resources_consistent (s s' : State W) o (evs : list event) :
  main s = (o, s') -> appends s s' evs ->
  forall db t,
    In (EvCreateTable db t) evs ->
    (forall b, In (EvHeadBucket b) evs -> Location t = "s3://" ++ b ++ "/")
    /\ (forall b k body n,
           In (EvPutObject b k body n) evs ->
           Location t = "s3://" ++ b ++ "/")
    /\ (forall name, In (EvCreateDatabase name) evs -> db = name)
    /\ (forall db' query output,
           In (EvStartQueryExecution db' query output) evs ->
           db' = db /\ output = Location t ++ "athena-results/"
           /\ query = "CREATE DATABASE IF NOT EXISTS " ++ db).
Proof.
  intros Hrun Happ db t Ht.
  destruct (main_events s s' o evs Hrun Happ) as [Hall _].
  rewrite Forall_forall in Hall.
  assert (Hev : forall e, In e evs ->
                          expected_event (apiKey s) (nbaEndpoint s) e).
  { intros e He. apply Hall. now apply list_elem_of_In. }
  destruct (Hev _ Ht) as [-> ->]. split; [|split; [|split]].
  - intros b Hb. now rewrite (Hev _ Hb).
  - intros b k body n Hb. now destruct (Hev _ Hb) as (-> & _).
  - intros name Hn. now rewrite (Hev _ Hn).
  - intros db' query output Hq. destruct (Hev _ Hq) as (-> & -> & ->).
    repeat split.
Qed.
End MainEvents.

Lemma stage_events_only (st st' : stage) (l : list stage) :
  l `sublist_of` stage_events st -> In st' l -> st' = st.
Proof.
  intros Hsub Hin. apply list_elem_of_In in Hin.
  apply (sublist_subseteq _ _ Hsub) in Hin.
  destruct st; cbn in Hin; rewrite ?elem_of_cons, elem_of_nil in Hin;
    intuition congruence.
Qed.

Section NoSkip.
Context {W : Type} `{Platform W}.

Lemma run_stage_acts (st : stage) (d d' : list Record_) (s s' : State W) :
  st <> Upload ->
  run_stage st d s = (Done (None, d'), s') ->
  exists evs, appends s s' evs /\ In st (stages_of evs).
Proof.
  intros Hst. destruct st; try contradiction; cbn [run_stage].
  - unfold createS3Bucket, bind, call, log_Printf, emit, ret. intros Hrun.
    repeat (match type of Hrun with
            | context [match ?m with _ => _ end] =>
                lazymatch m with
                | context [match _ with _ => _ end] => fail
                | _ => destruct m eqn:?
                end
            | context [if ?b then _ else _] => destruct b eqn:?
            end; simplify_eq/=).
    all: simplify_eq/=.
    all: eexists;
      (split; [unfold appends; cbn; rewrite <- ?app_assoc; reflexivity|]).
    all: cbn; auto.
  - unfold bind, call, ret. intros [= <- <-]. exists [EvSleep 5].
    split; [reflexivity | cbn; auto].
  - unfold createGlueDatabase, bind, call, ret.
    destruct (glue_CreateDatabase _ _) as [r w']. intros [= -> <- <-].
    eexists. split; [reflexivity | cbn; auto].
  - unfold bind at 1. destruct (fetchNBAData s) as [o1 s1] eqn:Hf.
    destruct (fetchNBAData_cases s s1 o1 Hf) as (_ & _ & _ & Hcase).
    destruct Hcase as [(e & _ & -> & _) | [(e & w' & _ & -> & _) |
                                            (resp & w' & _ & ->)]];
      [discriminate | discriminate |].
    intros Hrun. assert (s' = body_closed (answered s w')) as ->.
    { destruct o1 as [[d1 | e1] | code | msg]; now injection Hrun. }
    exists [EvHttpDo (request_of s); EvBodyClose].
    split; [unfold appends; cbn; now rewrite <- app_assoc | cbn; auto].
  - unfold createGlueTable, bind, call, ret.
    destruct (glue_CreateTable _ _ _) as [r w']. intros [= -> <- <-].
    eexists. split; [reflexivity | cbn; auto].
  - unfold configureAthena, bind, call, ret.
    destruct (athena_StartQueryExecution _ _ _ _) as [r w'].
    intros [= -> <- <-].
    eexists. split; [reflexivity | cbn; auto].
Qed.

Lemma run_stages_no_skip (l : list stage) :
  NoDup l ->
  forall (d : list Record_) (s s' : State W) o evs,
    run_stages l d s = (o, s') -> appends s s' evs ->
    (forall st, In st (stages_of evs) -> In st l)
    /\ (forall pre st post st',
           l = (pre ++ st :: post)%list -> In st (stages_of evs) ->
           In st' pre -> st' <> Upload -> In st' (stages_of evs))
    /\ (forall d', o = Done d' ->
           forall st, In st l -> st <> Upload -> In st (stages_of evs)).
Proof.
  induction l as [|st0 l IH]; intros Hnd d s s' o evs; cbn [run_stages].
  - intros [= <- <-] Happ.
    assert (evs = []) as ->.
    { apply (appends_unique s s _ _ Happ). unfold appends.
      now rewrite app_nil_r. }
    split; [intros st []|]. split; [|intros d' _ st []].
    intros pre st post st' Hl. now destruct pre.
  - apply NoDup_cons in Hnd as [Hnotin Hnd].
    unfold bind at 1. destruct (run_stage st0 d s) as [o1 s1] eqn:E1.
    pose proof (run_stage_trace st0 d s s1 o1 E1) as (evs1 & Happ1 & Hsub1).
    assert (Hhead : forall evs2,
               stages_of evs2 = [] ->
               forall st, In st (stages_of (evs1 ++ evs2)) -> st = st0).
    { intros evs2 H2 st. rewrite stages_of_app, H2, app_nil_r.
      now apply stage_events_only. }
    assert (Hstop : forall evs2,
               stages_of evs2 = [] ->
               evs = (evs1 ++ evs2)%list ->
               (forall st, In st (stages_of evs) -> In st (st0 :: l))
               /\ (forall pre st post st',
                      st0 :: l = (pre ++ st :: post)%list ->
                      In st (stages_of evs) ->
                      In st' pre -> st' <> Upload -> In st' (stages_of evs))).
    { intros evs2 H2 ->. split.
      - intros st Hin. left. symmetry. now apply (Hhead evs2).
      - intros pre st post st' Hl Hin Hpre _. exfalso.
        apply (Hhead evs2 H2) in Hin. subst st.
        destruct pre as [|p pre]; [contradiction|].
        injection Hl as <- Hl. apply Hnotin. rewrite Hl.
        apply elem_of_app. right. apply elem_of_cons. now left. }
    destruct o1 as [[[e|] d1] | code | msg]; cbn [fst snd].
    + intros Hf Happ. apply log_Fatal_trace in Hf as [Happ2 ->].
      destruct (Hstop [EvLog (fatal_prefix st0 ++ Error e)] eq_refl)
        as [Ha Hb].
      { apply (appends_unique s s' _ _ Happ). unfold appends in *.
        now rewrite Happ2, Happ1, app_assoc. }
      split; [exact Ha|]. split; [exact Hb | discriminate].
    + intros Hr Happ.
      destruct (run_stages_trace l d1 s1 s' o Hr) as (evs2 & Happ2 & Hsub2).
      assert (evs = (evs1 ++ evs2)%list) as ->.
      { apply (appends_unique s s' _ _ Happ). unfold appends in *.
        now rewrite Happ2, Happ1, app_assoc. }
      destruct (IH Hnd d1 s1 s' o evs2 Hr Happ2) as (Hin2 & Hskip2 & Hdone2).
      assert (Hact : st0 <> Upload -> In st0 (stages_of evs1)).
      { intros Hup.
        destruct (run_stage_acts st0 d d1 s s1 Hup E1) as (evs1' & Ha & Hi).
        now rewrite (appends_unique s s1 _ _ Happ1 Ha). }
      split; [|split].
      * intros st. rewrite stages_of_app, in_app_iff. intros [Hi | Hi].
        -- left. symmetry. now apply (stage_events_only st0 st _ Hsub1).
        -- right. now apply Hin2.
      * intros pre st post st' Hl. rewrite !stages_of_app, !in_app_iff.
        intros Hin Hpre Hup.
        destruct pre as [|p pre]; [contradiction|].
        injection Hl as <- Hl.
        assert (Hst : st <> st0).
        { intros ->. apply Hnotin. rewrite Hl.
          apply elem_of_app. right. apply elem_of_cons. now left. }
        destruct Hin as [Hin | Hin].
        { apply (stage_events_only st0 st _ Hsub1) in Hin. contradiction. }
        destruct Hpre as [<- | Hpre]; [left; now apply Hact|].
        right. now apply (Hskip2 pre st post st').
      * intros d' Ho st [<- | Hin] Hup; rewrite stages_of_app, in_app_iff.
        -- left. now apply Hact.
        -- right. now apply (Hdone2 d').
    + intros [= <- <-] Happ.
      destruct (Hstop [] eq_refl) as [Ha Hb].
      { rewrite app_nil_r. now apply (appends_unique s s1). }
      split; [exact Ha|]. split; [exact Hb | discriminate].
    + intros [= <- <-] Happ.
      destruct (Hstop [] eq_refl) as [Ha Hb].
      { rewrite app_nil_r. now apply (appends_unique s s1). }
      split; [exact Ha|]. split; [exact Hb | discriminate].
Qed.

Lemma pipeline_NoDup : NoDup pipeline.
Proof.
  unfold pipeline.
  repeat (apply NoDup_cons_2;
            [rewrite ?elem_of_cons, elem_of_nil; intuition discriminate|]).
  apply NoDup_nil_2.
Qed.

(** X11. Only the upload can be skipped: when a run of [main] has issued a
    call of some step, it has issued a call of every earlier step other than
    the upload, and a run that returns has issued a call of every step other
    than the upload. *)
Theorem main_skips_only_upload (s s' : State W) o (evs : list event) :
  main s = (o, s') -> appends s s' evs ->
  (forall pre st post st',
      pipeline = (pre ++ st :: post)%list -> In st (stages_of evs) ->
      In st' pre -> st' <> Upload -> In st' (stages_of evs))
  /\ (o = Done tt ->
      forall st, st <> Upload -> In st (stages_of evs)).
Proof.
  rewrite main_staged_eq. unfold main_staged. unfold bind at 1.
  destruct (preamble s) as [o0 s0] eqn:E0.
  apply preamble_trace in E0 as (evs0 & Happ0 & Hst0).
  destruct o0 as [[] | code | msg].
  - unfold bind at 1. destruct (run_stages pipeline [] s0) as [o1 s1] eqn:E1.
    destruct (run_stages_trace pipeline [] s0 s1 o1 E1) as (evs1 & Happ1 & _).
    destruct (run_stages_no_skip pipeline pipeline_NoDup [] s0 s1 o1 evs1
                E1 Happ1) as (_ & Hskip & Hdone).
    assert (Hsame : forall tail,
               stages_of tail = [] ->
               stages_of (evs0 ++ evs1 ++ tail) = stages_of evs1).
    { intros tail Ht. now rewrite !stages_of_app, Hst0, Ht, app_nil_r. }
    destruct o1 as [d1 | code | msg]; intros [= <- <-] Happ.
    + assert (evs = (evs0 ++ evs1 ++ [EvLog "Data lake setup complete."])%list)
        as ->.
      { apply (appends_unique s _ _ _ Happ). unfold appends in *. cbn.
        now rewrite Happ1, Happ0, <- !app_assoc. }
      rewrite (Hsame [EvLog "Data lake setup complete."] eq_refl).
      split; [exact Hskip|].
      intros _ st Hup. apply (Hdone d1 eq_refl); [|exact Hup].
      destruct st; cbn; auto 10.
    + assert (evs = (evs0 ++ evs1 ++ [])%list) as ->.
      { apply (appends_unique s _ _ _ Happ). unfold appends in *.
        now rewrite app_nil_r, Happ1, Happ0, <- !app_assoc. }
      rewrite (Hsame [] eq_refl). split; [exact Hskip | discriminate].
    + assert (evs = (evs0 ++ evs1 ++ [])%list) as ->.
      { apply (appends_unique s _ _ _ Happ). unfold appends in *.
        now rewrite app_nil_r, Happ1, Happ0, <- !app_assoc. }
      rewrite (Hsame [] eq_refl). split; [exact Hskip | discriminate].
  - intros [= <- <-] Happ.
    rewrite (appends_unique s _ _ _ Happ Happ0), Hst0.
    split; [intros pre st post st' _ [] | discriminate].
  - intros [= <- <-] Happ.
    rewrite (appends_unique s _ _ _ Happ Happ0), Hst0.
    split; [intros pre st post st' _ [] | discriminate].
Qed.
End NoSkip.

Section Endings.
Context {W : Type} `{Platform W}.

Lemma run_stage_endings (st : stage) (d : list Record_) (s s' : State W) o :
  run_stage st d s = (o, s') ->
  (exists d', o = Done (None, d'))
  \/ (exists e d' rest,
         o = Done (Some e, d') /\ fatal_prefix st = "Failed to " ++ rest)
  \/ (exists msg, o = Panic msg /\ fetchNBAData s = (Panic msg, s')).
Proof.
  destruct st; cbn [run_stage].
  - unfold bind at 1. destruct (createS3Bucket s) as [o1 s1] eqn:E.
    assert (Hd : exists r, o1 = Done r).
    { revert E. unfold createS3Bucket, bind, call, log_Printf, emit, ret.
      intros Hrun.
      repeat (match type of Hrun with
              | context [match ?m with _ => _ end] =>
                  lazymatch m with
                  | context [match _ with _ => _ end] => fail
                  | _ => destruct m eqn:?
                  end
              | context [if ?b then _ else _] => destruct b eqn:?
              end; simplify_eq/=).
      all: simplify_eq/=; eauto. }
    destruct Hd as [[e|] ->]; intros [= <- <-]; [right; left | left]; eauto.
  - unfold bind, call, ret. intros [= <- <-]. left. eauto.
  - unfold createGlueDatabase, bind, call, ret.
    destruct (glue_CreateDatabase _ _) as [[e|] w']; intros [= <- <-];
      [right; left | left]; eauto.
  - unfold bind at 1. destruct (fetchNBAData s) as [o1 s1] eqn:Hf.
    destruct (fetchNBAData_cases s s1 o1 Hf) as (Hne & _).
    destruct o1 as [[d1 | e1] | code | msg]; intros [= <- <-].
    + left. eauto.
    + right. left. eexists e1, d, _. split; reflexivity.
    + now destruct (Hne code).
    + right. right. eauto.
  - destruct (0 <? Z.of_nat (List.length d)).
    + unfold uploadDataToS3, bind, call, ret.
      destruct (s3_PutObject _ _ _ _ _) as [[e|] w']; intros [= <- <-];
        [right; left | left]; eauto.
    + intros [= <- <-]. left. eauto.
  - unfold createGlueTable, bind, call, ret.
    destruct (glue_CreateTable _ _ _) as [[e|] w']; intros [= <- <-];
      [right; left | left]; eauto.
  - unfold configureAthena, bind, call, ret.
    destruct (athena_StartQueryExecution _ _ _ _) as [[e|] w'];
      intros [= <- <-]; [right; left | left]; eauto.
Qed.

Lemma panic_ending (s s' : State W) (msg : string) :
  fetchNBAData s = (Panic msg, s') ->
  exists v, ends_with (Panic msg) s' (Panicked v).
Proof.
  intros Hf. apply fetchNBAData_panic_inv in Hf
    as (resp & w' & pre & v & rest & _ & _ & _ & _ & Hv & -> & ->).
  exists v. split; [reflexivity|]. split; [exact Hv|].
  exists (trace s), (request_of s). cbn. now rewrite <- app_assoc.
Qed.

Lemma run_stages_endings (l : list stage) :
  forall (d : list Record_) (s s' : State W) o,
    run_stages l d s = (o, s') ->
    (exists d', o = Done d')
    \/ (exists line, o = Exit 1 /\ ends_with (Exit 1) s' (Fatal line))
    \/ (exists msg v, o = Panic msg /\ ends_with (Panic msg) s' (Panicked v)).
Proof.
  induction l as [|st l IH]; intros d s s' o; cbn [run_stages].
  - intros [= <- <-]. left. eauto.
  - unfold bind at 1. destruct (run_stage st d s) as [o1 s1] eqn:E1.
    apply run_stage_endings in E1
      as [[d' ->] | [(e & d' & rest & -> & Hp) | (msg & -> & Hf)]];
      cbn [fst snd].
    + apply IH.
    + rewrite Hp, append_assoc. intros [= <- <-]. right. left.
      exists (rest ++ Error e). split; [reflexivity|].
      split; [reflexivity|]. exists (trace s1). reflexivity.
    + intros [= <- <-]. right. right.
      destruct (panic_ending s s1 msg Hf) as [v Hv]. eauto.
Qed.

(** X12. A run of [main] ends in one of three ways: it returns after the
    line "Data lake setup complete."; it exits with status 1 after a line
    that starts with "Failed to "; or it panics on the type assertion of
    [fetchNBAData], right after the body was closed. *)
Theorem main_endings (s s' : State W) (o : outcome unit) :
  main s = (o, s') -> exists e, ends_with o s' e.
Proof.
  rewrite main_staged_eq. unfold main_staged. unfold bind at 1.
  destruct (preamble s) as [o0 s0] eqn:E0.
  revert E0. unfold preamble. unfold bind at 1, call.
  destruct (config_LoadDefaultConfig region (world s)) as [[e|] w'].
  - cbn [fatal_if]. intros [= <- <-]. intros [= <- <-].
    exists (Fatal ("load configuration: " ++ Error e)).
    split; [reflexivity|]. eexists. reflexivity.
  - cbn [fatal_if]. intros [= <- <-]. unfold bind at 1.
    destruct (run_stages pipeline [] _) as [o1 s1] eqn:E1.
    apply run_stages_endings in E1
      as [[d' ->] | [(line & -> & Hl) | (msg & v & -> & Hv)]];
      intros [= <- <-].
    + exists Completed. split; [reflexivity|]. eexists. reflexivity.
    + now exists (Fatal line).
    + now exists (Panicked v).
Qed.
End Endings.

Lemma extends_refl (w : Fake) : extends w w.
Proof. repeat split; reflexivity. Qed.

Lemma extends_trans (a b c : Fake) : extends a b -> extends b c -> extends a c.
Proof.
  intros (E1 & D1 & C1 & A1 & B1 & G1) (E2 & D2 & C2 & A2 & B2 & G2).
  repeat split; try congruence; etrans; eassumption.
Qed.

Lemma Fake_run_stage_extends (st : stage) (d : list Record_)
    (s s' : State Fake) o :
  run_stage st d s = (o, s') -> extends (world s) (world s').
Proof.
  destruct st; cbn [run_stage].
  - unfold createS3Bucket, bind, call, log_Printf, emit, ret.
    cbn [s3_HeadBucket s3_CreateBucket FakePlatform.platform].
    unfold FakePlatform.HeadBucket, FakePlatform.CreateBucket.
    destruct (decide (bucketName ∈ buckets (world s))) as [Hin | Hout];
      cbn.
    + intros [= <- <-]. apply extends_refl.
    + destruct (decide (bucketName ∈ buckets (world s))); [contradiction|].
      cbn. intros [= <- <-]. cbn. repeat split; try reflexivity.
      cbn. apply union_subseteq_r.
  - unfold bind, call, ret. intros [= <- <-]. cbn. repeat split; reflexivity.
  - unfold createGlueDatabase, bind, call, ret.
    cbn [glue_CreateDatabase FakePlatform.platform].
    unfold FakePlatform.CreateDatabase.
    destruct (decide (glueDBName ∈ databases (world s))); intros [= <- <-];
      cbn; [apply extends_refl|].
    repeat split; try reflexivity. cbn. apply union_subseteq_r.
  - unfold bind at 1. destruct (fetchNBAData s) as [o1 s1] eqn:Hf.
    destruct (fetchNBAData_cases s s1 o1 Hf) as (_ & _ & _ & Hcase).
    intros Hrun. assert (s' = s1) as ->.
    { destruct o1 as [[d1 | e1] | code | msg]; now injection Hrun. }
    destruct Hcase as [(e & _ & _ & ->) | [(e & w' & Hdo & _ & ->) |
                                            (resp & w' & Hdo & ->)]];
      [apply extends_refl | |]; injection Hdo as _ <-; apply extends_refl.
  - destruct (0 <? Z.of_nat (List.length d)).
    + unfold uploadDataToS3, bind, call, ret.
      cbn [s3_PutObject FakePlatform.platform]. unfold FakePlatform.PutObject.
      destruct (decide (bucketName ∈ buckets (world s))); intros [= <- <-];
        cbn; [|apply extends_refl].
      repeat split; reflexivity.
    + intros [= <- <-]. apply extends_refl.
  - unfold createGlueTable, bind, call, ret.
    cbn [glue_CreateTable FakePlatform.platform].
    unfold FakePlatform.CreateTable.
    destruct (decide (glueDBName ∈ databases (world s)));
      [destruct (decide _)|]; intros [= <- <-]; cbn;
      try apply extends_refl.
    repeat split; reflexivity.
  - unfold configureAthena, bind, call, ret. intros [= <- <-]. cbn.
    repeat split; reflexivity.
Qed.

Lemma Fake_run_stage_done (st : stage) (d d' : list Record_)
    (s s' : State Fake) :
  run_stage st d s = (Done (None, d'), s') ->
  (st = Bucket -> bucketName ∈ buckets (world s'))
  /\ (st = Database -> glueDBName ∈ databases (world s')).
Proof.
  intros Hrun. split; intros ->; revert Hrun; cbn [run_stage].
  - unfold createS3Bucket, bind, call, log_Printf, emit, ret.
    cbn [s3_HeadBucket s3_CreateBucket FakePlatform.platform].
    unfold FakePlatform.HeadBucket, FakePlatform.CreateBucket.
    destruct (decide (bucketName ∈ buckets (world s))) as [Hin | Hout];
      cbn.
    + now intros [= _ <-].
    + destruct (decide (bucketName ∈ buckets (world s))); [contradiction|].
      cbn. intros [= _ <-]. cbn.
      apply elem_of_union_l, elem_of_singleton. reflexivity.
  - unfold createGlueDatabase, bind, call, ret.
    cbn [glue_CreateDatabase FakePlatform.platform].
    unfold FakePlatform.CreateDatabase.
    destruct (decide (glueDBName ∈ databases (world s)));
      [discriminate|].
    intros [= _ <-]. cbn. apply elem_of_union_l, elem_of_singleton.
    reflexivity.
Qed.

Lemma Fake_run_stages_done (l : list stage) :
  forall (d d' : list Record_) (s s' : State Fake),
    run_stages l d s = (Done d', s') ->
    extends (world s) (world s')
    /\ (In Bucket l -> bucketName ∈ buckets (world s'))
    /\ (In Database l -> glueDBName ∈ databases (world s')).
Proof.
  induction l as [|st l IH]; intros d d' s s'; cbn [run_stages].
  - intros [= _ <-]. split; [apply extends_refl|]. split; intros [].
  - unfold bind at 1. destruct (run_stage st d s) as [o1 s1] eqn:E1.
    pose proof (Fake_run_stage_extends st d s s1 o1 E1) as Hext1.
    destruct o1 as [[[e|] d1] | code | msg]; cbn [fst snd];
      try discriminate.
    intros Hr. destruct (IH d1 d' s1 s' Hr) as (Hext2 & Hb & Hd).
    destruct (Fake_run_stage_done st d d1 s s1 E1) as [Hb1 Hd1].
    split; [now apply (extends_trans _ (world s1))|].
    destruct Hext2 as (_ & _ & _ & _ & Hbs & Hds).
    split; (intros [-> | Hin]; [|auto]).
    + apply Hbs. now apply Hb1.
    + apply Hds. now apply Hd1.
Qed.

Lemma Fake_main_done (s s' : State Fake) :
  main s = (Done tt, s') ->
  aws_config_ok (world s) = true
  /\ extends (world s) (world s')
  /\ bucketName ∈ buckets (world s')
  /\ glueDBName ∈ databases (world s').
Proof.
  rewrite main_staged_eq. unfold main_staged, preamble.
  unfold bind at 1 2, call.
  cbn [config_LoadDefaultConfig FakePlatform.platform].
  unfold FakePlatform.LoadDefaultConfig.
  destruct (aws_config_ok (world s)) eqn:Hcfg; [|discriminate].
  cbn [fatal_if ret]. unfold bind at 1.
  destruct (run_stages pipeline [] _) as [[d1 | code | msg] s1] eqn:E1;
    try discriminate.
  intros [= <-]. cbn [world].
  apply Fake_run_stages_done in E1 as (Hext & Hb & Hd). cbn [world] in *.
  split; [reflexivity|]. split; [exact Hext|].
  split; [apply Hb | apply Hd]; cbn; auto.
Qed.

Lemma load_vars_keeps (kvs : list (string * string)) :
  forall (e : gmap string string) k v,
    e !! k = Some v -> FakePlatform.load_vars kvs e !! k = Some v.
Proof.
  induction kvs as [|[k0 v0] kvs IH]; intros e k v He; cbn; [exact He|].
  apply IH. destruct (e !! k0) eqn:E0; [exact He|].
  rewrite lookup_insert_ne; [exact He|]. intros ->. congruence.
Qed.

Lemma Fake_Getenv_keeps (kvs : list (string * string)) (w : Fake) k :
  FakePlatform.Getenv k w <> EmptyString ->
  FakePlatform.Getenv k
    (FakePlatform.set_environ w (FakePlatform.load_vars kvs (environ w)))
  = FakePlatform.Getenv k w.
Proof.
  unfold FakePlatform.Getenv. cbn [environ FakePlatform.set_environ].
  destruct (environ w !! k) as [v|] eqn:E; cbn; [|congruence].
  intros _. now rewrite (load_vars_keeps kvs _ k v E).
Qed.

(** X14. The program cannot be run twice on the same account: after a
    run that completed on the in-memory platform, the next run finds the
    bucket, pauses, and exits on the conflict of the Glue database, before
    any request to the data source; it stores no object, creates no table
    and starts no query. *)
Theorem program_second_run_conflicts (w : Fake) (s1 : State Fake) :
  program (start w) = (Done tt, s1) ->
  exists s2,
    program (start (world s1)) = (Exit 1, s2)
    /\ trace s2
       = [EvLoadDotenv; EvLoadDefaultConfig region; EvHeadBucket bucketName;
          EvLog ("Bucket " ++ bucketName ++ " already exists"); EvSleep 5;
          EvCreateDatabase glueDBName;
          EvLog ("Failed to create Glue database: "
                 ++ Error database_conflict)]
    /\ objects (world s2) = objects (world s1)
    /\ tables (world s2) = tables (world s1)
    /\ queries (world s2) = queries (world s1).
Proof.
  intros Hrun. unfold program in Hrun. unfold bind at 1 in Hrun.
  pose proof (init_cases (start w)) as Hcases. cbv zeta in Hcases.
  destruct Hcases as [(Hl & Hk & He & Hi) | (l & k & e & Hi & _)];
    rewrite Hi in Hrun; [|discriminate Hrun].
  apply Fake_main_done in Hrun as (Hcfg & Hext & Hb & Hd).
  cbn [configured_by world start] in *.
  cbn [godotenv_Load os_Getenv FakePlatform.platform] in *.
  unfold FakePlatform.Load in *.
  destruct (dotenv_file w) as [kvs|] eqn:Hfile; [|discriminate Hl].
  cbn [snd fst] in *. clear Hl Hi.
  set (w1 := FakePlatform.set_environ w
               (FakePlatform.load_vars kvs (environ w))) in *.
  destruct Hext as (Henv & Hdot & Hok & _ & Hbs & Hds).
  set (w2 := FakePlatform.set_environ (world s1)
               (FakePlatform.load_vars kvs (environ (world s1)))).
  assert (Hload : godotenv_Load (world s1) = (None, w2)).
  { cbn. unfold FakePlatform.Load. rewrite Hdot. cbn. now rewrite Hfile. }
  assert (Hget : forall k, FakePlatform.Getenv k w1 <> EmptyString ->
                           os_Getenv k w2 = FakePlatform.Getenv k w1).
  { intros k Hne. unfold w2. cbn [os_Getenv FakePlatform.platform].
    assert (Hsame : FakePlatform.Getenv k (world s1) = FakePlatform.Getenv k w1)
      by (unfold FakePlatform.Getenv; now rewrite Henv).
    rewrite Fake_Getenv_keeps; [exact Hsame | now rewrite Hsame]. }
  pose proof (init_cases (start (world s1))) as Hcases. cbv zeta in Hcases.
  cbn [start world] in Hcases. rewrite Hload in Hcases. cbn [fst snd] in Hcases.
  rewrite (Hget _ Hk), (Hget _ He) in Hcases.
  destruct Hcases as [(_ & _ & _ & Hi) | (l & k & e & _ & Hbad)];
    [|exfalso; destruct Hbad as [Hbad | [Hbad | Hbad]]; congruence].
  set (s0 := configured_by (start (world s1)) w2) in *.
  assert (Hcfg2 : aws_config_ok w2 = true) by (cbn; congruence).
  assert (Hpre : main_until [Bucket; Pause] s0
                 = (Done [],
                    mkState (FakePlatform.Sleep 5 w2)
                      [EvLoadDotenv; EvLoadDefaultConfig region;
                       EvHeadBucket bucketName;
                       EvLog ("Bucket " ++ bucketName ++ " already exists");
                       EvSleep 5]
                      (apiKey s0) (nbaEndpoint s0))).
  { unfold main_until, preamble. unfold bind at 1 2, call.
    cbn [config_LoadDefaultConfig FakePlatform.platform].
    unfold FakePlatform.LoadDefaultConfig. cbn [world s0 configured_by].
    rewrite Hcfg2. cbn [fatal_if ret run_stages run_stage].
    unfold bind at 1 2.
    rewrite (createS3Bucket_exists _ w2);
      [|apply Fake_HeadBucket_present; cbn; auto].
    reflexivity. }
  eexists. split.
  - unfold program. unfold bind at 1. rewrite Hi.
    eapply (main_stops_at s0 [Bucket; Pause] Database
              [Fetch; Upload; Table; Query] [] [] database_conflict);
      [reflexivity | exact Hpre |].
    cbn [run_stage]. unfold createGlueDatabase, bind, call, ret.
    cbn [glue_CreateDatabase FakePlatform.platform world].
    unfold FakePlatform.CreateDatabase.
    destruct (decide (glueDBName ∈ databases (FakePlatform.Sleep 5 w2)))
      as [_ | Hout]; [reflexivity|].
    exfalso. apply Hout. cbn. auto.
  - cbn. repeat split; reflexivity.
Qed.

(** X13. On the in-memory S3, an upload to an existing bucket stores the
    text of the batch under "nba_data.json"; a second upload replaces it and
    no other object changes.  An upload to a bucket that does not exist
    returns the error of the service and stores nothing. *)
Theorem Fake_upload_replaces (bucket : string) (data data' : list Record_)
    (s : State Fake) :
  (bucket ∈ buckets (world s) ->
   exists s1 s2,
     uploadDataToS3 bucket data s = (Done None, s1)
     /\ uploadDataToS3 bucket data' s1 = (Done None, s2)
     /\ objects (world s2) !! (bucket, "nba_data.json")
        = Some (convertToLineDelimitedJSON data')
     /\ (forall k, k <> (bucket, "nba_data.json") ->
                   objects (world s2) !! k = objects (world s) !! k)
     /\ buckets (world s2) = buckets (world s))
  /\ (bucket ∉ buckets (world s) ->
      exists e s1,
        uploadDataToS3 bucket data s = (Done (Some e), s1)
        /\ world s1 = world s
        /\ contains (Error e) "NoSuchBucket").
Proof.
  unfold uploadDataToS3, call.
  cbn [s3_PutObject FakePlatform.platform]. unfold FakePlatform.PutObject.
  split; intros Hb.
  - destruct (decide (bucket ∈ buckets (world s))); [|contradiction].
    eexists _, _. split; [reflexivity|]. cbn.
    destruct (decide (bucket ∈ buckets (world s))); [|contradiction].
    split; [reflexivity|]. cbn. split; [apply lookup_insert_eq|].
    split; [|reflexivity].
    intros k Hk. now rewrite !lookup_insert_ne.
  - destruct (decide (bucket ∈ buckets (world s))); [contradiction|].
    eexists _, _. split; [reflexivity|]. split; [reflexivity|].
    exists "operation error S3: PutObject: ", EmptyString. reflexivity.
Qed.

(** ** Order of keys *)

Lemma leb_trans (a b c : string) :
  String.leb a b = true -> String.leb b c = true -> String.leb a c = true.
Proof.
  intros Hab Hbc. apply Is_true_true.
  apply (PreOrder_Transitive (R := String.le) a b c); now apply Is_true_true.
Qed.

Lemma leb_false (a b : string) :
  String.leb a b = false -> String.leb b a = true /\ a <> b.
Proof.
  intros Hab. split.
  - destruct (String.leb_total a b) as [H | H]; congruence.
  - intros ->. destruct (String.leb_total b b) as [H | H]; congruence.
Qed.

Lemma insert_sorted_comm (a b : string * string) (l : list (string * string)) :
  fst a <> fst b ->
  insert_sorted a (insert_sorted b l) = insert_sorted b (insert_sorted a l).
Proof.
  intros Hne.
  assert (Hab : String.leb (fst a) (fst b) = true ->
                String.leb (fst b) (fst a) = false).
  { intros H1. destruct (String.leb (fst b) (fst a)) eqn:H2; [|reflexivity].
    now destruct (Hne (String.leb_antisym _ _ H1 H2)). }
  induction l as [|c l IH]; cbn [insert_sorted].
  - destruct (String.leb (fst a) (fst b)) eqn:E1.
    + now rewrite (Hab eq_refl).
    + apply leb_false in E1 as [E1 _]. now rewrite E1.
  - destruct (String.leb (fst b) (fst c)) eqn:Ebc;
      destruct (String.leb (fst a) (fst c)) eqn:Eac; cbn [insert_sorted];
      rewrite ?Ebc, ?Eac.
    + destruct (String.leb (fst a) (fst b)) eqn:E1.
      * now rewrite (Hab eq_refl).
      * apply leb_false in E1 as [E1 _]. now rewrite E1.
    + destruct (String.leb (fst a) (fst b)) eqn:E1.
      * now rewrite (leb_trans _ _ _ E1 Ebc) in Eac.
      * reflexivity.
    + destruct (String.leb (fst b) (fst a)) eqn:E1.
      * now rewrite (leb_trans _ _ _ E1 Eac) in Ebc.
      * reflexivity.
    + now rewrite IH.
Qed.

Lemma sort_keys_perm (l l' : list (string * string)) :
  l ≡ₚ l' -> NoDup (List.map fst l) -> sort_keys l = sort_keys l'.
Proof.
  induction 1 as [| x l l' Hp IH | x y l | l l' l'' Hp1 IH1 Hp2 IH2];
    intros Hnd.
  - reflexivity.
  - cbn in *. apply NoDup_cons in Hnd as [_ Hnd]. now rewrite IH.
  - cbn in *. apply insert_sorted_comm.
    apply NoDup_cons in Hnd as [Hy _]. intros Heq. apply Hy.
    rewrite Heq. apply elem_of_cons. now left.
  - rewrite IH1 by assumption. apply IH2.
    pose proof (Permutation_map fst Hp1) as Hm. now rewrite <- Hm.
Qed.

(** X15. The encoding of a record does not depend on the order in which
    its entries are held: two lists of entries with distinct keys that are
    permutations of each other are encoded alike, and so is any batch in
    which one stands for the other. *)
Theorem json_Marshal_key_order (m m' : Record_) :
  NoDup (List.map fst m) -> m ≡ₚ m' ->
  json_Marshal m = json_Marshal m'
  /\ forall before after : list Record_,
      convertToLineDelimitedJSON (before ++ m :: after)
      = convertToLineDelimitedJSON (before ++ m' :: after).
Proof.
  intros Hnd Hp.
  assert (Heq : json_Marshal m = json_Marshal m').
  { unfold json_Marshal. cbn [Marshal]. f_equal. f_equal. f_equal. f_equal.
    apply sort_keys_perm.
    - now apply Permutation_map.
    - now rewrite List.map_map. }
  split; [exact Heq|]. intros before after.
  now rewrite !convert_app, !convert_cons, Heq.
Qed.

(** ** Decoded objects *)

Lemma map_set_keys (key : string) (v : Value) (m : list (string * Value)) :
  NoDup (List.map fst m) -> NoDup (List.map fst (map_set key v m)).
Proof.
  induction m as [|[k v'] m IH]; cbn [map_set List.map fst].
  - intros _. apply NoDup_singleton.
  - intros [Hk Hnd]%NoDup_cons.
    destruct (String.eqb_spec k key) as [-> | Hne]; cbn [List.map fst].
    + now apply NoDup_cons.
    + apply NoDup_cons. split; [|now apply IH].
      intros Hin. apply Hk. clear IH Hnd Hk.
      induction m as [|[k2 v2] m IH]; cbn [map_set List.map fst] in *.
      * apply list_elem_of_singleton in Hin. congruence.
      * destruct (String.eqb_spec k2 key) as [-> | Hne2];
          cbn [List.map fst] in *; [exact Hin|].
        apply elem_of_cons in Hin as [-> | Hin];
          apply elem_of_cons; [now left | right; now apply IH].
Qed.

Section Build.
Variable ParseFloat : string -> option Number.

Lemma fold_members_keys (members : list (string * Syntax)) :
  forall acc m,
    (forall m0, acc = Some m0 -> NoDup (List.map fst m0)) ->
    List.fold_left
      (fun acc kv =>
         match acc, build ParseFloat (snd kv) with
         | Some m, Some v => Some (map_set (unquote (fst kv)) v m)
         | _, _ => None
         end) members acc = Some m ->
    NoDup (List.map fst m).
Proof.
  induction members as [|kv members IH]; intros acc m Hacc; cbn [fold_left].
  - apply Hacc.
  - apply IH. intros m0.
    destruct acc as [m1|]; [|discriminate].
    destruct (build ParseFloat (snd kv)); [|discriminate].
    intros [= <-]. apply map_set_keys. now apply Hacc.
Qed.

Lemma build_distinct_keys (t : Syntax) (v : Value) :
  build ParseFloat t = Some v -> distinct_keys v.
Proof.
  intros Hb m ->. destruct t; cbn [build] in Hb; try discriminate.
  - destruct (ParseFloat literal); discriminate.
  - destruct (fold_left _ items _); discriminate.
  - destruct (fold_left _ members _) as [m1|] eqn:Hf; [|discriminate].
    injection Hb as ->. apply (fold_members_keys members _ m) in Hf;
      [exact Hf|].
    intros m0 [= <-]. apply NoDup_nil_2.
Qed.

Lemma fold_items_distinct (items : list Syntax) :
  forall acc l,
    (forall l0, acc = Some l0 -> Forall distinct_keys l0) ->
    List.fold_left
      (fun acc x =>
         match acc, build ParseFloat x with
         | Some l, Some v => Some (l ++ [v])%list
         | _, _ => None
         end) items acc = Some l ->
    Forall distinct_keys l.
Proof.
  induction items as [|x items IH]; intros acc l Hacc; cbn [fold_left].
  - apply Hacc.
  - apply IH. intros l0.
    destruct acc as [l1|]; [|discriminate].
    destruct (build ParseFloat x) as [v|] eqn:Hb; [|discriminate].
    intros [= <-]. apply Forall_app. split; [now apply Hacc|].
    apply Forall_singleton. now apply (build_distinct_keys x).
Qed.

Lemma json_Decode_distinct_keys (body : string) (v : Value) :
  json_Decode ParseFloat body = Ok v ->
  distinct_keys v /\ forall items, v = VSlice items -> Forall distinct_keys items.
Proof.
  unfold json_Decode.
  destruct (skip_ws body) as [|c r]; [discriminate|].
  destruct (scan_value _ _) as [[t rest]|]; [|discriminate].
  destruct (_ <? _)%N; [discriminate|].
  destruct (build ParseFloat t) as [v'|] eqn:Hb; [|discriminate].
  intros [= ->]. split; [now apply (build_distinct_keys t)|].
  intros items ->. destruct t; cbn [build] in Hb; try discriminate.
  - destruct (ParseFloat literal); discriminate.
  - destruct (fold_left _ items0 _) as [l|] eqn:Hf; [|discriminate].
    injection Hb as ->. apply (fold_items_distinct items0 _ items) in Hf;
      [exact Hf|].
    intros l0 [= <-]. constructor.
  - destruct (fold_left _ members _); discriminate.
Qed.
End Build.

Lemma assert_items_inv (data : list Value) :
  forall acc records,
    assert_items data acc = Done records ->
    exists ms, data = List.map VMap ms /\ records = (acc ++ ms)%list.
Proof.
  induction data as [|v data IH]; intros acc records; cbn [assert_items].
  - intros [= <-]. exists []. now rewrite app_nil_r.
  - destruct v; try discriminate. intros Hr.
    apply IH in Hr as (ms & -> & ->). exists (entries :: ms).
    now rewrite <- app_assoc.
Qed.

Section FetchRecords.
Context {W : Type} `{Platform W}.

(** X16. The records that [fetchNBAData] returns hold each key once, as
    Go maps do, so their encoding does not depend on the order of their
    entries. *)
Theorem fetchNBAData_records_are_maps (s s' : State W)
    (records : list Record_) :
  fetchNBAData s = (Done (Ok records), s') ->
  Forall (fun r => NoDup (List.map fst r)) records
  /\ forall r r',
      In r records -> r ≡ₚ r' -> json_Marshal r = json_Marshal r'.
Proof.
  intros Hrun.
  assert (Hnd : Forall (fun r => NoDup (List.map fst r)) records).
  { destruct (fetchNBAData_cases s s' _ Hrun) as (_ & _ & _ & Hcase).
    destruct Hcase as [(e & _ & Ho & _) | [(e & w' & _ & Ho & _) |
                                            (resp & w' & Hdo & ->)]];
      [discriminate Ho | discriminate Ho |].
    destruct (url_Parse (nbaEndpoint s)) as [e|] eqn:Hurl.
    { rewrite (fetchNBAData_bad_url s e Hurl) in Hrun. discriminate Hrun. }
    destruct (fetchNBAData_response s resp w' Hurl Hdo) as (o & Hf & Hh & _).
    rewrite Hf in Hrun. injection Hrun as ->. clear Hf.
    unfold handle_response in Hh.
    destruct (negb _); [discriminate Hh|].
    destruct (json_Decode strconv_ParseFloat (Body resp)) as [v | e] eqn:Hdec;
      [|discriminate Hh].
    apply json_Decode_distinct_keys in Hdec as [Hv Hitems].
    destruct v; try discriminate Hh.
    - unfold bind, lift in Hh.
      destruct (assert_items items []) as [d | code | msg] eqn:Ha;
        try discriminate Hh.
      injection Hh as ->. apply assert_items_inv in Ha as (ms & -> & ->).
      cbn [app]. specialize (Hitems _ eq_refl).
      rewrite Forall_forall in Hitems. apply Forall_forall. intros m Hm.
      apply (Hitems (VMap m)); [|reflexivity].
      apply list_elem_of_In, in_map, list_elem_of_In, Hm.
    - injection Hh as <-. apply Forall_singleton. now apply Hv. }
  split; [exact Hnd|]. intros r r' Hin Hp.
  rewrite Forall_forall in Hnd. apply list_elem_of_In in Hin.
  specialize (Hnd r Hin).
  unfold json_Marshal. cbn [Marshal]. f_equal. f_equal. f_equal. f_equal.
  apply sort_keys_perm; [now apply Permutation_map | now rewrite List.map_map].
Qed.
End FetchRecords.

Lemma digits_value_digit (d : N) (t : string) (a : N) :
  (d < 10)%N ->
  FakePlatform.digits_value (String (digit_char d) t) a
  = FakePlatform.digits_value t (10 * a + d)%N.
Proof.
  intros Hd. cbn [FakePlatform.digits_value]. unfold digit_char.
  rewrite byte_of_chr by lia. f_equal. lia.
Qed.

Lemma utoa_loop_value (fuel : nat) :
  forall (n : N) (acc : string),
    (n < 2 ^ N.of_nat fuel)%N ->
    exists ds k,
      utoa_loop fuel n acc = ds ++ acc
      /\ forall a t,
          FakePlatform.digits_value (ds ++ t) a
          = FakePlatform.digits_value t (a * k + n)%N.
Proof.
  induction fuel as [|fuel IH]; intros n acc Hn.
  - cbn in Hn. assert (n = 0%N) as -> by lia.
    exists EmptyString, 1%N. split; [reflexivity|].
    intros a t. cbn [String.append]. f_equal. lia.
  - cbn [utoa_loop].
    assert (Hmod : (n mod 10 < 10)%N) by (apply N.mod_lt; lia).
    pose proof (N.div_mod n 10 ltac:(lia)) as Hdm.
    destruct (N.eqb_spec (n / 10) 0) as [Hq | Hq].
    + exists (String (digit_char (n mod 10)) EmptyString), 10%N.
      split; [reflexivity|]. intros a t. cbn [String.append].
      rewrite digits_value_digit by exact Hmod. f_equal. lia.
    + destruct (IH (n / 10)%N (String (digit_char (n mod 10)) acc))
        as (ds & k & Heq & Hval).
      { apply N.Div0.div_lt_upper_bound.
        rewrite Nat2N.inj_succ, N.pow_succ_r' in Hn.
        set (p := (2 ^ N.of_nat fuel)%N) in *. lia. }
      exists (ds ++ String (digit_char (n mod 10)) EmptyString), (10 * k)%N.
      split; [now rewrite Heq, append_assoc|].
      intros a t. rewrite append_assoc. cbn [String.append].
      rewrite Hval, digits_value_digit by exact Hmod. f_equal. lia.
Qed.

Lemma utoa_value (n : N) : FakePlatform.digits_value (utoa n) 0 = n.
Proof.
  unfold utoa.
  destruct (utoa_loop_value (S (N.to_nat (N.log2 n))) n EmptyString)
    as (ds & k & Heq & Hval).
  { rewrite Nat2N.inj_succ, N2Nat.id.
    destruct (N.eq_0_gt_0_cases n) as [-> | Hn]; [reflexivity|].
    now apply N.log2_spec. }
  rewrite Heq, Hval. reflexivity.
Qed.

Lemma utoa_not_minus (p : positive) (c : ascii) (r : string) :
  utoa (Npos p) = String c r -> (byte_of c =? 45)%N = false.
Proof.
  destruct (utoa_nonzero (Npos p)) as (d & r' & Heq & Hd & _); [lia|].
  rewrite Heq. intros [= <- _]. apply nonzero_digit_is_digit in Hd.
  unfold is_digit in Hd. apply N.eqb_neq. intros E.
  fold (byte_of d) in Hd. rewrite E in Hd. discriminate Hd.
Qed.

Lemma atoi_itoa (z : Z) : atoi (itoa z) = z.
Proof.
  destruct z as [|p|p]; cbn [itoa].
  - reflexivity.
  - destruct (utoa (Npos p)) as [|c r] eqn:E.
    { destruct (utoa_nonzero (Npos p)) as (d & r' & Heq & _); [lia|].
      congruence. }
    unfold atoi. rewrite (utoa_not_minus p c r E), <- E, utoa_value.
    reflexivity.
  - cbn [String.append]. unfold atoi.
    change (byte_of "-" =? 45)%N with true. cbn iota.
    now rewrite utoa_value.
Qed.

Section StatusLine.
Context {W : Type} `{Platform W}.

(** X17. The decimal rendering of an integer reads back as that integer,
    so different integers are rendered differently; in particular the digits
    in the message of a response whose status is not 200 read back as its
    status code. *)
Theorem itoa_round_trip (z z' : Z) :
  atoi (itoa z) = z
  /\ (itoa z = itoa z' -> z = z')
  /\ forall (s : State W) resp w',
      url_Parse (nbaEndpoint s) = None ->
      http_Do (request_of s) (world s) = (Ok resp, w') ->
      StatusCode resp <> StatusOK ->
      exists digits,
        fst (fetchNBAData s)
        = Done (Err (errorString
                       ("API returned " ++ digits ++ ": " ++ Body resp)))
        /\ atoi digits = StatusCode resp.
Proof.
  split; [apply atoi_itoa|]. split.
  - intros Heq. rewrite <- (atoi_itoa z), <- (atoi_itoa z'). now rewrite Heq.
  - intros s resp w' Hurl Hdo Hcode. exists (itoa (StatusCode resp)).
    split; [|apply atoi_itoa].
    rewrite (fetchNBAData_answered s resp w' Hurl Hdo).
    unfold defer, handle_response.
    destruct (Z.eqb_spec (StatusCode resp) StatusOK) as [E | _];
      [contradiction | reflexivity].
Qed.

(** X18. [createS3Bucket] always returns to its caller and leaves the key
    and the address as they are.  Its first call is the probe; it logs one
    line when it succeeds and none when it fails; an error it returns wraps
    the error of the probe or of the create call. *)
Theorem createS3Bucket_returns (s s' : State W) (o : outcome (option error)) :
  createS3Bucket s = (o, s') ->
  exists r rest,
    o = Done r
    /\ appends s s' (EvHeadBucket bucketName :: rest)
    /\ keeps_config s s'
    /\ List.length (List.filter is_log rest)
       = match r with None => 1%nat | Some _ => 0%nat end
    /\ forall err,
        r = Some err ->
        exists prefix cause,
          err = Errorf_w prefix cause
          /\ (s3_HeadBucket bucketName (world s) = (Some cause, world s')
              \/ exists w1, s3_CreateBucket bucketName w1
                            = (Some cause, world s')).
Proof.
  unfold createS3Bucket, bind, call, log_Printf, emit, ret. intros Hrun.
  destruct (s3_HeadBucket bucketName (world s)) as [[e|] w1] eqn:Hhead;
    cbn in Hrun.
  - destruct (errors_As_NotFound e) eqn:Hnf; cbn in Hrun.
    + destruct (s3_CreateBucket bucketName w1) as [[e'|] w2] eqn:Hcreate;
        cbn in Hrun; injection Hrun as <- <-.
      * eexists _, _. split; [reflexivity|].
        split; [unfold appends; cbn; rewrite <- ?app_assoc; reflexivity|].
        split; [split; reflexivity|]. split; [reflexivity|].
        intros err [= <-]. eexists _, e'. split; [reflexivity|].
        right. exists w1. exact Hcreate.
      * eexists _, _. split; [reflexivity|].
        split; [unfold appends; cbn; rewrite <- ?app_assoc; reflexivity|].
        split; [split; reflexivity|]. split; [reflexivity | discriminate].
    + injection Hrun as <- <-. eexists _, []. split; [reflexivity|].
      split; [reflexivity|]. split; [split; reflexivity|].
      split; [reflexivity|].
      intros err [= <-]. eexists _, e. split; [reflexivity | now left].
  - injection Hrun as <- <-. eexists _, _. split; [reflexivity|].
    split; [unfold appends; cbn; rewrite <- ?app_assoc; reflexivity|].
    split; [split; reflexivity|]. split; [reflexivity | discriminate].
Qed.
End StatusLine.

Lemma skip_ws_space (ws body : string) :
  all_chars isSpace ws = true -> skip_ws (ws ++ body) = skip_ws body.
Proof.
  induction ws as [|c ws IH]; [reflexivity|].
  cbn [all_chars String.append skip_ws].
  intros [Hc Hws]%andb_true_iff. rewrite Hc. now apply IH.
Qed.

Section LeadingSpace.
Context {W : Type} `{Platform W}.

(** X19. White space before the JSON value of a body is ignored by the
    decoder, and so by what [fetchNBAData] makes of a 200 response. *)
Theorem json_Decode_leading_space (ws body : string) :
  all_chars isSpace ws = true ->
  json_Decode strconv_ParseFloat (ws ++ body)
  = json_Decode strconv_ParseFloat body
  /\ forall s : State W,
      handle_response (mkResponse StatusOK (ws ++ body)) s
      = handle_response (mkResponse StatusOK body) s.
Proof.
  intros Hws.
  assert (Hdec : json_Decode strconv_ParseFloat (ws ++ body)
                 = json_Decode strconv_ParseFloat body).
  { unfold json_Decode. now rewrite skip_ws_space. }
  split; [exact Hdec|]. intros s.
  unfold handle_response. cbn [StatusCode Body]. now rewrite Hdec.
Qed.
End LeadingSpace.

(** ** The further properties at concrete worlds *)

Lemma fetchNBAData_outcomes_witness :
  let s := Worlds.configured (Worlds.answering 500 "down") in
  (forall code, fst (fetchNBAData s) <> Exit code)
  /\ apiKey (snd (fetchNBAData s)) = apiKey s
  /\ nbaEndpoint (snd (fetchNBAData s)) = nbaEndpoint s.
Proof.
  intros s.
  assert (Hrun : fetchNBAData s = (fst (fetchNBAData s), snd (fetchNBAData s)))
    by (vm_compute; reflexivity).
  destruct (fetchNBAData_outcomes s _ _ Hrun) as (Hne & Hk & He & _).
  split; [exact Hne|]. split; [exact Hk | exact He].
Defined.

Lemma fetchNBAData_panic_iff_witness :
  let s := Worlds.configured (Worlds.answering 200 "[1,2,3]") in
  exists v,
    fst (fetchNBAData s) = Panic (conversion_panic v) /\ not_a_map v.
Proof.
  intros s.
  assert (Hrun : fetchNBAData s
                 = (Panic (conversion_panic (VFloat64 (mkNumber false 1 0))),
                    snd (fetchNBAData s)))
    by (vm_compute; reflexivity).
  destruct (proj1 (fetchNBAData_panic_iff s _ _) Hrun)
    as (resp & w' & pre & v & rest & _ & _ & _ & _ & Hv & Hmsg & _).
  exists v. rewrite Hrun. cbn [fst]. now rewrite Hmsg.
Defined.

Lemma uploadDataToS3_request_witness :
  let s := Worlds.configured with_bucket in
  let r := uploadDataToS3 bucketName [Worlds.player_A; Worlds.player_B] s in
  exists body,
    trace (snd r)
    = [EvPutObject bucketName "nba_data.json" body
         (Z.of_nat (String.length body))]
    /\ split_lines body
       = [json_Marshal Worlds.player_A; json_Marshal Worlds.player_B].
Proof.
  intros s r.
  assert (Hrun : uploadDataToS3 bucketName [Worlds.player_A; Worlds.player_B] s
                 = (fst r, snd r)) by (vm_compute; reflexivity).
  destruct (uploadDataToS3_request _ _ _ _ _ Hrun)
    as (res & body & _ & Htrace & Hlines & _).
  exists body. split; [exact Htrace | exact Hlines].
Defined.

Lemma main_config_failure_witness :
  main (Worlds.configured no_aws_config)
  = (Exit 1,
     mkState no_aws_config
       [EvLoadDefaultConfig region;
        EvLog "Failed to load configuration: failed to load shared config file"]
       "secret" "https://api.example.test/players").
Proof.
  apply (main_config_failure (Worlds.configured no_aws_config)
           (errorString "failed to load shared config file") no_aws_config).
  reflexivity.
Defined.

Lemma fetchNBAData_decode_error_witness :
  let s := Worlds.configured (Worlds.answering 200 "  ") in
  fetchNBAData s
  = (Done (Err (errorString "EOF")), body_closed (answered s (world s))).
Proof.
  intros s.
  assert (Hurl : url_Parse (nbaEndpoint s) = None) by reflexivity.
  assert (Hdo : http_Do (request_of s) (world s)
                = (Ok (mkResponse 200 "  "), world s)) by reflexivity.
  assert (Hcode : StatusCode (mkResponse 200 "  ") = StatusOK) by reflexivity.
  assert (Hws : skip_ws (Body (mkResponse 200 "  ")) = EmptyString)
    by reflexivity.
  destruct (fetchNBAData_decode_error s _ _ Hurl Hdo Hcode) as [Herr Heof].
  destruct (Herr _ (Heof Hws)) as [Hrun _]. exact Hrun.
Defined.

Lemma program_calls_as_configured_witness :
  let w := FakePlatform.fresh Worlds.two_players_body in
  Forall
    (expected_event
       (os_Getenv "SPORTS_DATA_API_KEY" (snd (godotenv_Load w)))
       (os_Getenv "NBA_ENDPOINT" (snd (godotenv_Load w))))
    (trace (snd (program (start w)))).
Proof.
  intros w.
  assert (Hrun : program (start w)
                 = (fst (program (start w)), snd (program (start w))))
    by (vm_compute; reflexivity).
  destruct (program_calls_as_configured w _ _ Hrun) as (Hall & _ & _).
  exact Hall.
Defined.

Lemma init_returns_iff_witness :
  let s := start (FakePlatform.fresh "[]") in
  fst (godotenv_Load (world s)) = None
  /\ snd (init s) = configured_by s (snd (godotenv_Load (world s))).
Proof.
  intros s.
  assert (Hrun : init s = (Done tt, snd (init s))) by (vm_compute; reflexivity).
  destruct (init_returns_iff s (snd (init s))) as [Hiff _].
  destruct (proj1 Hiff Hrun) as (Hload & _ & _ & Hs).
  split; [exact Hload | exact Hs].
Defined.

Lemma main_upload_wellformed_witness :
  let evs := trace (snd (main two_players_run)) in
  (List.length (List.filter is_put_object evs) <= 1)%nat
  /\ forall b k body n,
      In (EvPutObject b k body n) evs ->
      b = bucketName /\ k = "nba_data.json" /\ 0 < n.
Proof.
  intros evs.
  assert (Hrun : main two_players_run
                 = (fst (main two_players_run), snd (main two_players_run)))
    by (vm_compute; reflexivity).
  assert (Happ : appends two_players_run (snd (main two_players_run)) evs)
    by reflexivity.
  destruct (main_upload_wellformed _ _ _ _ Hrun Happ) as [Hone Hput].
  split; [exact Hone|]. intros b k body n Hin.
  destruct (Hput b k body n Hin) as (Hb & Hk & _ & Hn & _). auto.
Defined.

Lemma main_resources_consistent_witness :
  let evs := trace (snd (main two_players_run)) in
  In (EvCreateTable glueDBName nba_table) evs
  /\ (forall name, In (EvCreateDatabase name) evs -> glueDBName = name)
  /\ (forall db' query output,
         In (EvStartQueryExecution db' query output) evs ->
         db' = glueDBName
         /\ output = Location nba_table ++ "athena-results/").
Proof.
  intros evs.
  assert (Ht : In (EvCreateTable glueDBName nba_table) evs).
  { vm_compute. repeat (first [left; reflexivity | right]). }
  assert (Hrun : main two_players_run
                 = (fst (main two_players_run), snd (main two_players_run)))
    by (vm_compute; reflexivity).
  assert (Happ : appends two_players_run (snd (main two_players_run)) evs)
    by reflexivity.
  destruct (main_resources_consistent _ _ _ _ Hrun Happ _ _ Ht)
    as (_ & _ & Hdb & Hquery).
  split; [exact Ht|]. split; [exact Hdb|].
  intros db' query output Hq.
  destruct (Hquery db' query output Hq) as (Hd & Hout & _). auto.
Defined.

Lemma main_skips_only_upload_witness :
  let evs := trace (snd (main two_players_run)) in
  fst (main two_players_run) = Done tt
  /\ forall st, st <> Upload -> In st (stages_of evs).
Proof.
  intros evs.
  assert (Hdone : fst (main two_players_run) = Done tt)
    by (vm_compute; reflexivity).
  assert (Hrun : main two_players_run
                 = (fst (main two_players_run), snd (main two_players_run)))
    by (vm_compute; reflexivity).
  assert (Happ : appends two_players_run (snd (main two_players_run)) evs)
    by reflexivity.
  destruct (main_skips_only_upload _ _ _ _ Hrun Happ) as [_ Hall].
  split; [exact Hdone | exact (Hall Hdone)].
Defined.

Lemma main_endings_witness :
  exists e,
    ends_with (fst (main (Worlds.configured no_aws_config)))
      (snd (main (Worlds.configured no_aws_config))) e.
Proof.
  apply (main_endings (Worlds.configured no_aws_config)).
  vm_compute. reflexivity.
Defined.

Lemma Fake_upload_replaces_witness :
  let s := Worlds.configured with_bucket in
  exists s1 s2,
    uploadDataToS3 bucketName [Worlds.player_A] s = (Done None, s1)
    /\ uploadDataToS3 bucketName [Worlds.player_B] s1 = (Done None, s2)
    /\ objects (world s2) !! (bucketName, "nba_data.json")
       = Some (convertToLineDelimitedJSON [Worlds.player_B]).
Proof.
  intros s.
  assert (Hin : bucketName ∈ buckets (world s))
    by (vm_compute; reflexivity).
  destruct (Fake_upload_replaces bucketName [Worlds.player_A]
              [Worlds.player_B] s) as [Hput _].
  destruct (Hput Hin) as (s1 & s2 & H1 & H2 & Hobj & _).
  exists s1, s2. auto.
Defined.

Lemma program_second_run_conflicts_witness :
  let s1 := snd (program (start (FakePlatform.fresh "[]"))) in
  exists s2,
    program (start (world s1)) = (Exit 1, s2)
    /\ objects (world s2) = objects (world s1).
Proof.
  intros s1.
  assert (Hrun : program (start (FakePlatform.fresh "[]")) = (Done tt, s1))
    by (vm_compute; reflexivity).
  destruct (program_second_run_conflicts _ _ Hrun)
    as (s2 & Hexit & _ & Hobj & _).
  exists s2. split; [exact Hexit | exact Hobj].
Defined.

Lemma json_Marshal_key_order_witness :
  json_Marshal Worlds.player_A = json_Marshal (List.rev Worlds.player_A).
Proof.
  assert (Hnd : NoDup (List.map fst Worlds.player_A)).
  { apply NoDup_cons_2;
      [rewrite elem_of_cons, elem_of_nil; intros [Heq | []]; discriminate Heq|].
    apply NoDup_singleton. }
  assert (Hp : Worlds.player_A ≡ₚ List.rev Worlds.player_A)
    by apply perm_swap.
  destruct (json_Marshal_key_order _ _ Hnd Hp) as [Heq _]. exact Heq.
Defined.

Lemma fetchNBAData_records_are_maps_witness :
  Forall (fun r => NoDup (List.map fst r)) [Worlds.player_A; Worlds.player_B].
Proof.
  assert (Hrun : fetchNBAData two_players_run
                 = (Done (Ok [Worlds.player_A; Worlds.player_B]),
                    snd (fetchNBAData two_players_run)))
    by (vm_compute; reflexivity).
  destruct (fetchNBAData_records_are_maps _ _ _ Hrun) as [Hnd _]. exact Hnd.
Defined.

Lemma itoa_round_trip_witness :
  let s := Worlds.configured (Worlds.answering 401 "Unauthorized") in
  atoi (itoa (-401)) = -401
  /\ exists digits,
      fst (fetchNBAData s)
      = Done (Err (errorString ("API returned " ++ digits
                                ++ ": " ++ "Unauthorized")))
      /\ atoi digits = 401.
Proof.
  intros s. destruct (itoa_round_trip (W := Fake) (-401) 0) as (Hrt & _ & Hmsg).
  split; [exact Hrt|].
  assert (Hurl : url_Parse (nbaEndpoint s) = None) by reflexivity.
  assert (Hdo : http_Do (request_of s) (world s)
                = (Ok (mkResponse 401 "Unauthorized"), world s))
    by reflexivity.
  assert (Hcode : StatusCode (mkResponse 401 "Unauthorized") <> StatusOK)
    by discriminate.
  exact (Hmsg s _ _ Hurl Hdo Hcode).
Defined.

Lemma createS3Bucket_returns_witness :
  let s := Worlds.configured (Worlds.answering 200 "[]") in
  exists rest,
    fst (createS3Bucket s) = Done None
    /\ trace (snd (createS3Bucket s)) = EvHeadBucket bucketName :: rest
    /\ List.length (List.filter is_log rest) = 1%nat.
Proof.
  intros s.
  assert (Hrun : createS3Bucket s = (Done None, snd (createS3Bucket s)))
    by (vm_compute; reflexivity).
  destruct (createS3Bucket_returns s _ _ Hrun)
    as (r & rest & Hr & Happ & _ & Hlog & _).
  injection Hr as <-. exists rest. rewrite Hrun.
  split; [reflexivity|]. split; [exact Happ | exact Hlog].
Defined.

Lemma json_Decode_leading_space_witness :
  json_Decode FakePlatform.ParseFloat (" " ++ NL ++ "[]")
  = json_Decode FakePlatform.ParseFloat "[]".
Proof.
  assert (Hws : all_chars isSpace (" " ++ NL) = true) by reflexivity.
  destruct (json_Decode_leading_space (W := Fake) (" " ++ NL) "[]" Hws)
    as [Hdec _].
  rewrite <- append_assoc. exact Hdec.
Defined.
